(** * Safe-Browse: the child browser, the parent screens and the classifier contract

    A shallow embedding of the TypeScript front end of Safe-Browse
    (frontend/app/child/browser.tsx, the parent dashboard, activity log and
    settings screens, frontend/contexts/AuthContext.tsx and
    AppModeContext.tsx) together with the content-classifier contract of the
    specification, and the properties the specification states about them.

    Modelling conventions.
    - A JavaScript string is the sequence of its UTF-16 code units
      ([jsstring := list N]); [===] on strings is equality of the sequences.
    - A React event handler is a computation in [Eff]: it reads the network
      oracle, threads the application state (the two contexts and the local
      state of each screen), may throw, and emits the effects an observer
      can see (HTTP requests, alerts, route changes, console output).  Every
      state setter of the source stores an absolute value and every handler
      reads the state it needs before it writes it, so running the setters
      in program order yields the state React commits after the handler.
    - Numbers that the source keeps as doubles and only compares
      (confidence, thresholds, weights) are rationals. *)

From Stdlib Require Import List Bool Arith NArith ZArith QArith Lia String Ascii.
Import ListNotations.
Close Scope Q_scope.

Set Implicit Arguments.

(* ------------------------------------------------------------------ *)
(** ** JavaScript strings *)

Module JS.

Definition jsstring := list N.

(** A string literal of the source, as code units. *)
Definition lit (s : string) : jsstring :=
  List.map N_of_ascii (list_ascii_of_string s).

Fixpoint eqb (a b : jsstring) : bool :=
  match a, b with
  | [], [] => true
  | x :: a', y :: b' => N.eqb x y && eqb a' b'
  | _, _ => false
  end.

(** [s.startsWith(p)] *)
Fixpoint startsWith (s p : jsstring) : bool :=
  match p, s with
  | [], _ => true
  | y :: p', x :: s' => N.eqb x y && startsWith s' p'
  | _ :: _, [] => false
  end.

(** WhiteSpace and LineTerminator code units of ECMAScript, the ones
    [String.prototype.trim] strips. *)
Definition is_whitespace (c : N) : bool :=
  existsb (N.eqb c)
    [9; 10; 11; 12; 13; 32; 160; 5760; 8232; 8233; 8239; 8287; 12288; 65279]%N
  || (N.leb 8192 c && N.leb c 8202).

Fixpoint trimStart (s : jsstring) : jsstring :=
  match s with
  | [] => []
  | c :: s' => if is_whitespace c then trimStart s' else s
  end.

Definition trimEnd (s : jsstring) : jsstring := rev (trimStart (rev s)).

(** [s.trim()] *)
Definition trim (s : jsstring) : jsstring := trimEnd (trimStart s).

(** Truthiness of a string: only the empty string is falsy. *)
Definition truthy (s : jsstring) : bool :=
  match s with [] => false | _ :: _ => true end.

(** Truthiness of a possibly undefined string, as in [!user?.pin]. *)
Definition truthy_opt (o : option jsstring) : bool :=
  match o with Some s => truthy s | None => false end.

(** [a === b] where [b] may be undefined. *)
Definition eqb_opt (a : jsstring) (b : option jsstring) : bool :=
  match b with Some b' => eqb a b' | None => false end.

(** [s.substring(start, end)] for non-negative integer arguments: both
    are clamped to the length and swapped when out of order. *)
Definition substring (s : jsstring) (start end_ : nat) : jsstring :=
  let len := List.length s in
  let a := Nat.min start len in
  let b := Nat.min end_ len in
  firstn (Nat.max a b - Nat.min a b) (skipn (Nat.min a b) s).

(** [xs.join(sep)] *)
Fixpoint join (sep : jsstring) (xs : list jsstring) : jsstring :=
  match xs with
  | [] => []
  | [x] => x
  | x :: xs' => x ++ sep ++ join sep xs'
  end.

(** [\d] of a regular expression: the ten ASCII digits. *)
Definition is_digit (c : N) : bool := N.leb 48 c && N.leb c 57.

(** Consume exactly [n] code units satisfying [p] ([p{n}] matched at the
    head of [s]); the rest of the input is returned. *)
Fixpoint match_repeat (p : N -> bool) (n : nat) (s : jsstring)
  : option jsstring :=
  match n with
  | O => Some s
  | S n' =>
      match s with
      | c :: s' => if p c then match_repeat p n' s' else None
      | [] => None
      end
  end.

(** [/^\d{4}$/.test(s)]: no flags, so [^] and [$] are the two ends of
    the input. *)
Definition test_digits4 (s : jsstring) : bool :=
  match match_repeat is_digit 4 s with
  | Some [] => true
  | _ => false
  end.

End JS.

Import JS.

(* ------------------------------------------------------------------ *)
(** ** Data of the application *)

(** [interface User] of AuthContext.tsx.  [{ ...user!, pin }] in
    [updatePin] can build a user from [null], so at run time the three
    mandatory fields may be undefined as well. *)
Record User := mkUser {
  user_id : option jsstring;
  user_email : option jsstring;
  user_name : option jsstring;
  user_pin : option jsstring
}.

(** [user?.pin] *)
Definition pin_of (u : option User) : option jsstring :=
  match u with Some u' => user_pin u' | None => None end.

(** [type AppMode = 'parent' | 'child'] *)
Inductive AppMode := parent | child.

(** [interface Profile] of the dashboard. *)
Record Profile := mkProfile {
  profile_ident : jsstring;
  profile_name_of : jsstring;
  profile_age : nat;
  maturity_level : jsstring
}.

(** Body of the POST to /api/content/analyze, with the bearer token. *)
Record AnalyzeRequest := mkAnalyzeRequest {
  req_profile_id : option jsstring;
  req_content_type : jsstring;
  req_content : jsstring;
  req_context : jsstring;
  req_token : option jsstring
}.

(** [response.data] of the analyze endpoint: is_safe, confidence,
    reasons, blocked. *)
Record AnalyzeResponse := mkAnalyzeResponse {
  resp_is_safe : bool;
  resp_confidence : Q;
  resp_reasons : list jsstring;
  resp_blocked : bool
}.

(** A settled axios promise: resolved with the response data, or rejected
    with the [detail] of the error response, if there is one. *)
Inductive Settled (A : Type) :=
| Resolved (data : A)
| Rejected (detail : option jsstring).
Arguments Rejected {A} detail.

(** The back end as the front end sees it. *)
Record Net := mkNet {
  post_analyze : AnalyzeRequest -> Settled AnalyzeResponse;
  put_pin : jsstring -> option jsstring -> Settled unit
}.

(** What a handler can throw. *)
Inductive Exn :=
| AxiosError (detail : option jsstring)
| SyntaxError
| Error (message : jsstring).

(** Effects of a handler that are visible outside the component state.
    The two WebView events are the calls made through [webViewRef], which
    do nothing while the WebView is not mounted. *)
Inductive Event :=
| SentAnalyze (r : AnalyzeRequest)
| SentPutPin (pin : jsstring) (token : option jsstring)
| Alerted (title message : jsstring)
| ConsoleError (label : jsstring)
| RouterPush (path : jsstring)
| RouterReplace (path : jsstring)
| WebViewReload
| WebViewStopLoading.

(** State of AuthContext, with the two AsyncStorage entries it keeps. *)
Record AuthState := mkAuth {
  user : option User;
  token : option jsstring;
  stored_user : option User;
  stored_token : option jsstring
}.

(** State of AppModeContext. *)
Record AppModeState := mkAppMode {
  mode : AppMode;
  selectedProfile : option jsstring
}.

(** Local state of ChildBrowser. *)
Record BrowserState := mkBrowser {
  url : jsstring;
  currentUrl : jsstring;
  canGoBack : bool;
  canGoForward : bool;
  loading : bool;
  blocked : bool;
  blockReason : jsstring;
  exitModalVisible : bool;
  pin : jsstring
}.

(** Local state of Settings. *)
Record SettingsState := mkSettings {
  pinModalVisible : bool;
  newPin : jsstring;
  confirmPin : jsstring
}.

Record App := mkApp {
  auth : AuthState;
  appMode : AppModeState;
  browser : BrowserState;
  settings : SettingsState
}.

(** The values of the [useState] initialisers. *)
Definition initialBrowser : BrowserState :=
  let home := lit "https://www.google.com" in
  mkBrowser home home false false false false [] false [].

Definition initialAppMode : AppModeState := mkAppMode parent None.

Definition initialSettings : SettingsState := mkSettings false [] [].

(* ------------------------------------------------------------------ *)
(** ** Handlers as computations *)

Module Eff.

Inductive Res (A : Type) :=
| Ok (a : A)
| Throw (e : Exn).
Arguments Throw {A} e.

Record Run (A : Type) := mkRun {
  outcome : Res A;
  final : App;
  emitted : list Event
}.

Definition Eff (A : Type) := Net -> App -> Run A.

Definition ret {A} (a : A) : Eff A := fun _ s => mkRun (Ok a) s [].

Definition bind {A B} (m : Eff A) (k : A -> Eff B) : Eff B :=
  fun net s =>
    let r := m net s in
    match outcome r with
    | Ok a =>
        let r' := k a net (final r) in
        mkRun (outcome r') (final r') (emitted r ++ emitted r')
    | Throw e => mkRun (Throw e) (final r) (emitted r)
    end.

Definition throw {A} (e : Exn) : Eff A := fun _ s => mkRun (Throw e) s [].

(** [try { m } catch (e) { h e }]: the state written before the throw
    stays written. *)
Definition try_catch {A} (m : Eff A) (h : Exn -> Eff A) : Eff A :=
  fun net s =>
    let r := m net s in
    match outcome r with
    | Ok _ => r
    | Throw e =>
        let r' := h e net (final r) in
        mkRun (outcome r') (final r') (emitted r ++ emitted r')
    end.

Definition get : Eff App := fun _ s => mkRun (Ok s) s [].
Definition modify (f : App -> App) : Eff unit :=
  fun _ s => mkRun (Ok tt) (f s) [].
Definition ask : Eff Net := fun net s => mkRun (Ok net) s [].
Definition emit (ev : Event) : Eff unit := fun _ s => mkRun (Ok tt) s [ev].

(** [await p] for a settled promise. *)
Definition await {A} (p : Settled A) : Eff A :=
  match p with
  | Resolved a => ret a
  | Rejected d => throw (AxiosError d)
  end.

End Eff.

Import Eff.

Declare Scope eff_scope.
Delimit Scope eff_scope with eff.
Notation "x <- c ;; k" := (bind c (fun x => k))
  (at level 61, c at next level, right associativity) : eff_scope.
Notation "c ;; k" := (bind c (fun _ => k))
  (at level 61, right associativity) : eff_scope.
Open Scope eff_scope.

(** *** State setters *)

Definition on_browser (f : BrowserState -> BrowserState) : Eff unit :=
  modify (fun s => mkApp (auth s) (appMode s) (f (browser s)) (settings s)).
Definition on_appMode (f : AppModeState -> AppModeState) : Eff unit :=
  modify (fun s => mkApp (auth s) (f (appMode s)) (browser s) (settings s)).
Definition on_auth (f : AuthState -> AuthState) : Eff unit :=
  modify (fun s => mkApp (f (auth s)) (appMode s) (browser s) (settings s)).
Definition on_settings (f : SettingsState -> SettingsState) : Eff unit :=
  modify (fun s => mkApp (auth s) (appMode s) (browser s) (f (settings s))).

Definition setUrl (v : jsstring) : Eff unit :=
  on_browser (fun b => mkBrowser v (currentUrl b) (canGoBack b) (canGoForward b)
    (loading b) (blocked b) (blockReason b) (exitModalVisible b) (pin b)).
Definition setCurrentUrl (v : jsstring) : Eff unit :=
  on_browser (fun b => mkBrowser (url b) v (canGoBack b) (canGoForward b)
    (loading b) (blocked b) (blockReason b) (exitModalVisible b) (pin b)).
Definition setCanGoBack (v : bool) : Eff unit :=
  on_browser (fun b => mkBrowser (url b) (currentUrl b) v (canGoForward b)
    (loading b) (blocked b) (blockReason b) (exitModalVisible b) (pin b)).
Definition setCanGoForward (v : bool) : Eff unit :=
  on_browser (fun b => mkBrowser (url b) (currentUrl b) (canGoBack b) v
    (loading b) (blocked b) (blockReason b) (exitModalVisible b) (pin b)).
Definition setLoading (v : bool) : Eff unit :=
  on_browser (fun b => mkBrowser (url b) (currentUrl b) (canGoBack b)
    (canGoForward b) v (blocked b) (blockReason b) (exitModalVisible b) (pin b)).
Definition setBlocked (v : bool) : Eff unit :=
  on_browser (fun b => mkBrowser (url b) (currentUrl b) (canGoBack b)
    (canGoForward b) (loading b) v (blockReason b) (exitModalVisible b) (pin b)).
Definition setBlockReason (v : jsstring) : Eff unit :=
  on_browser (fun b => mkBrowser (url b) (currentUrl b) (canGoBack b)
    (canGoForward b) (loading b) (blocked b) v (exitModalVisible b) (pin b)).
Definition setExitModalVisible (v : bool) : Eff unit :=
  on_browser (fun b => mkBrowser (url b) (currentUrl b) (canGoBack b)
    (canGoForward b) (loading b) (blocked b) (blockReason b) v (pin b)).
Definition setPin (v : jsstring) : Eff unit :=
  on_browser (fun b => mkBrowser (url b) (currentUrl b) (canGoBack b)
    (canGoForward b) (loading b) (blocked b) (blockReason b)
    (exitModalVisible b) v).

Definition setMode (m : AppMode) : Eff unit :=
  on_appMode (fun a => mkAppMode m (selectedProfile a)).
Definition setSelectedProfile (p : option jsstring) : Eff unit :=
  on_appMode (fun a => mkAppMode (mode a) p).

Definition setUser (u : option User) : Eff unit :=
  on_auth (fun a => mkAuth u (token a) (stored_user a) (stored_token a)).
Definition storeUser (u : option User) : Eff unit :=
  on_auth (fun a => mkAuth (user a) (token a) u (stored_token a)).

Definition setPinModalVisible (v : bool) : Eff unit :=
  on_settings (fun t => mkSettings v (newPin t) (confirmPin t)).
Definition setNewPin (v : jsstring) : Eff unit :=
  on_settings (fun t => mkSettings (pinModalVisible t) v (confirmPin t)).
Definition setConfirmPin (v : jsstring) : Eff unit :=
  on_settings (fun t => mkSettings (pinModalVisible t) (newPin t) v).

(** *** HTTP calls *)

(** [axios.post(`${API_URL}/api/content/analyze`, body, headers)] *)
Definition axios_post_analyze (r : AnalyzeRequest) : Eff AnalyzeResponse :=
  emit (SentAnalyze r);;
  net <- ask;;
  await (post_analyze net r).

(** [axios.put(`${API_URL}/api/auth/pin`, { pin }, headers)] *)
Definition axios_put_pin (p : jsstring) (tok : option jsstring) : Eff unit :=
  emit (SentPutPin p tok);;
  net <- ask;;
  await (put_pin net p tok).

(** [error.message] in a catch clause. *)
Definition message_of (e : Exn) : jsstring :=
  match e with
  | Error m => m
  | AxiosError _ => lit "Request failed"
  | SyntaxError => lit "JSON Parse error"
  end.

(** The requests of a run, in the order they were sent. *)
Fixpoint analyze_requests (evs : list Event) : list AnalyzeRequest :=
  match evs with
  | [] => []
  | SentAnalyze r :: evs' => r :: analyze_requests evs'
  | _ :: evs' => analyze_requests evs'
  end.

Fixpoint pin_requests (evs : list Event) : list jsstring :=
  match evs with
  | [] => []
  | SentPutPin p _ :: evs' => p :: pin_requests evs'
  | _ :: evs' => pin_requests evs'
  end.

(* ------------------------------------------------------------------ *)
(** ** frontend/contexts/AuthContext.tsx *)

Module AuthContext.

(** [{ ...user!, pin }] *)
Definition with_pin (u : option User) (p : jsstring) : User :=
  match u with
  | Some u' => mkUser (user_id u') (user_email u') (user_name u') (Some p)
  | None => mkUser None None None (Some p)
  end.

(** [error.response?.data?.detail || 'Failed to update PIN'] *)
Definition detail_or (e : Exn) (fallback : jsstring) : jsstring :=
  match e with
  | AxiosError (Some d) => if truthy d then d else fallback
  | _ => fallback
  end.

Definition updatePin (p : jsstring) : Eff unit :=
  try_catch
    (s <- get;;
     axios_put_pin p (token (auth s));;
     let updatedUser := with_pin (user (auth s)) p in
     storeUser (Some updatedUser);;
     setUser (Some updatedUser))
    (fun e =>
       emit (ConsoleError (lit "Update PIN error:"));;
       throw (Error (detail_or e (lit "Failed to update PIN")))).

End AuthContext.

(* ------------------------------------------------------------------ *)
(** ** frontend/app/child/browser.tsx *)

Module ChildBrowser.

(** The body and the authorisation header [analyzeUrl] posts. *)
Definition url_request (s : App) (targetUrl : jsstring) : AnalyzeRequest :=
  mkAnalyzeRequest (selectedProfile (appMode s)) (lit "url")
    targetUrl targetUrl (token (auth s)).

Definition analyzeUrl (targetUrl : jsstring) : Eff bool :=
  try_catch
    (s <- get;;
     data <- axios_post_analyze (url_request s targetUrl);;
     if resp_blocked data then
       setBlocked true;;
       setBlockReason (join (lit ", ") (resp_reasons data));;
       ret false
     else
       ret true)
    (fun _ =>
       emit (ConsoleError (lit "Error analyzing URL:"));;
       ret true (* Allow on error to not break browsing *)).

(** The address the navigation uses: [https://] is added if no protocol
    is specified. *)
Definition with_protocol (targetUrl : jsstring) : jsstring :=
  if negb (startsWith targetUrl (lit "http://"))
     && negb (startsWith targetUrl (lit "https://"))
  then lit "https://" ++ targetUrl
  else targetUrl.

Definition handleNavigate : Eff unit :=
  s <- get;;
  let targetUrl := trim (url (browser s)) in
  if negb (truthy targetUrl) then
    ret tt
  else
    let targetUrl := with_protocol targetUrl in
    setLoading true;;
    isSafe <- analyzeUrl targetUrl;;
    setLoading false;;
    if isSafe then
      setCurrentUrl targetUrl;;
      setBlocked false;;
      emit WebViewReload
    else
      ret tt.

(** The analysis of request [q] does not end in a block: the call is
    rejected, or it resolves with [blocked] false. *)
Definition allowed (net : Net) (q : AnalyzeRequest) : bool :=
  match post_analyze net q with
  | Resolved data => negb (resp_blocked data)
  | Rejected _ => true
  end.

(** The fields of [navState] the handler reads. *)
Record NavState := mkNavState {
  nav_url : jsstring;
  nav_canGoBack : bool;
  nav_canGoForward : bool
}.

(** Returns [Some false] for [return false] and [None] for undefined. *)
Definition handleWebViewNavigationStateChange (navState : NavState)
  : Eff (option bool) :=
  s <- get;;
  setCanGoBack (nav_canGoBack navState);;
  setCanGoForward (nav_canGoForward navState);;
  if negb (eqb (nav_url navState) (currentUrl (browser s))) then
    isSafe <- analyzeUrl (nav_url navState);;
    if negb isSafe then
      emit WebViewStopLoading;;
      ret (Some false)
    else
      ret None
  else
    ret None.

(** What [JSON.parse(event.nativeEvent.data)] yields: a syntax error, or
    the [type] and [content] of the posted object. *)
Record Message := mkMessage {
  msg_type : jsstring;
  msg_content : jsstring
}.

Inductive EventData :=
| Unparsable
| Parsed (data : Message).

Definition JSON_parse (d : EventData) : Eff Message :=
  match d with
  | Parsed m => ret m
  | Unparsable => throw SyntaxError
  end.

Definition handleWebViewMessage (event : EventData) : Eff unit :=
  try_catch
    (s <- get;;
     data <- JSON_parse event;;
     if eqb (msg_type data) (lit "text") then
       response <- axios_post_analyze
                     (mkAnalyzeRequest (selectedProfile (appMode s))
                        (lit "text") (msg_content data)
                        (currentUrl (browser s)) (token (auth s)));;
       if resp_blocked response then
         setBlocked true;;
         setBlockReason (join (lit ", ") (resp_reasons response))
       else
         ret tt
     else
       ret tt)
    (fun _ => emit (ConsoleError (lit "Error handling webview message:"))).

Definition handleExitChildMode : Eff unit :=
  s <- get;;
  if negb (truthy_opt (pin_of (user (auth s)))) then
    emit (Alerted (lit "Error") (lit "PIN not set. Please contact parent."))
  else
    setExitModalVisible true.

Definition verifyPinAndExit : Eff unit :=
  s <- get;;
  if eqb_opt (pin (browser s)) (pin_of (user (auth s))) then
    setMode parent;;
    setExitModalVisible false;;
    setPin [];;
    emit (RouterReplace (lit "/parent/dashboard"))
  else
    emit (Alerted (lit "Error") (lit "Incorrect PIN"));;
    setPin [].

Definition handleUnblock : Eff unit :=
  setBlocked false;;
  setBlockReason [].

(** The body of the screen: the block screen with its reason when
    [blocked], the WebView on [currentUrl] otherwise. *)
Inductive Body :=
| BlockedScreen (reason : jsstring)
| WebViewOn (uri : jsstring).

Definition render (b : BrowserState) : Body :=
  if blocked b then BlockedScreen (blockReason b) else WebViewOn (currentUrl b).

(** The message both the MutationObserver callback and the initial check
    of [injectedJavaScript] post: [JSON.stringify] of the type tag and the
    first 500 code units of [document.body.innerText], which the handler
    reads back with [JSON.parse]. *)
Definition postMessage (innerText : jsstring) : EventData :=
  let bodyText := substring innerText 0 500 in
  Parsed (mkMessage (lit "text") bodyText).

(** The messages of the injected script for the successive values of
    [document.body.innerText] it observes (the initial check and one per
    mutation). *)
Definition injectedJavaScript (innerTexts : list jsstring) : list EventData :=
  List.map postMessage innerTexts.

(** The [onMessage] handler run on each message in turn. *)
Fixpoint onMessages (events : list EventData) : Eff unit :=
  match events with
  | [] => ret tt
  | e :: events' => handleWebViewMessage e;; onMessages events'
  end.

End ChildBrowser.

(* ------------------------------------------------------------------ *)
(** ** The parent dashboard (frontend/app/parent/dashboard.tsx) *)

Module Dashboard.

Definition enterChildMode (profile : Profile) : Eff unit :=
  s <- get;;
  if negb (truthy_opt (pin_of (user (auth s)))) then
    emit (Alerted (lit "PIN Required")
            (lit "Please set up a PIN in Settings before entering Child Mode"))
  else
    setSelectedProfile (Some (profile_ident profile));;
    setMode child;;
    emit (RouterPush (lit "/child/browser")).

End Dashboard.

(* ------------------------------------------------------------------ *)
(** ** The settings screen (frontend/app/parent/settings.tsx) *)

Module Settings.

Definition handlePinUpdate : Eff unit :=
  s <- get;;
  let newPin := newPin (settings s) in
  let confirmPin := confirmPin (settings s) in
  if negb (Nat.eqb (List.length newPin) 4) || negb (test_digits4 newPin) then
    emit (Alerted (lit "Error") (lit "PIN must be 4 digits"))
  else if negb (eqb newPin confirmPin) then
    emit (Alerted (lit "Error") (lit "PINs do not match"))
  else
    try_catch
      (AuthContext.updatePin newPin;;
       emit (Alerted (lit "Success") (lit "PIN updated successfully"));;
       setPinModalVisible false;;
       setNewPin [];;
       setConfirmPin [])
      (fun error => emit (Alerted (lit "Error") (message_of error))).

End Settings.

(* ------------------------------------------------------------------ *)
(** ** The activity log screen (frontend/app/parent/logs.tsx) *)

Module Logs.

Record Log := mkLog {
  id : jsstring;
  profile_id : jsstring;
  profile_name : jsstring;
  content_type : jsstring;
  detected_at : jsstring;
  is_safe : bool;
  confidence : Q;
  reasons : list jsstring;
  content_snippet : jsstring;
  url : option jsstring
}.

Definition getContentTypeIcon (type : jsstring) : jsstring :=
  if eqb type (lit "text") then lit "text"
  else if eqb type (lit "image") then lit "image"
  else if eqb type (lit "url") then lit "globe"
  else lit "alert-circle".

Definition filteredLogs (logs : list Log) : list Log :=
  List.filter (fun log => negb (is_safe log)) logs.

(** One card of the list, keyed by the id of the log it shows. *)
Record LogCard := mkLogCard {
  card_key : jsstring;
  card_icon : jsstring;
  card_profile : jsstring;
  card_time : jsstring;
  card_confidence : Q;
  card_reasons : list jsstring;
  card_snippet : option jsstring;
  card_url : option jsstring
}.

(** [cond && <View/>] renders nothing for a falsy string. *)
Definition when_truthy (s : jsstring) : option jsstring :=
  if truthy s then Some s else None.

Definition card (log : Log) : LogCard :=
  mkLogCard (id log) (getContentTypeIcon (content_type log))
    (profile_name log) (detected_at log) (confidence log) (reasons log)
    (when_truthy (content_snippet log))
    (match url log with Some u => when_truthy u | None => None end).

Inductive View :=
| EmptyState
| Cards (cards : list LogCard).

(** The body of the scroll view. *)
Definition render (logs : list Log) : View :=
  if Nat.eqb (List.length (filteredLogs logs)) 0 then EmptyState
  else Cards (List.map card (filteredLogs logs)).

(** The cards on the screen. *)
Definition rendered (logs : list Log) : list LogCard :=
  match render logs with
  | EmptyState => []
  | Cards cs => cs
  end.

End Logs.

(* ------------------------------------------------------------------ *)
(** ** Mode switching as a transition system *)

Module Session.

(** What the user can do on the dashboard, in the child browser and in
    the PIN dialog of the settings. *)
Inductive Action :=
| EnterChildMode (profile : Profile)
| HandleExitChildMode
| CloseExitModal
| TypePin (text : jsstring)
| VerifyPinAndExit
| TypeNewPin (text : jsstring)
| TypeConfirmPin (text : jsstring)
| HandlePinUpdate.

Definition handler (a : Action) : Eff unit :=
  match a with
  | EnterChildMode profile => Dashboard.enterChildMode profile
  | HandleExitChildMode => ChildBrowser.handleExitChildMode
  | CloseExitModal => setExitModalVisible false
  | TypePin text => setPin text
  | VerifyPinAndExit => ChildBrowser.verifyPinAndExit
  | TypeNewPin text => setNewPin text
  | TypeConfirmPin text => setConfirmPin text
  | HandlePinUpdate => Settings.handlePinUpdate
  end.

Definition step (net : Net) (s : App) (a : Action) : App :=
  final (handler a net s).

Definition run (net : Net) (actions : list Action) (s : App) : App :=
  fold_left (step net) actions s.

(** A change of mode across one step is one of the two gated ones. *)
Definition gated (s : App) (a : Action) (s' : App) : Prop :=
  match mode (appMode s), mode (appMode s') with
  | parent, child =>
      (exists profile, a = EnterChildMode profile)
      /\ exists p, pin_of (user (auth s)) = Some p /\ p <> []
  | child, parent =>
      a = VerifyPinAndExit
      /\ pin_of (user (auth s)) = Some (pin (browser s))
  | _, _ => True
  end.

End Session.

(* ------------------------------------------------------------------ *)
(** ** The content classifier *)

Module Classifier.

(** The classifier runs in the back end (backend/server.py), which is not
    among the sources; this module follows sections 3 and 4.1 of the
    specification. *)

(** Text as a sequence of code points. *)
Definition str := list N.

(** Modelled from the spec: the content types of a request. *)
Inductive ContentType := text | url | image.

(** Modelled from the spec: the safety levels of a profile. *)
Inductive SafetyLevel := strict | moderate | lenient.

(** Modelled from the spec: the ClassificationRequest of the data model. *)
Record ClassificationRequest := mkRequest {
  contentType : ContentType;
  content : str;
  context : str;
  safetyLevel : SafetyLevel
}.

(** Modelled from the spec: the Detection of the data model. *)
Record Detection := mkDetection {
  reason : str;
  weight : Q
}.

(** Modelled from the spec: the Verdict of the data model. *)
Record Verdict := mkVerdict {
  isSafe : bool;
  blocked : bool;
  confidence : Q;
  reasons : list str
}.

(** Modelled from the spec: the SafetyLevel -> threshold table of the
    classifier, whose code (backend/server.py) is not part of the sources;
    the README of the repository gives the same three values. *)
Definition threshold (l : SafetyLevel) : Q :=
  match l with
  | strict => 0.80%Q
  | moderate => 0.65%Q
  | lenient => 0.50%Q
  end.

(** The age band of each level as the README lists them: Strict (Ages
    5-8), Moderate (Ages 9-12), Lenient (Ages 13+); [None] is an open
    upper end. *)
Definition age_band (l : SafetyLevel) : nat * option nat :=
  match l with
  | strict => (5, Some 8)
  | moderate => (9, Some 12)
  | lenient => (13, None)
  end.

(** Band [a] lies entirely below band [b]. *)
Definition band_below (a b : SafetyLevel) : Prop :=
  match snd (age_band a) with
  | Some hi => (hi < fst (age_band b))%nat
  | None => False
  end.

(** Modelled from the spec: the rule tables, which the spec describes as
    static data sets bundled with the classifier without listing them, and
    the internal cap of the emoji category. *)
Record RuleTables := mkRuleTables {
  explicit_keywords : list str;
  coded_slang : list str;
  suggestive_emoji : list N;
  violence_keywords : list str;
  adult_domains : list str;
  url_keywords : list str;
  emoji_cap : Q
}.

(** Modelled from the spec: lower-casing, on the ASCII letters. *)
Definition lower (c : N) : N :=
  if N.leb 65 c && N.leb c 90 then (c + 32)%N else c.

(** Modelled from the spec: the punctuation that normalisation strips,
    the ASCII punctuation marks. *)
Definition is_punct (c : N) : bool :=
  (N.leb 33 c && N.leb c 47) || (N.leb 58 c && N.leb c 64)
  || (N.leb 91 c && N.leb c 96) || (N.leb 123 c && N.leb c 126).

(** Modelled from the spec: normalisation of text content (lower-cased,
    punctuation-stripped; symbols outside ASCII are kept). *)
Definition normalize (s : str) : str :=
  List.filter (fun c => negb (is_punct c)) (List.map lower s).

(** Modelled from the spec: substring match of a term. *)
Fixpoint contains (s term : str) : bool :=
  startsWith s term
  || match s with
     | [] => false
     | _ :: s' => contains s' term
     end.

(** Modelled from the spec: the first term of a table found in the text. *)
Definition first_match (terms : list str) (s : str) : option str :=
  List.find (fun t => contains s t) terms.

(** Modelled from the spec: what follows the first "://" of a URL. *)
Fixpoint drop_until_scheme (s : str) : option str :=
  match s with
  | [] => None
  | _ :: s' =>
      if startsWith s (lit "://") then Some (skipn 3 s)
      else drop_until_scheme s'
  end.

(** Modelled from the spec: the host ends at the first of / ? # and :. *)
Fixpoint take_host (s : str) : str :=
  match s with
  | [] => []
  | c :: s' =>
      if existsb (N.eqb c) [47; 63; 35; 58]%N then [] else c :: take_host s'
  end.

(** Modelled from the spec: hostname extraction for the domain list; it
    fails on a string without a scheme separator or with an empty host. *)
Definition hostname (u : str) : option str :=
  match drop_until_scheme u with
  | Some rest =>
      match take_host rest with
      | [] => None
      | h => Some h
      end
  | None => None
  end.

Section Rules.

Variable T : RuleTables.

(** Modelled from the spec: category 1, explicit keywords. *)
Definition explicit_rule (normalized : str) : option Detection :=
  match first_match (explicit_keywords T) normalized with
  | Some term => Some (mkDetection (lit "explicit keyword: " ++ term) 0.5%Q)
  | None => None
  end.

(** Modelled from the spec: category 2, coded slang. *)
Definition slang_rule (normalized : str) : option Detection :=
  match first_match (coded_slang T) normalized with
  | Some phrase => Some (mkDetection (lit "coded phrase: " ++ phrase) 0.35%Q)
  | None => None
  end.

(** Modelled from the spec: the distinct symbols of the emoji set found in
    the original text. *)
Definition matched_emoji (original : str) : list N :=
  List.filter (fun e => existsb (N.eqb e) original)
    (nodup N.eq_dec (suggestive_emoji T)).

(** Modelled from the spec: the minimum used for the cap and for the
    saturation of the confidence at 1. *)
Definition qmin (a b : Q) : Q := if Qle_bool a b then a else b.

(** Modelled from the spec: category 3, 0.2 per distinct emoji, up to the
    cap of the category. *)
Definition emoji_rule (original : str) : option Detection :=
  match matched_emoji original with
  | [] => None
  | found =>
      Some (mkDetection (lit "suggestive emoji")
              (qmin (emoji_cap T)
                 (0.2 * inject_Z (Z.of_nat (List.length found)))%Q))
  end.

(** Modelled from the spec: category 4, violence keywords. *)
Definition violence_rule (normalized : str) : option Detection :=
  match first_match (violence_keywords T) normalized with
  | Some _ => Some (mkDetection (lit "violence-related content") 0.4%Q)
  | None => None
  end.

(** Modelled from the spec: category 5, the adult domain list; skipped
    when the hostname cannot be extracted. *)
Definition domain_rule (lowered : str) : option Detection :=
  match hostname lowered with
  | Some host =>
      if existsb (fun d => contains host d) (adult_domains T)
      then Some (mkDetection (lit "known adult domain") 0.9%Q)
      else None
  | None => None
  end.

(** Modelled from the spec: category 6, the URL keyword scan. *)
Definition url_keyword_rule (lowered : str) : option Detection :=
  match first_match (url_keywords T) lowered with
  | Some _ => Some (mkDetection (lit "suspicious URL pattern") 0.3%Q)
  | None => None
  end.

(** Modelled from the spec: the detections of the categories that matched,
    in scan order. *)
Definition fired (rules : list (option Detection)) : list Detection :=
  List.flat_map (fun r => match r with Some d => [d] | None => [] end) rules.

(** Modelled from the spec: which categories run for a content type, in
    scan order (steps 1 and 2 of the scoring algorithm). *)
Definition detections (r : ClassificationRequest) : list Detection :=
  match contentType r with
  | text =>
      let n := normalize (content r) in
      fired [explicit_rule n; slang_rule n; emoji_rule (content r);
             violence_rule n]
  | url =>
      let l := List.map lower (content r) in
      fired [explicit_rule l; slang_rule l; violence_rule l;
             domain_rule l; url_keyword_rule l]
  | image => []
  end.

(** Modelled from the spec: the sum of the weights of the detections. *)
Definition totalScore (ds : list Detection) : Q :=
  fold_right (fun d acc => weight d + acc)%Q 0%Q ds.

(** Modelled from the spec: the scoring algorithm of the classifier
    (steps 3 to 6), whose code is not part of the sources. *)
Definition classify (r : ClassificationRequest) : Verdict :=
  let ds := detections r in
  let confidence := qmin 1%Q (totalScore ds) in
  let isSafe := negb (Qle_bool (threshold (safetyLevel r)) confidence) in
  mkVerdict isSafe (negb isSafe) confidence (List.map reason ds).

End Rules.

(** A rule that fires contributes a weight that is not negative. *)
Definition sound (rule : option Detection) : Prop :=
  match rule with Some d => (0 <= weight d)%Q | None => True end.

(** The table as the spec prints it. *)
Definition table_values : Prop :=
  threshold strict = 0.80%Q
  /\ threshold moderate = 0.65%Q
  /\ threshold lenient = 0.50%Q.

Definition strict_above_moderate_above_lenient : Prop :=
  (threshold moderate < threshold strict)%Q
  /\ (threshold lenient < threshold moderate)%Q.

(** Thresholds strictly increase as the age band increases. *)
Definition thresholds_increase_with_age : Prop :=
  forall a b, band_below a b -> (threshold a < threshold b)%Q.

(** Thresholds strictly decrease as the age band increases. *)
Definition thresholds_decrease_with_age : Prop :=
  forall a b, band_below a b -> (threshold b < threshold a)%Q.

(** The terms the README gives as examples of each table. *)
Definition readme_tables : RuleTables :=
  mkRuleTables
    [lit "porn"; lit "xxx"; lit "nude"]
    [lit "netflix and chill"; lit "hook up"]
    [127814; 127825; 128166]%N
    [lit "kill"; lit "murder"; lit "weapon"]
    [lit "knownadultdomain.example"]
    [lit "porn"; lit "xxx"]
    0.6%Q.

End Classifier.

(* ------------------------------------------------------------------ *)
(** ** Vocabulary of the properties *)

(** The three checks of [handlePinUpdate] as one proposition. *)
Definition valid_pin_form (t : SettingsState) : Prop :=
  List.length (newPin t) = 4
  /\ Forall (fun c => is_digit c = true) (newPin t)
  /\ newPin t = confirmPin t.

(** The user has a PIN, and it is not the empty string. *)
Definition has_pin (s : App) : Prop :=
  exists p, pin_of (user (auth s)) = Some p /\ p <> [].

(** In child mode the user has a PIN. *)
Definition child_has_pin (s : App) : Prop :=
  mode (appMode s) = child -> has_pin s.

(** Sample data: a back end that is down, one that blocks everything
    with two reasons, one that allows everything, and a few states. *)
Module Sample.

Definition net_down : Net :=
  mkNet (fun _ => Rejected None) (fun _ _ => Rejected None).

Definition net_block : Net :=
  mkNet (fun _ => Resolved (mkAnalyzeResponse false 0.9%Q
                              [lit "known adult domain";
                               lit "suspicious URL pattern"] true))
        (fun _ _ => Resolved tt).

Definition net_allow : Net :=
  mkNet (fun _ => Resolved (mkAnalyzeResponse true 0%Q [] false))
        (fun _ _ => Resolved tt).

Definition parent_user (p : option jsstring) : User :=
  mkUser (Some (lit "u1")) (Some (lit "parent@example.com"))
    (Some (lit "Parent")) p.

Definition typed (address : jsstring) : BrowserState :=
  mkBrowser address (lit "https://www.google.com") false false false false
    [] false [].

(** Logged in with PIN 1234, a profile selected, an address typed. *)
Definition browsing (address : jsstring) : App :=
  mkApp (mkAuth (Some (parent_user (Some (lit "1234")))) (Some (lit "jwt"))
           (Some (parent_user (Some (lit "1234")))) (Some (lit "jwt")))
        (mkAppMode child (Some (lit "kid1")))
        (typed address)
        initialSettings.

(** On the dashboard, with the given PIN and PIN dialog contents. *)
Definition at_home (p : option jsstring) (new confirm : jsstring) : App :=
  mkApp (mkAuth (Some (parent_user p)) (Some (lit "jwt"))
           (Some (parent_user p)) (Some (lit "jwt")))
        initialAppMode
        initialBrowser
        (mkSettings true new confirm).

Definition kid : Profile :=
  mkProfile (lit "kid1") (lit "Kid") 7 (lit "strict").

Definition log (ident : string) (safe : bool) : Logs.Log :=
  Logs.mkLog (lit ident) (lit "kid1") (lit "Kid") (lit "url")
    (lit "2024-01-01T10:00:00") safe 0.9%Q [lit "known adult domain"]
    (lit "http://knownadultdomain.example/page") None.

End Sample.

(* ------------------------------------------------------------------ *)
(** ** Numbers and URI components *)

Module JSNumber.

(** The value of a code unit as a digit of the given radix, as [parseInt]
    reads it: 0-9, then a-z or A-Z for ten and above. *)
Definition digit_value (radix : N) (c : N) : option N :=
  let v :=
    if N.leb 48 c && N.leb c 57 then Some (c - 48)%N
    else if N.leb 97 c && N.leb c 122 then Some (c - 87)%N
    else if N.leb 65 c && N.leb c 90 then Some (c - 55)%N
    else None in
  match v with
  | Some d => if N.ltb d radix then Some d else None
  | None => None
  end.

(** The values of the longest prefix of digits. *)
Fixpoint digits_prefix (radix : N) (s : jsstring) : list N :=
  match s with
  | [] => []
  | c :: s' =>
      match digit_value radix c with
      | Some d => d :: digits_prefix radix s'
      | None => []
      end
  end.

Definition digits_value (radix : N) (ds : list N) : N :=
  fold_left (fun acc d => acc * radix + d)%N ds 0%N.

(** [parseInt(s)] without a radix: leading white space is skipped, a sign
    is read, "0x" or "0X" selects radix 16, and the longest prefix of digits
    is the value; [None] is NaN.  The result is the mathematical integer:
    the source only compares it with 1 and 18, and the rounding to a double
    does not change those comparisons, nor a value that passes them. *)
Definition parseInt (s : jsstring) : option Z :=
  let s1 := trimStart s in
  let '(sign, s2) :=
    match s1 with
    | c :: rest =>
        if N.eqb c 45 then ((-1)%Z, rest)
        else if N.eqb c 43 then (1%Z, rest)
        else (1%Z, s1)
    | [] => (1%Z, s1)
    end in
  let '(radix, s3) :=
    match s2 with
    | z :: x :: rest =>
        if N.eqb z 48 && (N.eqb x 120 || N.eqb x 88) then (16%N, rest)
        else (10%N, s2)
    | _ => (10%N, s2)
    end in
  match digits_prefix radix s3 with
  | [] => None
  | ds => Some (sign * Z.of_N (digits_value radix ds))%Z
  end.

(** [age < 1 || age > 18]: both comparisons are false for NaN. *)
Definition out_of_range (age : option Z) : bool :=
  match age with
  | Some a => Z.ltb a 1 || Z.ltb 18 a
  | None => false
  end.

Fixpoint decimal_digits (fuel n : nat) (acc : jsstring) : jsstring :=
  match fuel with
  | O => acc
  | S fuel' =>
      let acc' := (48 + N.of_nat (n mod 10))%N :: acc in
      if Nat.eqb (n / 10) 0 then acc' else decimal_digits fuel' (n / 10) acc'
  end.

(** [n.toString()] for a non-negative integer: its decimal digits. *)
Definition toString (n : nat) : jsstring := decimal_digits (S n) n [].

(** The characters [encodeURIComponent] leaves alone: letters, digits and
    - _ . ! ~ * ' ( ). *)
Definition unreserved (c : N) : bool :=
  (N.leb 65 c && N.leb c 90) || (N.leb 97 c && N.leb c 122)
  || (N.leb 48 c && N.leb c 57)
  || existsb (N.eqb c) [45; 95; 46; 33; 126; 42; 39; 40; 41]%N.

Definition hex_digit (v : N) : N :=
  if N.ltb v 10 then (48 + v)%N else (55 + v)%N.

(** "%XX" for one octet. *)
Definition percent (byte : N) : jsstring :=
  [37%N; hex_digit (byte / 16); hex_digit (byte mod 16)].

(** The octets of the UTF-8 encoding of a code point. *)
Definition utf8 (cp : N) : list N :=
  if N.ltb cp 128 then [cp]
  else if N.ltb cp 2048 then [192 + cp / 64; 128 + cp mod 64]%N
  else if N.ltb cp 65536 then
    [224 + cp / 4096; 128 + (cp / 64) mod 64; 128 + cp mod 64]%N
  else
    [240 + cp / 262144; 128 + (cp / 4096) mod 64; 128 + (cp / 64) mod 64;
     128 + cp mod 64]%N.

Definition escape (cp : N) : jsstring := List.flat_map percent (utf8 cp).

(** [encodeURIComponent(s)]; [None] is the URIError thrown for a
    surrogate that is not part of a pair. *)
Fixpoint encodeURIComponent (s : jsstring) : option jsstring :=
  match s with
  | [] => Some []
  | c :: s' =>
      if unreserved c then
        option_map (cons c) (encodeURIComponent s')
      else if N.leb 56320 c && N.leb c 57343 then None
      else if N.leb 55296 c && N.leb c 56319 then
        match s' with
        | d :: s'' =>
            if N.leb 56320 d && N.leb d 57343 then
              option_map
                (app (escape ((c - 55296) * 1024 + (d - 56320) + 65536)%N))
                (encodeURIComponent s'')
            else None
        | [] => None
        end
      else option_map (app (escape c)) (encodeURIComponent s')
  end.

(** [xs.slice(0, n)] *)
Definition slice0 {A} (xs : list A) (n : nat) : list A := firstn n xs.

End JSNumber.

(* ------------------------------------------------------------------ *)
(** ** The rest of the API and the screens that use it *)

(** [interface Profile] of profiles.tsx: the object GET /api/profiles
    returns for a child. *)
Record ProfileData := mkProfileData {
  pd_id : jsstring;
  pd_name : jsstring;
  pd_age : nat;
  pd_maturity_level : jsstring;
  pd_blocked_sites : list jsstring;
  pd_whitelisted_sites : list jsstring
}.

(** The [payload] of a profile save; [None] as age is NaN. *)
Record ProfilePayload := mkPayload {
  pl_name : jsstring;
  pl_age : option Z;
  pl_maturity_level : jsstring;
  pl_blocked_sites : list jsstring;
  pl_whitelisted_sites : list jsstring
}.

(** [response.data] of login and signup. *)
Record LoginData := mkLoginData {
  access_token : jsstring;
  login_user : User
}.

(** The calls of the parent screens and of AuthContext; those with a token
    carry it in the Authorization header. *)
Inductive Request :=
| GetProfiles (token : option jsstring)
| PostProfile (payload : ProfilePayload) (token : option jsstring)
| PutProfile (id : jsstring) (payload : ProfilePayload) (token : option jsstring)
| DeleteProfile (id : jsstring) (token : option jsstring)
| GetLogs (limit : nat) (token : option jsstring)
| SearchLogs (keyword : jsstring) (token : option jsstring)
| PostLogin (email password : jsstring)
| PostSignup (email password name : jsstring).

(** The back end behind those calls. *)
Record Api := mkApi {
  get_profiles : option jsstring -> Settled (list ProfileData);
  post_profile : ProfilePayload -> option jsstring -> Settled unit;
  put_profile : jsstring -> ProfilePayload -> option jsstring -> Settled unit;
  delete_profile : jsstring -> option jsstring -> Settled unit;
  get_logs : nat -> option jsstring -> Settled (list Logs.Log);
  search_logs : jsstring -> option jsstring -> Settled (list Logs.Log);
  post_login : jsstring -> jsstring -> Settled LoginData;
  post_signup : jsstring -> jsstring -> jsstring -> Settled LoginData
}.

(** What a handler of those screens does besides changing its state. *)
Inductive UiEvent :=
| Sent (r : Request)
| Alert (title message : jsstring)
| ConfirmDialog (title message : jsstring)
| Console (label : jsstring)
| Replace (path : jsstring)
| Push (path : jsstring).

(** The requests of a run, in the order they were sent. *)
Definition sent (evs : list UiEvent) : list Request :=
  List.flat_map (fun ev => match ev with Sent r => [r] | _ => [] end) evs.

(** Handlers over the state [S] of one screen. *)
Module Screen.

Record Run (S A : Type) := mkRun {
  outcome : Res A;
  final : S;
  emitted : list UiEvent
}.

Definition M (S A : Type) := Api -> S -> Run S A.

Section Ops.

Variable S : Type.

Definition ret {A} (a : A) : M S A := fun _ s => mkRun (Ok a) s [].

Definition bind {A B} (m : M S A) (k : A -> M S B) : M S B :=
  fun api s =>
    let r := m api s in
    match outcome r with
    | Ok a =>
        let r' := k a api (final r) in
        mkRun (outcome r') (final r') (emitted r ++ emitted r')
    | Throw e => mkRun (Throw e) (final r) (emitted r)
    end.

Definition throw {A} (e : Exn) : M S A := fun _ s => mkRun (Throw e) s [].

Definition try_catch {A} (m : M S A) (h : Exn -> M S A) : M S A :=
  fun api s =>
    let r := m api s in
    match outcome r with
    | Ok _ => r
    | Throw e =>
        let r' := h e api (final r) in
        mkRun (outcome r') (final r') (emitted r ++ emitted r')
    end.

(** [try { m } finally { f }]: [f] runs in both cases and the outcome of
    [m] stands unless [f] throws. *)
Definition try_finally {A} (m : M S A) (f : M S unit) : M S A :=
  fun api s =>
    let r := m api s in
    let r' := f api (final r) in
    mkRun (match outcome r' with Ok _ => outcome r | Throw e => Throw e end)
      (final r') (emitted r ++ emitted r').

Definition get : M S S := fun _ s => mkRun (Ok s) s [].
Definition modify (f : S -> S) : M S unit := fun _ s => mkRun (Ok tt) (f s) [].
Definition ask : M S Api := fun api s => mkRun (Ok api) s [].
Definition emit (ev : UiEvent) : M S unit := fun _ s => mkRun (Ok tt) s [ev].

(** A call: the request goes out and the promise is awaited. *)
Definition call {A} (r : Request) (answer : Api -> Settled A) : M S A :=
  fun api s =>
    match answer api with
    | Resolved a => mkRun (Ok a) s [Sent r]
    | Rejected d => mkRun (Throw (AxiosError d)) s [Sent r]
    end.

End Ops.

Arguments ret {S A} a.
Arguments bind {S A B} m k.
Arguments throw {S A} e.
Arguments try_catch {S A} m h.
Arguments try_finally {S A} m f.
Arguments get {S}.
Arguments modify {S} f.
Arguments ask {S}.
Arguments emit {S} ev.
Arguments call {S A} r answer.

End Screen.

Declare Scope screen_scope.
Delimit Scope screen_scope with screen.
Notation "x <- c ;; k" := (Screen.bind c (fun x => k))
  (at level 61, c at next level, right associativity) : screen_scope.
Notation "c ;; k" := (Screen.bind c (fun _ => k))
  (at level 61, right associativity) : screen_scope.

(** *** The rest of frontend/contexts/AuthContext.tsx *)

Module AuthProvider.

Local Open Scope screen_scope.

(** The auth state with the [loading] flag of the provider. *)
Record State := mkState {
  auth_of : AuthState;
  loading : bool
}.

(** The provider as it is mounted: nothing in memory, [loading] true, and
    the AsyncStorage entries of an earlier session, if any. *)
Definition mounted (stored_token : option jsstring) (stored_user : option User)
  : State :=
  mkState (mkAuth None None stored_user stored_token) true.

(** The provider after the app is closed and opened again: memory is
    lost, AsyncStorage is kept. *)
Definition reopened (a : AuthState) : State :=
  mounted (stored_token a) (stored_user a).

Definition on_auth (f : AuthState -> AuthState) : Screen.M State unit :=
  Screen.modify (fun s => mkState (f (auth_of s)) (loading s)).

Definition setToken (t : option jsstring) : Screen.M State unit :=
  on_auth (fun a => mkAuth (user a) t (stored_user a) (stored_token a)).
Definition setUser (u : option User) : Screen.M State unit :=
  on_auth (fun a => mkAuth u (token a) (stored_user a) (stored_token a)).
Definition setLoading (v : bool) : Screen.M State unit :=
  Screen.modify (fun s => mkState (auth_of s) v).

(** [AsyncStorage.setItem('token', t)] and [removeItem('token')]. *)
Definition storeToken (t : option jsstring) : Screen.M State unit :=
  on_auth (fun a => mkAuth (user a) (token a) (stored_user a) t).
(** [AsyncStorage.setItem('user', JSON.stringify(u))] and
    [removeItem('user')]; what is stored is read back by [JSON.parse] as
    the same user. *)
Definition storeUser (u : option User) : Screen.M State unit :=
  on_auth (fun a => mkAuth (user a) (token a) u (stored_token a)).

Definition loadStoredAuth : Screen.M State unit :=
  Screen.try_finally
    (Screen.try_catch
       (s <- Screen.get;;
        let storedToken := stored_token (auth_of s) in
        let storedUser := stored_user (auth_of s) in
        match storedUser with
        | Some u =>
            if truthy_opt storedToken then
              setToken storedToken;;
              setUser (Some u)
            else Screen.ret tt
        | None => Screen.ret tt
        end)
       (fun _ => Screen.emit (Console (lit "Error loading auth:"))))
    (setLoading false).

Definition login (email password : jsstring) : Screen.M State unit :=
  Screen.try_catch
    (data <- Screen.call (PostLogin email password)
               (fun api => post_login api email password);;
     storeToken (Some (access_token data));;
     storeUser (Some (login_user data));;
     setToken (Some (access_token data));;
     setUser (Some (login_user data)))
    (fun e =>
       Screen.emit (Console (lit "Login error:"));;
       Screen.throw (Error (AuthContext.detail_or e (lit "Login failed")))).


Definition logout : Screen.M State unit :=
  storeToken None;;
  storeUser None;;
  setToken None;;
  setUser None.

(** The "Logout" button of the confirmation in the settings. *)
Definition confirmLogout : Screen.M State unit :=
  logout;;
  Screen.emit (Replace (lit "/auth/login")).

(** The effect of index.tsx: nothing while [loading], then the dashboard
    for a user and the login screen without one. *)
Definition Index (s : State) : list UiEvent :=
  if negb (loading s) then
    match user (auth_of s) with
    | Some _ => [Replace (lit "/parent/dashboard")]
    | None => [Replace (lit "/auth/login")]
    end
  else [].

End AuthProvider.

(** *** The profiles screen (frontend/app/parent/profiles.tsx) *)

Module Profiles.

Local Open Scope screen_scope.

Record FormData := mkFormData {
  name : jsstring;
  age : jsstring;
  maturity_level : jsstring
}.

(** The local state, with the token the screen takes from [useAuth]. *)
Record State := mkState {
  token : option jsstring;
  profiles : list ProfileData;
  loading : bool;
  modalVisible : bool;
  editingProfile : option ProfileData;
  formData : FormData
}.

Definition initialForm : FormData := mkFormData [] [] (lit "moderate").

Definition initialState (token : option jsstring) : State :=
  mkState token [] true false None initialForm.

Definition setProfiles (v : list ProfileData) : Screen.M State unit :=
  Screen.modify (fun s => mkState (token s) v (loading s) (modalVisible s)
                            (editingProfile s) (formData s)).
Definition setLoading (v : bool) : Screen.M State unit :=
  Screen.modify (fun s => mkState (token s) (profiles s) v (modalVisible s)
                            (editingProfile s) (formData s)).
Definition setModalVisible (v : bool) : Screen.M State unit :=
  Screen.modify (fun s => mkState (token s) (profiles s) (loading s) v
                            (editingProfile s) (formData s)).
Definition setEditingProfile (v : option ProfileData) : Screen.M State unit :=
  Screen.modify (fun s => mkState (token s) (profiles s) (loading s)
                            (modalVisible s) v (formData s)).
Definition setFormData (v : FormData) : Screen.M State unit :=
  Screen.modify (fun s => mkState (token s) (profiles s) (loading s)
                            (modalVisible s) (editingProfile s) v).

Definition loadProfiles : Screen.M State unit :=
  Screen.try_finally
    (Screen.try_catch
       (s <- Screen.get;;
        data <- Screen.call (GetProfiles (token s))
                  (fun api => get_profiles api (token s));;
        setProfiles data)
       (fun _ => Screen.emit (Alert (lit "Error") (lit "Failed to load profiles"))))
    (setLoading false).

Definition openCreateModal : Screen.M State unit :=
  setEditingProfile None;;
  setFormData (mkFormData [] [] (lit "moderate"));;
  setModalVisible true.

Definition openEditModal (profile : ProfileData) : Screen.M State unit :=
  setEditingProfile (Some profile);;
  setFormData (mkFormData (pd_name profile)
                 (JSNumber.toString (pd_age profile))
                 (pd_maturity_level profile));;
  setModalVisible true.

(** The three [onChangeText] handlers and the level buttons of the form. *)
Definition changeName (text : jsstring) : Screen.M State unit :=
  s <- Screen.get;;
  setFormData (mkFormData text (age (formData s)) (maturity_level (formData s))).
Definition changeAge (text : jsstring) : Screen.M State unit :=
  s <- Screen.get;;
  setFormData (mkFormData (name (formData s)) text (maturity_level (formData s))).
Definition changeLevel (level : jsstring) : Screen.M State unit :=
  s <- Screen.get;;
  setFormData (mkFormData (name (formData s)) (age (formData s)) level).

(** [editingProfile?.blocked_sites || []] and its sibling. *)
Definition sites_or_empty (p : option ProfileData)
  (field : ProfileData -> list jsstring) : list jsstring :=
  match p with Some p' => field p' | None => [] end.

(** The payload [handleSave] builds from the form. *)
Definition payload_of (s : State) : ProfilePayload :=
  mkPayload (name (formData s)) (JSNumber.parseInt (age (formData s)))
    (maturity_level (formData s))
    (sites_or_empty (editingProfile s) pd_blocked_sites)
    (sites_or_empty (editingProfile s) pd_whitelisted_sites).

Definition handleSave : Screen.M State unit :=
  s <- Screen.get;;
  if negb (truthy (name (formData s))) || negb (truthy (age (formData s))) then
    Screen.emit (Alert (lit "Error") (lit "Please fill in all fields"))
  else
    let age := JSNumber.parseInt (age (formData s)) in
    if JSNumber.out_of_range age then
      Screen.emit (Alert (lit "Error") (lit "Age must be between 1 and 18"))
    else
      Screen.try_catch
        (let payload := payload_of s in
         match editingProfile s with
         | Some editing =>
             Screen.call (PutProfile (pd_id editing) payload (token s))
               (fun api => put_profile api (pd_id editing) payload (token s));;
             Screen.emit (Alert (lit "Success")
                            (lit "Profile updated successfully"))
         | None =>
             Screen.call (PostProfile payload (token s))
               (fun api => post_profile api payload (token s));;
             Screen.emit (Alert (lit "Success")
                            (lit "Profile created successfully"))
         end;;
         setModalVisible false;;
         loadProfiles)
        (fun e =>
           Screen.emit (Alert (lit "Error")
                          (AuthContext.detail_or e (lit "Failed to save profile")))).

(** The dialog of [handleDelete]; "Delete" runs [confirmDelete]. *)
Definition handleDelete (profile : ProfileData) : Screen.M State unit :=
  Screen.emit
    (ConfirmDialog (lit "Delete Profile")
       (lit "Are you sure you want to delete " ++ pd_name profile
        ++ lit "'s profile?")).

Definition confirmDelete (profile : ProfileData) : Screen.M State unit :=
  Screen.try_catch
    (s <- Screen.get;;
     Screen.call (DeleteProfile (pd_id profile) (token s))
       (fun api => delete_profile api (pd_id profile) (token s));;
     Screen.emit (Alert (lit "Success") (lit "Profile deleted"));;
     loadProfiles)
    (fun _ => Screen.emit (Alert (lit "Error") (lit "Failed to delete profile"))).

Definition getMaturityColor (level : jsstring) : jsstring :=
  if eqb level (lit "strict") then lit "#ef4444"
  else if eqb level (lit "moderate") then lit "#f59e0b"
  else if eqb level (lit "lenient") then lit "#10b981"
  else lit "#6366f1".

(** The save requests among the requests of a run. *)
Definition saves (rs : list Request) : list (option jsstring * ProfilePayload) :=
  List.flat_map
    (fun r => match r with
              | PostProfile p _ => [(None, p)]
              | PutProfile i p _ => [(Some i, p)]
              | _ => []
              end) rs.

End Profiles.

(** *** Loading in the dashboard (frontend/app/parent/dashboard.tsx) *)

Module DashboardData.

Local Open Scope screen_scope.

Record State := mkState {
  token : option jsstring;
  profiles : list ProfileData;
  recentLogs : list Logs.Log;
  refreshing : bool;
  loading : bool
}.

Definition setProfiles (v : list ProfileData) : Screen.M State unit :=
  Screen.modify (fun s => mkState (token s) v (recentLogs s) (refreshing s)
                            (loading s)).
Definition setRecentLogs (v : list Logs.Log) : Screen.M State unit :=
  Screen.modify (fun s => mkState (token s) (profiles s) v (refreshing s)
                            (loading s)).
Definition setRefreshing (v : bool) : Screen.M State unit :=
  Screen.modify (fun s => mkState (token s) (profiles s) (recentLogs s) v
                            (loading s)).
Definition setLoading (v : bool) : Screen.M State unit :=
  Screen.modify (fun s => mkState (token s) (profiles s) (recentLogs s)
                            (refreshing s) v).

(** [await Promise.all([p1, p2])] for two calls: both requests go out, and
    the pair is there only if both resolve. *)
Definition both {A B} (r1 : Request) (answer1 : Api -> Settled A)
  (r2 : Request) (answer2 : Api -> Settled B) : Screen.M State (A * B) :=
  Screen.emit (Sent r1);;
  Screen.emit (Sent r2);;
  api <- Screen.ask;;
  match answer1 api, answer2 api with
  | Resolved a, Resolved b => Screen.ret (a, b)
  | Rejected d, _ => Screen.throw (AxiosError d)
  | _, Rejected d => Screen.throw (AxiosError d)
  end.

Definition loadData : Screen.M State unit :=
  Screen.try_finally
    (Screen.try_catch
       (s <- Screen.get;;
        res <- both (GetProfiles (token s))
                 (fun api => get_profiles api (token s))
                 (GetLogs 5 (token s))
                 (fun api => get_logs api 5 (token s));;
        setProfiles (fst res);;
        setRecentLogs (snd res))
       (fun _ =>
          Screen.emit (Console (lit "Error loading data:"));;
          Screen.emit (Alert (lit "Error") (lit "Failed to load data"))))
    (setLoading false;;
     setRefreshing false).

Definition handleRefresh : Screen.M State unit :=
  setRefreshing true;;
  loadData.

(** The profile as the dashboard reads it. *)
Definition as_profile (p : ProfileData) : Profile :=
  mkProfile (pd_id p) (pd_name p) (pd_age p) (pd_maturity_level p).

(** The profile cards: [profiles.slice(0, 3)], each entering child mode
    with its profile when pressed. *)
Definition profile_cards (s : State) : list Profile :=
  List.map as_profile (JSNumber.slice0 (profiles s) 3).

(** The three numbers of the "Protection Stats" card that vary. *)
Definition stats (s : State) : nat * nat :=
  (List.length (profiles s), List.length (recentLogs s)).

End DashboardData.

(** *** Loading in the activity log (frontend/app/parent/logs.tsx) *)

Module LogsData.

Local Open Scope screen_scope.

Record State := mkState {
  token : option jsstring;
  logs : list Logs.Log;
  searchQuery : jsstring;
  refreshing : bool;
  loading : bool
}.

Definition setLogs (v : list Logs.Log) : Screen.M State unit :=
  Screen.modify (fun s => mkState (token s) v (searchQuery s) (refreshing s)
                            (loading s)).
Definition setSearchQuery (v : jsstring) : Screen.M State unit :=
  Screen.modify (fun s => mkState (token s) (logs s) v (refreshing s)
                            (loading s)).
Definition setRefreshing (v : bool) : Screen.M State unit :=
  Screen.modify (fun s => mkState (token s) (logs s) (searchQuery s) v
                            (loading s)).
Definition setLoading (v : bool) : Screen.M State unit :=
  Screen.modify (fun s => mkState (token s) (logs s) (searchQuery s)
                            (refreshing s) v).

Definition loadLogs : Screen.M State unit :=
  Screen.try_finally
    (Screen.try_catch
       (s <- Screen.get;;
        data <- Screen.call (GetLogs 50 (token s))
                  (fun api => get_logs api 50 (token s));;
        setLogs data)
       (fun _ => Screen.emit (Console (lit "Error loading logs:"))))
    (setLoading false;;
     setRefreshing false).

(** The keyword of the search URL; a malformed string makes
    [encodeURIComponent] throw. *)
Definition encoded_keyword (query : jsstring) : Screen.M State jsstring :=
  match JSNumber.encodeURIComponent query with
  | Some k => Screen.ret k
  | None => Screen.throw (Error (lit "URI malformed"))
  end.

Definition handleSearch : Screen.M State unit :=
  s <- Screen.get;;
  if negb (truthy (trim (searchQuery s))) then
    loadLogs
  else
    Screen.try_catch
      (keyword <- encoded_keyword (searchQuery s);;
       data <- Screen.call (SearchLogs keyword (token s))
                 (fun api => search_logs api keyword (token s));;
       setLogs data)
      (fun _ => Screen.emit (Console (lit "Error searching logs:"))).

Definition handleRefresh : Screen.M State unit :=
  setRefreshing true;;
  loadLogs.

(** The button that clears the search field. *)
Definition clearSearch : Screen.M State unit :=
  setSearchQuery [];;
  loadLogs.

End LogsData.

(* ------------------------------------------------------------------ *)
(** ** Vocabulary of the further properties *)

(** A run with further events in front of its own. *)
Definition prefixed {A} (evs : list Event) (r : Run A) : Run A :=
  mkRun (outcome r) (final r) (evs ++ emitted r).

(** The browser state once a verdict with the given reasons has blocked
    the page. *)
Definition block_with (b : BrowserState) (reasons : list jsstring)
  : BrowserState :=
  mkBrowser (url b) (currentUrl b) (canGoBack b) (canGoForward b) (loading b)
    true (join (lit ", ") reasons) (exitModalVisible b) (pin b).

(** The browser state after a verdict on request [q]: blocked with the
    reasons of the response when it resolves with [blocked] true, unchanged
    when it resolves otherwise or is rejected. *)
Definition after_verdict (net : Net) (q : AnalyzeRequest) (b : BrowserState)
  : BrowserState :=
  match post_analyze net q with
  | Resolved data =>
      if resp_blocked data then block_with b (resp_reasons data) else b
  | Rejected _ => b
  end.

(** The console output of a rejected call, none otherwise. *)
Definition logged_if_rejected (net : Net) (q : AnalyzeRequest)
  (label : jsstring) : list Event :=
  match post_analyze net q with
  | Resolved _ => []
  | Rejected _ => [ConsoleError label]
  end.

(** The browser state with the two history flags replaced. *)
Definition with_history (b : BrowserState) (back forward : bool)
  : BrowserState :=
  mkBrowser (url b) (currentUrl b) back forward (loading b) (blocked b)
    (blockReason b) (exitModalVisible b) (pin b).

(** The application state with the browser part replaced. *)
Definition with_browser (s : App) (b : BrowserState) : App :=
  mkApp (auth s) (appMode s) b (settings s).

(** The auth state right after a successful login or signup. *)
Definition signed_in (data : LoginData) : AuthState :=
  mkAuth (Some (login_user data)) (Some (access_token data))
    (Some (login_user data)) (Some (access_token data)).

(** The form of the profiles screen passes the two checks of
    [handleSave]. *)
Definition form_accepted (s : Profiles.State) : bool :=
  truthy (Profiles.name (Profiles.formData s))
  && truthy (Profiles.age (Profiles.formData s))
  && negb (JSNumber.out_of_range
             (JSNumber.parseInt (Profiles.age (Profiles.formData s)))).

(** The request [handleSave] makes for an accepted form: a PUT for the
    profile being edited, a POST when none is. *)
Definition save_request (s : Profiles.State) : Request :=
  match Profiles.editingProfile s with
  | Some editing =>
      PutProfile (pd_id editing) (Profiles.payload_of s) (Profiles.token s)
  | None => PostProfile (Profiles.payload_of s) (Profiles.token s)
  end.

Definition save_answer (api : Api) (s : Profiles.State) : Settled unit :=
  match Profiles.editingProfile s with
  | Some editing =>
      put_profile api (pd_id editing) (Profiles.payload_of s) (Profiles.token s)
  | None => post_profile api (Profiles.payload_of s) (Profiles.token s)
  end.

(** The state of the profiles screen after a (re)load of the list. *)
Definition reloaded (api : Api) (s : Profiles.State) : Profiles.State :=
  Profiles.mkState (Profiles.token s)
    (match get_profiles api (Profiles.token s) with
     | Resolved data => data
     | Rejected _ => Profiles.profiles s
     end)
    false (Profiles.modalVisible s) (Profiles.editingProfile s)
    (Profiles.formData s).

(** The profiles screen with the dialog closed. *)
Definition dialog_closed (s : Profiles.State) : Profiles.State :=
  Profiles.mkState (Profiles.token s) (Profiles.profiles s)
    (Profiles.loading s) false (Profiles.editingProfile s)
    (Profiles.formData s).

(** Typing in the dialog of the profiles screen. *)
Inductive FormEdit :=
| TypeName (text : jsstring)
| TypeAge (text : jsstring)
| PickLevel (level : jsstring).

Definition apply_edit (api : Api) (s : Profiles.State) (e : FormEdit)
  : Profiles.State :=
  Screen.final
    (match e with
     | TypeName text => Profiles.changeName text api s
     | TypeAge text => Profiles.changeAge text api s
     | PickLevel level => Profiles.changeLevel level api s
     end).

Definition apply_edits (api : Api) (edits : list FormEdit) (s : Profiles.State)
  : Profiles.State :=
  fold_left (apply_edit api) edits s.

(** A character that cannot end or split a query parameter: one that
    [encodeURIComponent] leaves alone, or the percent sign of an escape. *)
Definition query_safe (c : N) : bool := JSNumber.unreserved c || N.eqb c 37.

(** A string of UTF-16 code units. *)
Definition utf16 (s : jsstring) : Prop := Forall (fun c => c < 65536)%N s.

(** The search requests among the requests of a run. *)
Definition searches (rs : list Request) : list jsstring :=
  List.flat_map
    (fun r => match r with SearchLogs k _ => [k] | _ => [] end) rs.

(** The state of the activity log after a settled load of the list. *)
Definition logs_loaded (answer : Settled (list Logs.Log)) (s : LogsData.State)
  : LogsData.State :=
  LogsData.mkState (LogsData.token s)
    (match answer with
     | Resolved data => data
     | Rejected _ => LogsData.logs s
     end)
    (LogsData.searchQuery s) false false.

(** Sample data for the parent screens: a back end that answers every
    call, one that rejects every call, and a few screens. *)
Module SampleApi.

Definition kid_data (ident : string) (years : nat) : ProfileData :=
  mkProfileData (lit ident) (lit "Kid") years (lit "strict")
    [lit "games.example"] [lit "school.example"].

Definition login_data : LoginData :=
  mkLoginData (lit "jwt") (Sample.parent_user (Some (lit "1234"))).

Definition api_up : Api :=
  mkApi (fun _ => Resolved [kid_data "kid1" 7])
        (fun _ _ => Resolved tt)
        (fun _ _ _ => Resolved tt)
        (fun _ _ => Resolved tt)
        (fun _ _ => Resolved [Sample.log "b" false])
        (fun _ _ => Resolved [])
        (fun _ _ => Resolved login_data)
        (fun _ _ _ => Resolved login_data).

Definition api_down : Api :=
  mkApi (fun _ => Rejected None)
        (fun _ _ => Rejected None)
        (fun _ _ _ => Rejected (Some (lit "Profile not found")))
        (fun _ _ => Rejected None)
        (fun _ _ => Rejected None)
        (fun _ _ => Rejected None)
        (fun _ _ => Rejected (Some (lit "Invalid credentials")))
        (fun _ _ _ => Rejected None).

Definition profiles_screen : Profiles.State :=
  Profiles.mkState (Some (lit "jwt")) [kid_data "kid1" 7] false false None
    Profiles.initialForm.

Definition dashboard : DashboardData.State :=
  DashboardData.mkState (Some (lit "jwt"))
    [kid_data "kid1" 7; kid_data "kid2" 9; kid_data "kid3" 11;
     kid_data "kid4" 13]
    [] false false.

Definition log_screen (query : jsstring) : LogsData.State :=
  LogsData.mkState (Some (lit "jwt")) [Sample.log "b" false] query false false.

End SampleApi.

(* ------------------------------------------------------------------ *)
(** * Properties *)

(** ** Strings *)

Lemma eqb_refl (a : jsstring) : eqb a a = true.
Proof.
  induction a as [|x a IH]; simpl; [reflexivity|].
  now rewrite N.eqb_refl, IH.
Qed.

Lemma eqb_eq (a b : jsstring) : eqb a b = true <-> a = b.
Proof.
  split.
  - revert b; induction a as [|x a IH]; intros [|y b] H; simpl in H;
      try discriminate; [reflexivity|].
    apply andb_true_iff in H as [Hx Hab].
    apply N.eqb_eq in Hx. apply IH in Hab. now subst.
  - intros ->. apply eqb_refl.
Qed.

Lemma eqb_opt_eq (a : jsstring) (b : option jsstring) :
  eqb_opt a b = true <-> b = Some a.
Proof.
  destruct b as [b|]; simpl.
  - rewrite eqb_eq. split; [now intros ->|now intros [= ->]].
  - split; discriminate.
Qed.

Lemma truthy_nonempty (s : jsstring) : truthy s = true <-> s <> [].
Proof.
  destruct s; simpl; split; try congruence; intros H; now elim H.
Qed.

Lemma truthy_opt_some (o : option jsstring) :
  truthy_opt o = true <-> exists p, o = Some p /\ p <> [].
Proof.
  destruct o as [p|]; simpl.
  - rewrite truthy_nonempty. split.
    + intros H. now exists p.
    + now intros (q & [= ->] & H).
  - split; [discriminate|]. now intros (q & H & _).
Qed.

Lemma substring_from_0_length (s : jsstring) (n : nat) :
  List.length (substring s 0 n) <= n.
Proof.
  unfold substring.
  rewrite length_firstn, length_skipn.
  lia.
Qed.

Lemma substring_from_0_firstn (s : jsstring) (n : nat) :
  substring s 0 n = firstn n s.
Proof.
  unfold substring.
  rewrite Nat.min_0_l. simpl Nat.min. rewrite Nat.max_0_l, Nat.sub_0_r.
  simpl skipn.
  destruct (Nat.le_ge_cases n (List.length s)) as [H|H].
  - now rewrite Nat.min_l.
  - rewrite Nat.min_r by assumption.
    now rewrite !firstn_all2 by lia.
Qed.

Lemma match_repeat_spec (p : N -> bool) (n : nat) (s rest : jsstring) :
  match_repeat p n s = Some rest <->
  exists pre, s = pre ++ rest /\ List.length pre = n
              /\ Forall (fun c => p c = true) pre.
Proof.
  revert s; induction n as [|n IH]; intros s; simpl.
  - split.
    + intros [= ->]. exists []. now repeat split.
    + intros (pre & -> & Hlen & _).
      apply length_zero_iff_nil in Hlen. now subst.
  - destruct s as [|c s].
    + split; [discriminate|].
      intros (pre & Hs & Hlen & _).
      destruct pre; [discriminate Hlen|discriminate Hs].
    + destruct (p c) eqn:Hc.
      * rewrite IH. split.
        -- intros (pre & -> & Hlen & Hall).
           exists (c :: pre). simpl. repeat split; auto.
        -- intros (pre & Hs & Hlen & Hall).
           destruct pre as [|c' pre]; [discriminate Hlen|].
           injection Hs as <- ->. injection Hlen as Hlen.
           inversion Hall; subst. now exists pre.
      * split; [discriminate|].
        intros (pre & Hs & Hlen & Hall).
        destruct pre as [|c' pre]; [discriminate Hlen|].
        injection Hs as <- ->. inversion Hall; subst. congruence.
Qed.

Lemma test_digits4_spec (s : jsstring) :
  test_digits4 s = true <->
  List.length s = 4 /\ Forall (fun c => is_digit c = true) s.
Proof.
  unfold test_digits4.
  destruct (match_repeat is_digit 4 s) as [rest|] eqn:E.
  - apply match_repeat_spec in E as (pre & -> & Hlen & Hall).
    destruct rest as [|c rest].
    + rewrite app_nil_r. now split.
    + split; [discriminate|].
      intros [H _]. rewrite length_app in H. simpl in H. lia.
  - split; [discriminate|].
    intros [Hlen Hall].
    assert (match_repeat is_digit 4 s = Some []) as H; [|congruence].
    apply match_repeat_spec. exists s. now rewrite app_nil_r.
Qed.

(** ** Requests of a run *)

Lemma analyze_requests_app (a b : list Event) :
  analyze_requests (a ++ b) = analyze_requests a ++ analyze_requests b.
Proof.
  induction a as [|e a IH]; simpl; [reflexivity|].
  destruct e; simpl; now rewrite IH.
Qed.

(** Unfold a handler down to the decisions it takes. *)
Ltac run_handler :=
  cbv [bind ret throw try_catch get modify ask emit await
       axios_post_analyze axios_put_pin
       on_browser on_appMode on_auth on_settings
       setUrl setCurrentUrl setCanGoBack setCanGoForward setLoading
       setBlocked setBlockReason setExitModalVisible setPin
       setMode setSelectedProfile setUser storeUser
       setPinModalVisible setNewPin setConfirmPin
       outcome final emitted];
  cbn [outcome final emitted app
       auth appMode browser settings
       user token stored_user stored_token mode selectedProfile
       url currentUrl canGoBack canGoForward loading blocked blockReason
       exitModalVisible pin pinModalVisible newPin confirmPin].

(** ** The child browser *)

(** C1.  Whenever the POST to /api/content/analyze made by [analyzeUrl] is
    rejected, [analyzeUrl] returns [true] and leaves the whole state, the
    blocked flag included, as it was; a navigation to that address is
    therefore carried out. *)
Theorem analyzeUrl_fails_open
  (net : Net) (s : App) (targetUrl : jsstring) (detail : option jsstring)
  (Hfail : post_analyze net (ChildBrowser.url_request s targetUrl)
           = Rejected detail) :
  outcome (ChildBrowser.analyzeUrl targetUrl net s) = Ok true
  /\ final (ChildBrowser.analyzeUrl targetUrl net s) = s
  /\ blocked (browser (final (ChildBrowser.analyzeUrl targetUrl net s)))
     = blocked (browser s).
Proof.
  unfold ChildBrowser.analyzeUrl.
  run_handler.
  rewrite Hfail.
  run_handler.
  repeat split.
Qed.

(** The request of a navigation does not depend on the browser state. *)
Lemma url_request_browser (s : App) (b : BrowserState) (t : jsstring) :
  ChildBrowser.url_request (mkApp (auth s) (appMode s) b (settings s)) t
  = ChildBrowser.url_request s t.
Proof. reflexivity. Qed.

(** What [handleNavigate] does for a non-empty trimmed address, by the
    result of the analysis. *)
Lemma handleNavigate_run (net : Net) (s : App) :
  let t := ChildBrowser.with_protocol (trim (url (browser s))) in
  let q := ChildBrowser.url_request s t in
  let b := browser s in
  trim (url (browser s)) <> [] ->
  analyze_requests (emitted (ChildBrowser.handleNavigate net s)) = [q]
  /\ auth (final (ChildBrowser.handleNavigate net s)) = auth s
  /\ appMode (final (ChildBrowser.handleNavigate net s)) = appMode s
  /\ browser (final (ChildBrowser.handleNavigate net s))
     = match post_analyze net q with
       | Resolved data =>
           if resp_blocked data then
             mkBrowser (url b) (currentUrl b) (canGoBack b) (canGoForward b)
               false true (join (lit ", ") (resp_reasons data))
               (exitModalVisible b) (pin b)
           else
             mkBrowser (url b) t (canGoBack b) (canGoForward b)
               false false (blockReason b) (exitModalVisible b) (pin b)
       | Rejected _ =>
           mkBrowser (url b) t (canGoBack b) (canGoForward b)
             false false (blockReason b) (exitModalVisible b) (pin b)
       end.
Proof.
  intros t q b Hurl.
  apply truthy_nonempty in Hurl.
  unfold ChildBrowser.handleNavigate, ChildBrowser.analyzeUrl.
  run_handler.
  rewrite Hurl. cbn [negb].
  run_handler.
  rewrite url_request_browser.
  fold t. fold q.
  destruct (post_analyze net q) as [data|d]; run_handler.
  - destruct (resp_blocked data); run_handler; repeat split.
  - repeat split.
Qed.

(** C5.  In a navigation whose analysis call resolves with [data]: if
    [data.blocked] is true the blocked flag is set, the block reason is the
    reasons joined by ", ", the current address is not updated and the
    block screen is shown; if it is false the current address becomes the
    target, the blocked flag is cleared and the WebView shows the target. *)
Theorem blocked_drives_block_screen
  (net : Net) (s : App) (data : AnalyzeResponse)
  (Hurl : trim (url (browser s)) <> [])
  (Hresp : post_analyze net
             (ChildBrowser.url_request s
                (ChildBrowser.with_protocol (trim (url (browser s)))))
           = Resolved data) :
  let s' := final (ChildBrowser.handleNavigate net s) in
  (resp_blocked data = true ->
     blocked (browser s') = true
     /\ blockReason (browser s') = join (lit ", ") (resp_reasons data)
     /\ currentUrl (browser s') = currentUrl (browser s)
     /\ ChildBrowser.render (browser s')
        = ChildBrowser.BlockedScreen (join (lit ", ") (resp_reasons data)))
  /\ (resp_blocked data = false ->
        currentUrl (browser s')
        = ChildBrowser.with_protocol (trim (url (browser s)))
        /\ blocked (browser s') = false
        /\ ChildBrowser.render (browser s')
           = ChildBrowser.WebViewOn
               (ChildBrowser.with_protocol (trim (url (browser s))))).
Proof.
  intros s'.
  destruct (handleNavigate_run net s Hurl) as (_ & _ & _ & Hb).
  rewrite Hresp in Hb.
  subst s'. rewrite Hb.
  split; intros ->; cbn; repeat split.
Qed.

(** C8.  For a non-empty trimmed address [t]: when [t] starts with neither
    "http://" nor "https://", the one request sent for analysis carries
    "https://" followed by [t] as content and context, and that is the
    address navigated to when the analysis allows it; when [t] carries one
    of the two protocols, [t] itself is submitted and navigated to. *)
Theorem handleNavigate_adds_protocol
  (net : Net) (s : App)
  (Hurl : trim (url (browser s)) <> []) :
  let t := trim (url (browser s)) in
  let r := ChildBrowser.handleNavigate net s in
  (startsWith t (lit "http://") = false ->
   startsWith t (lit "https://") = false ->
     List.map (fun q => (req_content q, req_context q))
       (analyze_requests (emitted r))
     = [(lit "https://" ++ t, lit "https://" ++ t)]
     /\ (ChildBrowser.allowed net
           (ChildBrowser.url_request s (lit "https://" ++ t)) = true ->
         currentUrl (browser (final r)) = lit "https://" ++ t))
  /\ (startsWith t (lit "http://") = true
      \/ startsWith t (lit "https://") = true ->
     List.map (fun q => (req_content q, req_context q))
       (analyze_requests (emitted r))
     = [(t, t)]
     /\ (ChildBrowser.allowed net (ChildBrowser.url_request s t) = true ->
         currentUrl (browser (final r)) = t)).
Proof.
  intros t r.
  destruct (handleNavigate_run net s Hurl) as (Hq & _ & _ & Hb).
  fold t in Hq, Hb. fold r in Hq, Hb.
  assert (Hnav : forall u, ChildBrowser.with_protocol t = u ->
            List.map (fun q => (req_content q, req_context q))
              (analyze_requests (emitted r)) = [(u, u)]
            /\ (ChildBrowser.allowed net (ChildBrowser.url_request s u) = true ->
                currentUrl (browser (final r)) = u)).
  { intros u Hu. rewrite Hu in Hq, Hb. rewrite Hq, Hb. split; [reflexivity|].
    unfold ChildBrowser.allowed.
    destruct (post_analyze net (ChildBrowser.url_request s u)) as [data|d];
      [|reflexivity].
    destruct (resp_blocked data); [discriminate|reflexivity]. }
  split.
  - intros H1 H2. apply Hnav.
    unfold ChildBrowser.with_protocol. now rewrite H1, H2.
  - intros H. apply Hnav.
    unfold ChildBrowser.with_protocol.
    destruct H as [H|H]; rewrite H; [reflexivity|].
    now rewrite andb_false_r.
Qed.

Lemma bind_ok_emitted {A B} (m : Eff A) (k : A -> Eff B) net s a :
  outcome (m net s) = Ok a ->
  emitted (bind m k net s)
  = emitted (m net s) ++ emitted (k a net (final (m net s))).
Proof.
  intros H. unfold bind. now rewrite H.
Qed.

(** A text message is answered by exactly one analysis request, carrying
    the content of the message unchanged, and the handler never throws. *)
Lemma handleWebViewMessage_text (net : Net) (s : App) (c : jsstring) :
  let r := ChildBrowser.handleWebViewMessage
             (ChildBrowser.Parsed (ChildBrowser.mkMessage (lit "text") c))
             net s in
  outcome r = Ok tt
  /\ analyze_requests (emitted r)
     = [mkAnalyzeRequest (selectedProfile (appMode s)) (lit "text") c
          (currentUrl (browser s)) (token (auth s))].
Proof.
  unfold ChildBrowser.handleWebViewMessage, ChildBrowser.JSON_parse.
  run_handler.
  cbn [ChildBrowser.msg_type ChildBrowser.msg_content].
  rewrite eqb_refl.
  run_handler.
  match goal with |- context [post_analyze net ?q] =>
    destruct (post_analyze net q) as [data|d] end; run_handler.
  - destruct (resp_blocked data); run_handler; split; reflexivity.
  - split; reflexivity.
Qed.

Lemma onMessages_injected_contents (net : Net) (innerTexts : list jsstring) :
  forall s,
    List.map req_content
      (analyze_requests
         (emitted (ChildBrowser.onMessages
                     (ChildBrowser.injectedJavaScript innerTexts) net s)))
    = List.map (fun t => substring t 0 500) innerTexts.
Proof.
  induction innerTexts as [|t ts IH]; intros s; [reflexivity|].
  cbn [ChildBrowser.injectedJavaScript List.map ChildBrowser.onMessages].
  unfold ChildBrowser.postMessage at 1.
  destruct (handleWebViewMessage_text net s (substring t 0 500)) as [Hok Hreq].
  rewrite (bind_ok_emitted _ _ _ _ Hok).
  rewrite analyze_requests_app, map_app, Hreq.
  cbn [List.map req_content app].
  f_equal. apply IH.
Qed.

(** C7, as stated, fails: not every page-text chunk the browser submits
    has at most 500 characters.  [handleWebViewMessage] checks no length,
    so a text message of 600 characters, as any script of the page can
    post, is submitted whole. *)
Lemma long_text_message_is_submitted_whole :
  ~ (forall net s event,
       Forall (fun q => List.length (req_content q) <= 500)
         (analyze_requests
            (emitted (ChildBrowser.handleWebViewMessage event net s)))).
Proof.
  intros H.
  specialize
    (H Sample.net_allow (Sample.browsing (lit "example.com"))
       (ChildBrowser.Parsed
          (ChildBrowser.mkMessage (lit "text") (repeat 97%N 600)))).
  destruct (handleWebViewMessage_text Sample.net_allow
              (Sample.browsing (lit "example.com")) (repeat 97%N 600))
    as [_ Hreq].
  cbv zeta in Hreq. rewrite Hreq in H.
  apply Forall_inv in H. cbn [req_content] in H.
  rewrite repeat_length in H. lia.
Qed.

(** C7, amended.  Whatever texts the page shows, the contents of the
    analysis requests the browser sends for the messages of the injected
    script are the first 500 code units of each text, so every one of them
    has length at most 500.  The bound comes from the script alone:
    [handleWebViewMessage] submits the content of a text message as it
    came, whatever its length. *)
Theorem injected_text_is_capped
  (net : Net) (s : App) (innerTexts : list jsstring) :
  let sent := analyze_requests
                (emitted (ChildBrowser.onMessages
                            (ChildBrowser.injectedJavaScript innerTexts)
                            net s)) in
  List.map req_content sent = List.map (fun t => firstn 500 t) innerTexts
  /\ Forall (fun q => List.length (req_content q) <= 500) sent
  /\ forall content,
       List.map req_content
         (analyze_requests
            (emitted (ChildBrowser.handleWebViewMessage
                        (ChildBrowser.Parsed
                           (ChildBrowser.mkMessage (lit "text") content))
                        net s)))
       = [content].
Proof.
  intros sent.
  assert (H := onMessages_injected_contents net innerTexts s).
  fold sent in H.
  split; [|split].
  - rewrite H. apply map_ext. intros t. apply substring_from_0_firstn.
  - apply Forall_map with (f := req_content)
                          (P := fun c => List.length c <= 500).
    rewrite H. apply Forall_map, Forall_forall.
    intros t _. apply substring_from_0_length.
  - intros content.
    destruct (handleWebViewMessage_text net s content) as [_ Hreq].
    cbv zeta in Hreq. now rewrite Hreq.
Qed.

(** ** The activity log screen *)

Lemma filteredLogs_spec (logs : list Logs.Log) (log : Logs.Log) :
  In log (Logs.filteredLogs logs) <-> In log logs /\ Logs.is_safe log = false.
Proof.
  unfold Logs.filteredLogs. rewrite filter_In.
  now rewrite negb_true_iff.
Qed.

Lemma rendered_cards (logs : list Logs.Log) :
  Logs.rendered logs = List.map Logs.card (Logs.filteredLogs logs).
Proof.
  unfold Logs.rendered, Logs.render.
  destruct (Logs.filteredLogs logs); reflexivity.
Qed.

(** C6.  Every entry of [filteredLogs] has [is_safe] false, every card the
    Activity Logs screen renders shows such an entry of the loaded logs, and
    an entry with [is_safe] true has no card. *)
Theorem only_unsafe_logs_are_shown (logs : list Logs.Log) :
  Forall (fun log => Logs.is_safe log = false) (Logs.filteredLogs logs)
  /\ (forall c, In c (Logs.rendered logs) ->
        exists log, In log logs /\ Logs.is_safe log = false
                    /\ c = Logs.card log)
  /\ (forall log, In log logs -> Logs.is_safe log = true ->
        ~ In log (Logs.filteredLogs logs)).
Proof.
  repeat split.
  - apply Forall_forall. intros log H. now apply filteredLogs_spec in H.
  - intros c H. rewrite rendered_cards in H.
    apply in_map_iff in H as (log & <- & H).
    apply filteredLogs_spec in H as [Hin Hsafe].
    now exists log.
  - intros log _ Hsafe H.
    apply filteredLogs_spec in H as [_ H]. congruence.
Qed.

(** ** PIN update *)

Lemma valid_pin_form_checks (t : SettingsState) :
  valid_pin_form t <->
  (negb (Nat.eqb (List.length (newPin t)) 4) || negb (test_digits4 (newPin t))
   = false)
  /\ negb (eqb (newPin t) (confirmPin t)) = false.
Proof.
  unfold valid_pin_form.
  rewrite orb_false_iff, !negb_false_iff, Nat.eqb_eq, test_digits4_spec, eqb_eq.
  tauto.
Qed.

(** What [handlePinUpdate] does, by the checks and the answer of the
    server. *)
Lemma handlePinUpdate_run (net : Net) (s : App) :
  let r := Settings.handlePinUpdate net s in
  let np := newPin (settings s) in
  appMode (final r) = appMode s
  /\ browser (final r) = browser s
  /\ ((~ valid_pin_form (settings s)
       /\ pin_requests (emitted r) = [] /\ final r = s)
      \/ (valid_pin_form (settings s)
          /\ pin_requests (emitted r) = [np]
          /\ ((exists d, put_pin net np (token (auth s)) = Rejected d
                         /\ final r = s)
              \/ (put_pin net np (token (auth s)) = Resolved tt
                  /\ user (auth (final r))
                     = Some (AuthContext.with_pin (user (auth s)) np)
                  /\ stored_user (auth (final r))
                     = Some (AuthContext.with_pin (user (auth s)) np))))).
Proof.
  intros r np. subst r.
  unfold Settings.handlePinUpdate, AuthContext.updatePin.
  run_handler.
  destruct (negb (Nat.eqb (List.length (newPin (settings s))) 4)
            || negb (test_digits4 (newPin (settings s)))) eqn:E1.
  { run_handler. repeat split. left. repeat split.
    intros H. apply valid_pin_form_checks in H as [H _]. congruence. }
  destruct (negb (eqb (newPin (settings s)) (confirmPin (settings s)))) eqn:E2.
  { run_handler. repeat split. left. repeat split.
    intros H. apply valid_pin_form_checks in H as [_ H]. congruence. }
  assert (Hvalid : valid_pin_form (settings s))
    by now apply valid_pin_form_checks.
  run_handler. fold np.
  destruct (put_pin net np (token (auth s))) as [[]|d] eqn:Eput; run_handler.
  - repeat split. right.
    split; [exact Hvalid|]. split; [reflexivity|].
    right. repeat split.
  - repeat split. right.
    split; [exact Hvalid|]. split; [reflexivity|].
    left. exists d. split; reflexivity.
Qed.

(** C10.  [handlePinUpdate] sends a PIN update only when the new PIN has
    exactly four characters, all of them decimal digits, and equals the
    confirmation; in that case it sends exactly that PIN.  Otherwise it
    sends nothing and the user, with the stored copy, is unchanged. *)
Theorem handlePinUpdate_validates (net : Net) (s : App) :
  let r := Settings.handlePinUpdate net s in
  (pin_requests (emitted r) <> [] -> valid_pin_form (settings s))
  /\ (valid_pin_form (settings s) ->
      pin_requests (emitted r) = [newPin (settings s)])
  /\ (~ valid_pin_form (settings s) ->
      pin_requests (emitted r) = [] /\ auth (final r) = auth s).
Proof.
  intros r.
  destruct (handlePinUpdate_run net s)
    as (_ & _ & [(Hn & Hreq & Hs)|(Hv & Hreq & _)]);
    fold r in Hreq; try fold r in Hs.
  - split; [|split].
    + intros Hsent. now elim Hsent.
    + intros Hv. now elim Hn.
    + intros _. split; [assumption|]. now rewrite Hs.
  - split; [|split].
    + intros _. exact Hv.
    + intros _. exact Hreq.
    + intros Hn. now elim Hn.
Qed.

(** ** Mode switching *)

Lemma enterChildMode_run (net : Net) (s : App) (profile : Profile) :
  let s' := final (Dashboard.enterChildMode profile net s) in
  auth s' = auth s
  /\ browser s' = browser s
  /\ appMode s'
     = if truthy_opt (pin_of (user (auth s)))
       then mkAppMode child (Some (profile_ident profile))
       else appMode s.
Proof.
  unfold Dashboard.enterChildMode.
  run_handler.
  destruct (truthy_opt (pin_of (user (auth s)))); run_handler; repeat split.
Qed.

Lemma verifyPinAndExit_run (net : Net) (s : App) :
  let s' := final (ChildBrowser.verifyPinAndExit net s) in
  auth s' = auth s
  /\ pin (browser s') = []
  /\ appMode s'
     = if eqb_opt (pin (browser s)) (pin_of (user (auth s)))
       then mkAppMode parent (selectedProfile (appMode s))
       else appMode s.
Proof.
  unfold ChildBrowser.verifyPinAndExit.
  run_handler.
  destruct (eqb_opt (pin (browser s)) (pin_of (user (auth s))));
    run_handler; repeat split.
Qed.

(** Each action either keeps the mode and the user, or is one of the two
    gated switches, or is a PIN update, which keeps the mode and leaves the
    user with a PIN. *)
Lemma step_mode_auth (net : Net) (s : App) (a : Session.Action) :
  let s' := Session.step net s a in
  (appMode s' = appMode s /\ (auth s' = auth s \/ has_pin s'))
  \/ ((exists profile, a = Session.EnterChildMode profile)
      /\ has_pin s /\ auth s' = auth s /\ mode (appMode s') = child)
  \/ (a = Session.VerifyPinAndExit
      /\ pin_of (user (auth s)) = Some (pin (browser s))
      /\ auth s' = auth s /\ mode (appMode s') = parent).
Proof.
  unfold Session.step.
  destruct a as [profile| | |text| |text|text|]; cbn [Session.handler].
  - destruct (enterChildMode_run net s profile) as (Ha & _ & Hm).
    destruct (truthy_opt (pin_of (user (auth s)))) eqn:E.
    + right; left. split; [now exists profile|].
      split; [now apply truthy_opt_some|]. split; [exact Ha|].
      cbv zeta in Hm. now rewrite Hm.
    + left. split; [exact Hm|now left].
  - left. unfold ChildBrowser.handleExitChildMode. run_handler.
    destruct (negb (truthy_opt (pin_of (user (auth s))))); run_handler;
      split; auto.
  - left. run_handler. split; auto.
  - left. run_handler. split; auto.
  - destruct (verifyPinAndExit_run net s) as (Ha & _ & Hm).
    destruct (eqb_opt (pin (browser s)) (pin_of (user (auth s)))) eqn:E.
    + right; right. split; [reflexivity|].
      split; [now apply eqb_opt_eq|]. split; [exact Ha|].
      cbv zeta in Hm. now rewrite Hm.
    + left. split; [exact Hm|now left].
  - left. run_handler. split; auto.
  - left. run_handler. split; auto.
  - left.
    destruct (handlePinUpdate_run net s)
      as (Hm & _ & [(_ & _ & Hs)|(Hv & _ & [(d & _ & Hs)|(_ & Hu & _)])]).
    + split; [exact Hm|]. left. cbv zeta in Hs. now rewrite Hs.
    + split; [exact Hm|]. left. cbv zeta in Hs. now rewrite Hs.
    + split; [exact Hm|]. right.
      exists (newPin (settings s)). split.
      * cbv zeta in Hu. rewrite Hu.
        now destruct (user (auth s)).
      * destruct Hv as [Hlen _]. intros E. now rewrite E in Hlen.
Qed.

Lemma step_gated (net : Net) (s : App) (a : Session.Action) :
  Session.gated s a (Session.step net s a).
Proof.
  unfold Session.gated.
  destruct (step_mode_auth net s a)
    as [[Hm _]|[(Ha & Hp & _ & Hm)|(Ha & Hp & _ & Hm)]]; cbv zeta in Hm.
  - rewrite Hm. now destruct (mode (appMode s)).
  - rewrite Hm. destruct (mode (appMode s)); [now split|exact I].
  - rewrite Hm. destruct (mode (appMode s)); [exact I|now split].
Qed.

Lemma step_child_has_pin (net : Net) (s : App) (a : Session.Action) :
  child_has_pin s -> child_has_pin (Session.step net s a).
Proof.
  unfold child_has_pin, has_pin.
  intros Hinv.
  destruct (step_mode_auth net s a)
    as [[Hm [Ha|Hp]]|[(_ & Hp & Ha & _)|(_ & _ & Ha & Hm)]];
    cbv zeta in *.
  - rewrite Hm, Ha. exact Hinv.
  - intros _. exact Hp.
  - rewrite Ha. intros _. exact Hp.
  - rewrite Hm. discriminate.
Qed.

Lemma run_child_has_pin (net : Net) (actions : list Session.Action) :
  forall s, child_has_pin s -> child_has_pin (Session.run net actions s).
Proof.
  induction actions as [|a actions IH]; intros s Hinv; [exact Hinv|].
  cbn [Session.run fold_left]. apply IH.
  now apply step_child_has_pin.
Qed.

(** C9.  [enterChildMode] leaves the mode alone when the user has no PIN
    and can only take the app into child mode when there is one;
    [verifyPinAndExit] switches to parent mode when the entered PIN equals
    the user's PIN and otherwise keeps the mode and clears the PIN input;
    across any step a change of mode is one of these two gated switches;
    and along every run that starts in parent mode the user has a PIN
    whenever the app is in child mode. *)
Theorem pin_gates_mode_switch (net : Net) (s : App) :
  (forall profile,
     let s' := final (Dashboard.enterChildMode profile net s) in
     (pin_of (user (auth s)) = None \/ pin_of (user (auth s)) = Some [] ->
        appMode s' = appMode s)
     /\ (mode (appMode s') = child ->
           mode (appMode s) = child \/ has_pin s))
  /\ (let s' := final (ChildBrowser.verifyPinAndExit net s) in
      (pin_of (user (auth s)) = Some (pin (browser s)) ->
         mode (appMode s') = parent)
      /\ (pin_of (user (auth s)) <> Some (pin (browser s)) ->
            mode (appMode s') = mode (appMode s) /\ pin (browser s') = []))
  /\ (forall a, Session.gated s a (Session.step net s a))
  /\ (forall actions,
        mode (appMode s) = parent ->
        mode (appMode (Session.run net actions s)) = child ->
        has_pin (Session.run net actions s)).
Proof.
  split; [|split; [|split]].
  - intros profile s'.
    destruct (enterChildMode_run net s profile) as (_ & _ & Hm).
    fold s' in Hm. rewrite Hm. split.
    + intros [E|E]; now rewrite E.
    + destruct (truthy_opt (pin_of (user (auth s)))) eqn:E.
      * intros _. right. now apply truthy_opt_some.
      * intros H. now left.
  - intros s'.
    destruct (verifyPinAndExit_run net s) as (_ & Hp & Hm).
    fold s' in Hp, Hm. rewrite Hm. split.
    + intros E. apply eqb_opt_eq in E. now rewrite E.
    + intros E.
      destruct (eqb_opt (pin (browser s)) (pin_of (user (auth s)))) eqn:E'.
      * apply eqb_opt_eq in E'. contradiction.
      * now split.
  - intros a. apply step_gated.
  - intros actions Hparent.
    apply (run_child_has_pin net actions).
    intros Hchild. congruence.
Qed.

(** ** The classifier *)

Section ClassifierProperties.

Import Classifier.
Local Open Scope Q_scope.

Variable T : RuleTables.

Lemma qmin_le_l (a b : Q) : qmin a b <= a.
Proof.
  unfold qmin. destruct (Qle_bool a b) eqn:E.
  - apply Qle_refl.
  - apply Qlt_le_weak, Qnot_le_lt. intros H.
    apply Qle_bool_iff in H. congruence.
Qed.

Lemma qmin_nonneg (a b : Q) : 0 <= a -> 0 <= b -> 0 <= qmin a b.
Proof.
  unfold qmin. now destruct (Qle_bool a b).
Qed.

Lemma fired_weights (rules : list (option Detection)) :
  Forall sound rules -> Forall (fun d => 0 <= weight d) (fired rules).
Proof.
  induction 1 as [|r rules Hr _ IH]; [constructor|].
  unfold fired. cbn [flat_map]. apply Forall_app. split; [|exact IH].
  destruct r; [now constructor|constructor].
Qed.

Hypothesis cap_nonneg : 0 <= emoji_cap T.

Lemma explicit_rule_sound n : sound (explicit_rule T n).
Proof.
  unfold explicit_rule. now destruct (first_match (explicit_keywords T) n).
Qed.

Lemma slang_rule_sound n : sound (slang_rule T n).
Proof.
  unfold slang_rule. now destruct (first_match (coded_slang T) n).
Qed.

Lemma violence_rule_sound n : sound (violence_rule T n).
Proof.
  unfold violence_rule. now destruct (first_match (violence_keywords T) n).
Qed.

Lemma url_keyword_rule_sound n : sound (url_keyword_rule T n).
Proof.
  unfold url_keyword_rule. now destruct (first_match (url_keywords T) n).
Qed.

Lemma domain_rule_sound l : sound (domain_rule T l).
Proof.
  unfold domain_rule. destruct (hostname l) as [host|]; [|exact I].
  now destruct (existsb (fun d => contains host d) (adult_domains T)).
Qed.

Lemma emoji_rule_sound original : sound (emoji_rule T original).
Proof.
  unfold emoji_rule.
  destruct (matched_emoji T original) as [|e found]; [exact I|].
  cbn [sound weight].
  apply qmin_nonneg; [exact cap_nonneg|].
  apply Qmult_le_0_compat; [discriminate|].
  change 0 with (inject_Z 0). rewrite <- Zle_Qle. apply Nat2Z.is_nonneg.
Qed.

Lemma detections_nonneg (r : ClassificationRequest) :
  Forall (fun d => 0 <= weight d) (detections T r).
Proof.
  unfold detections.
  destruct (contentType r); [| |constructor]; apply fired_weights;
    repeat constructor;
    auto using explicit_rule_sound, slang_rule_sound, violence_rule_sound,
               url_keyword_rule_sound, domain_rule_sound, emoji_rule_sound.
Qed.

Lemma totalScore_nonneg (ds : list Detection) :
  Forall (fun d => 0 <= weight d) ds -> 0 <= totalScore ds.
Proof.
  induction 1 as [|d ds Hd _ IH]; cbn [totalScore fold_right].
  - apply Qle_refl.
  - change (0 <= weight d + totalScore ds).
    rewrite <- (Qplus_0_l 0). now apply Qplus_le_compat.
Qed.

(** C2.  For every request the confidence of the verdict lies in [0,1],
    [isSafe] holds exactly when the confidence is below the threshold of
    the safety level, [blocked] is the negation of [isSafe], and so
    [blocked] holds exactly when the confidence reaches the threshold;
    the verdict is either safe and not blocked or unsafe and blocked. *)
Theorem verdict_is_threshold_test (r : ClassificationRequest) :
  let v := classify T r in
  (0 <= confidence v /\ confidence v <= 1)
  /\ (isSafe v = true <-> confidence v < threshold (safetyLevel r))
  /\ blocked v = negb (isSafe v)
  /\ (blocked v = true <-> threshold (safetyLevel r) <= confidence v)
  /\ ((isSafe v, blocked v) = (true, false)
      \/ (isSafe v, blocked v) = (false, true)).
Proof.
  unfold classify. cbn [confidence isSafe blocked].
  set (c := qmin 1 (totalScore (detections T r))).
  set (t := threshold (safetyLevel r)).
  assert (Hlt : negb (Qle_bool t c) = true <-> c < t).
  { rewrite negb_true_iff. split.
    - intros E. apply Qnot_le_lt. intros H.
      apply Qle_bool_iff in H. congruence.
    - intros H. destruct (Qle_bool t c) eqn:E; [|reflexivity].
      apply Qle_bool_iff in E. now apply Qlt_not_le in H. }
  repeat split.
  - apply qmin_nonneg; [discriminate|].
    apply totalScore_nonneg, detections_nonneg.
  - apply qmin_le_l.
  - apply Hlt.
  - apply Hlt.
  - rewrite negb_involutive. apply Qle_bool_iff.
  - rewrite negb_involutive. apply Qle_bool_iff.
  - destruct (Qle_bool t c); [now right|now left].
Qed.

End ClassifierProperties.

(** C4.  An image request yields the verdict safe, not blocked, confidence
    0, no reasons, whatever the content, the context, the safety level and
    the rule tables. *)
Theorem image_is_always_allowed
  (T : Classifier.RuleTables) (content context : Classifier.str)
  (level : Classifier.SafetyLevel) :
  Classifier.classify T
    (Classifier.mkRequest Classifier.image content context level)
  = Classifier.mkVerdict true false 0%Q [].
Proof.
  destruct level; reflexivity.
Qed.

(** C3, as stated, fails: the table has the three printed values and
    strict > moderate > lenient, but the strict band (ages 5-8) lies below
    the moderate band (ages 9-12) while its threshold is the higher one, so
    thresholds do not increase with the age band. *)
Lemma thresholds_do_not_increase_with_age :
  ~ (Classifier.table_values
     /\ Classifier.strict_above_moderate_above_lenient
     /\ Classifier.thresholds_increase_with_age).
Proof.
  intros (_ & _ & Hinc).
  assert (Hband : Classifier.band_below Classifier.strict Classifier.moderate)
    by (cbv; lia).
  specialize (Hinc _ _ Hband).
  cbv in Hinc. discriminate Hinc.
Qed.

(** C3, amended.  The threshold table assigns 0.80 to strict, 0.65 to
    moderate and 0.50 to lenient, threshold(strict) > threshold(moderate) >
    threshold(lenient), and thresholds strictly decrease as the age band
    increases. *)
Theorem threshold_table_decreases_with_age :
  Classifier.table_values
  /\ Classifier.strict_above_moderate_above_lenient
  /\ (forall a b, Classifier.band_below a b ->
        (Classifier.threshold b < Classifier.threshold a)%Q).
Proof.
  split; [|split].
  - repeat split.
  - split; reflexivity.
  - intros a b H.
    destruct a, b; cbv in H; try lia; try contradiction; reflexivity.
Qed.

(** ** Evaluation on concrete inputs *)

Example trim_strips_both_ends :
  trim (lit "  google.com ") = lit "google.com"
  /\ trim (lit "   ") = [].
Proof. split; reflexivity. Qed.

Example with_protocol_examples :
  ChildBrowser.with_protocol (lit "google.com") = lit "https://google.com"
  /\ ChildBrowser.with_protocol (lit "http://a.b") = lit "http://a.b"
  /\ ChildBrowser.with_protocol (lit "https://a.b") = lit "https://a.b"
  /\ ChildBrowser.with_protocol (lit "HTTP://a.b") = lit "https://HTTP://a.b".
Proof. repeat split. Qed.

Example join_examples :
  join (lit ", ") [] = []
  /\ join (lit ", ") [lit "a"] = lit "a"
  /\ join (lit ", ") [lit "a"; lit "b"; lit "c"] = lit "a, b, c".
Proof. repeat split. Qed.

Example substring_examples :
  substring (lit "abcdef") 0 3 = lit "abc"
  /\ substring (lit "abcdef") 0 500 = lit "abcdef"
  /\ substring (lit "abcdef") 4 2 = lit "cd".
Proof. repeat split. Qed.

Example test_digits4_examples :
  test_digits4 (lit "1234") = true
  /\ test_digits4 (lit "123") = false
  /\ test_digits4 (lit "12345") = false
  /\ test_digits4 (lit "12a4") = false
  /\ test_digits4 (lit "1234" ++ [10%N]) = false.
Proof. repeat split. Qed.

Example navigation_while_back_end_is_down :
  let r := ChildBrowser.handleNavigate Sample.net_down
             (Sample.browsing (lit "example.com")) in
  outcome r = Ok tt
  /\ ChildBrowser.render (browser (final r))
     = ChildBrowser.WebViewOn (lit "https://example.com")
  /\ emitted r
     = [SentAnalyze (mkAnalyzeRequest (Some (lit "kid1")) (lit "url")
                       (lit "https://example.com") (lit "https://example.com")
                       (Some (lit "jwt")));
        ConsoleError (lit "Error analyzing URL:");
        WebViewReload].
Proof. repeat split. Qed.

Example empty_address_does_nothing :
  let s := Sample.browsing (lit "   ") in
  ChildBrowser.handleNavigate Sample.net_block s = mkRun (Ok tt) s [].
Proof. reflexivity. Qed.

Example wrong_pin_keeps_child_mode :
  let s := Session.run Sample.net_allow
             [Session.EnterChildMode Sample.kid; Session.TypePin (lit "0000");
              Session.VerifyPinAndExit]
             (Sample.at_home (Some (lit "1234")) [] []) in
  mode (appMode s) = child /\ pin (browser s) = [].
Proof. split; reflexivity. Qed.

Example right_pin_returns_to_parent_mode :
  let s := Session.run Sample.net_allow
             [Session.EnterChildMode Sample.kid; Session.TypePin (lit "1234");
              Session.VerifyPinAndExit]
             (Sample.at_home (Some (lit "1234")) [] []) in
  mode (appMode s) = parent.
Proof. reflexivity. Qed.

Example no_pin_no_child_mode :
  let s := Session.run Sample.net_allow [Session.EnterChildMode Sample.kid]
             (Sample.at_home None [] []) in
  mode (appMode s) = parent.
Proof. reflexivity. Qed.

Example pin_update_rejected_forms :
  List.map
    (fun form =>
       pin_requests
         (emitted (Settings.handlePinUpdate Sample.net_allow
                     (Sample.at_home None (fst form) (snd form)))))
    [(lit "123", lit "123"); (lit "12a4", lit "12a4");
     (lit "1234", lit "1235"); (lit "12345", lit "12345");
     (lit "1234", lit "1234")]
  = [[]; []; []; []; [lit "1234"]].
Proof. reflexivity. Qed.

Example spec_scenario_slang :
  let v level :=
    Classifier.classify Classifier.readme_tables
      (Classifier.mkRequest Classifier.text
         (lit "let's have some netflix and chill tonight") [] level) in
  Classifier.confidence (v Classifier.moderate) = 0.35%Q
  /\ Classifier.isSafe (v Classifier.moderate) = true
  /\ Classifier.isSafe (v Classifier.strict) = true.
Proof. repeat split. Qed.

Example spec_scenario_adult_domain :
  let v :=
    Classifier.classify Classifier.readme_tables
      (Classifier.mkRequest Classifier.url
         (lit "http://knownadultdomain.example/page") [] Classifier.strict) in
  Classifier.blocked v = true
  /\ Classifier.reasons v = [lit "known adult domain"].
Proof. split; reflexivity. Qed.

(** ** Instances *)

Lemma analyzeUrl_fails_open_witness :
  let s := Sample.browsing (lit "example.com") in
  let t := lit "https://example.com" in
  post_analyze Sample.net_down (ChildBrowser.url_request s t) = Rejected None
  /\ outcome (ChildBrowser.analyzeUrl t Sample.net_down s) = Ok true
  /\ final (ChildBrowser.analyzeUrl t Sample.net_down s) = s.
Proof.
  intros s t.
  split; [reflexivity|].
  destruct (analyzeUrl_fails_open Sample.net_down s t (detail := None)
              eq_refl) as (Hout & Hfin & _).
  now split.
Defined.

Lemma blocked_drives_block_screen_witness :
  let s := Sample.browsing (lit " knownadultdomain.example ") in
  let data := mkAnalyzeResponse false 0.9%Q
                [lit "known adult domain"; lit "suspicious URL pattern"] true in
  trim (url (browser s)) <> []
  /\ post_analyze Sample.net_block
       (ChildBrowser.url_request s
          (ChildBrowser.with_protocol (trim (url (browser s)))))
     = Resolved data
  /\ blocked (browser (final (ChildBrowser.handleNavigate Sample.net_block s)))
     = true
  /\ blockReason
       (browser (final (ChildBrowser.handleNavigate Sample.net_block s)))
     = lit "known adult domain, suspicious URL pattern"
  /\ currentUrl
       (browser (final (ChildBrowser.handleNavigate Sample.net_block s)))
     = lit "https://www.google.com"
  /\ ChildBrowser.render
       (browser (final (ChildBrowser.handleNavigate Sample.net_block s)))
     = ChildBrowser.BlockedScreen
         (lit "known adult domain, suspicious URL pattern").
Proof.
  intros s data.
  assert (Hurl : trim (url (browser s)) <> []) by (vm_compute; discriminate).
  split; [exact Hurl|]. split; [reflexivity|].
  destruct (blocked_drives_block_screen Sample.net_block s (data := data)
              Hurl eq_refl) as [Hblocked _].
  exact (Hblocked eq_refl).
Defined.

Lemma handleNavigate_adds_protocol_witness :
  let s := Sample.browsing (lit "  google.com ") in
  let r := ChildBrowser.handleNavigate Sample.net_allow s in
  trim (url (browser s)) <> []
  /\ startsWith (trim (url (browser s))) (lit "http://") = false
  /\ startsWith (trim (url (browser s))) (lit "https://") = false
  /\ List.map (fun q => (req_content q, req_context q))
       (analyze_requests (emitted r))
     = [(lit "https://google.com", lit "https://google.com")]
  /\ currentUrl (browser (final r)) = lit "https://google.com".
Proof.
  intros s r.
  assert (Hurl : trim (url (browser s)) <> []) by (vm_compute; discriminate).
  split; [exact Hurl|]. split; [reflexivity|]. split; [reflexivity|].
  destruct (handleNavigate_adds_protocol Sample.net_allow s Hurl)
    as [Hbare _].
  destruct (Hbare eq_refl eq_refl) as [Hsent Hnav].
  split; [exact Hsent|exact (Hnav eq_refl)].
Defined.

Lemma only_unsafe_logs_are_shown_witness :
  let logs := [Sample.log "a" true; Sample.log "b" false] in
  In (Logs.card (Sample.log "b" false)) (Logs.rendered logs)
  /\ exists log, In log logs /\ Logs.is_safe log = false
                 /\ Logs.card (Sample.log "b" false) = Logs.card log.
Proof.
  intros logs.
  assert (Hin : In (Logs.card (Sample.log "b" false)) (Logs.rendered logs))
    by (left; reflexivity).
  split; [exact Hin|].
  destruct (only_unsafe_logs_are_shown logs) as (_ & Hshown & _).
  exact (Hshown _ Hin).
Defined.

Lemma handlePinUpdate_validates_witness :
  let s := Sample.at_home None (lit "1234") (lit "1234") in
  valid_pin_form (settings s)
  /\ pin_requests (emitted (Settings.handlePinUpdate Sample.net_allow s))
     = [lit "1234"].
Proof.
  intros s.
  assert (Hvalid : valid_pin_form (settings s)).
  { split; [reflexivity|]. split; [|reflexivity].
    repeat constructor. }
  split; [exact Hvalid|].
  destruct (handlePinUpdate_validates Sample.net_allow s) as (_ & Hsend & _).
  exact (Hsend Hvalid).
Defined.

Lemma pin_gates_mode_switch_witness :
  let s := Sample.at_home (Some (lit "1234")) [] [] in
  let actions := [Session.EnterChildMode Sample.kid;
                  Session.HandleExitChildMode;
                  Session.TypePin (lit "0000");
                  Session.VerifyPinAndExit] in
  mode (appMode s) = parent
  /\ mode (appMode (Session.run Sample.net_allow actions s)) = child
  /\ has_pin (Session.run Sample.net_allow actions s).
Proof.
  intros s actions.
  split; [reflexivity|]. split; [reflexivity|].
  destruct (pin_gates_mode_switch Sample.net_allow s) as (_ & _ & _ & Hrun).
  exact (Hrun actions eq_refl eq_refl).
Defined.

Lemma verdict_is_threshold_test_witness :
  let r := Classifier.mkRequest Classifier.text (lit "porn and murder") []
             Classifier.strict in
  let v := Classifier.classify Classifier.readme_tables r in
  (0 <= Classifier.emoji_cap Classifier.readme_tables)%Q
  /\ (0 <= Classifier.confidence v /\ Classifier.confidence v <= 1)%Q
  /\ Classifier.blocked v = negb (Classifier.isSafe v)
  /\ Classifier.blocked v = true.
Proof.
  intros r v.
  assert (Hcap : (0 <= Classifier.emoji_cap Classifier.readme_tables)%Q)
    by discriminate.
  split; [exact Hcap|].
  destruct (@verdict_is_threshold_test Classifier.readme_tables Hcap r)
    as (Hrange & _ & Hneg & _).
  split; [exact Hrange|]. split; [exact Hneg|reflexivity].
Defined.

Lemma threshold_table_decreases_with_age_witness :
  Classifier.band_below Classifier.strict Classifier.moderate
  /\ (Classifier.threshold Classifier.moderate
      < Classifier.threshold Classifier.strict)%Q.
Proof.
  assert (Hband : Classifier.band_below Classifier.strict Classifier.moderate)
    by (cbv; lia).
  split; [exact Hband|].
  destruct threshold_table_decreases_with_age as (_ & _ & Hdec).
  exact (Hdec _ _ Hband).
Defined.

(* ------------------------------------------------------------------ *)
(** * Further properties of the screens *)

(** ** Running a handler step by step *)

Lemma bind_get {B} (k : App -> Eff B) net s : bind get k net s = k s net s.
Proof. unfold bind, get. cbn. now destruct (k s net s). Qed.

Lemma bind_modify {B} (f : App -> App) (k : unit -> Eff B) net s :
  bind (modify f) k net s = k tt net (f s).
Proof. unfold bind, modify. cbn. now destruct (k tt net (f s)). Qed.

Lemma bind_emit {B} (ev : Event) (k : unit -> Eff B) net s :
  bind (emit ev) k net s = prefixed [ev] (k tt net s).
Proof. reflexivity. Qed.

Lemma bind_run {A B} (m : Eff A) (k : A -> Eff B) net s a s' evs :
  m net s = mkRun (Ok a) s' evs ->
  bind m k net s = prefixed evs (k a net s').
Proof. intros H. unfold bind. now rewrite H. Qed.

Lemma bind_thrown {A B} (m : Eff A) (k : A -> Eff B) net s e s' evs :
  m net s = mkRun (Throw e) s' evs ->
  bind m k net s = mkRun (Throw e) s' evs.
Proof. intros H. unfold bind. now rewrite H. Qed.

Lemma try_catch_ok {A} (m : Eff A) (h : Exn -> Eff A) net s a s' evs :
  m net s = mkRun (Ok a) s' evs ->
  try_catch m h net s = mkRun (Ok a) s' evs.
Proof. intros H. unfold try_catch. now rewrite H. Qed.

Lemma try_catch_thrown {A} (m : Eff A) (h : Exn -> Eff A) net s e s' evs :
  m net s = mkRun (Throw e) s' evs ->
  try_catch m h net s = prefixed evs (h e net s').
Proof. intros H. unfold try_catch. now rewrite H. Qed.

(** One step of a handler: the state is read or written, or an event is
    emitted, and the projections of the state are simplified. *)
Ltac eff_step :=
  first [rewrite bind_get | rewrite bind_modify | rewrite bind_emit];
  cbn [auth appMode browser settings
       user token stored_user stored_token mode selectedProfile
       url currentUrl canGoBack canGoForward loading blocked blockReason
       exitModalVisible pin pinModalVisible newPin confirmPin].

Ltac eff_setters :=
  unfold setUrl, setCurrentUrl, setCanGoBack, setCanGoForward, setLoading,
    setBlocked, setBlockReason, setExitModalVisible, setPin, setMode,
    setSelectedProfile, setUser, storeUser, setPinModalVisible, setNewPin,
    setConfirmPin, on_browser, on_appMode, on_auth, on_settings.

(** The end of a run: the prefixes are joined. *)
Ltac eff_done :=
  unfold prefixed, ret, modify, emit;
  cbn [outcome final emitted app].

(** ** The child browser, handler by handler *)

Lemma with_browser_same (s : App) : with_browser s (browser s) = s.
Proof. now destruct s. Qed.

Lemma after_verdict_allowed (net : Net) (q : AnalyzeRequest) (b : BrowserState) :
  ChildBrowser.allowed net q = true -> after_verdict net q b = b.
Proof.
  unfold ChildBrowser.allowed, after_verdict.
  destruct (post_analyze net q) as [data|d]; [|reflexivity].
  now destruct (resp_blocked data).
Qed.

Lemma after_verdict_blocked (net : Net) (q : AnalyzeRequest) (b : BrowserState) :
  ChildBrowser.allowed net q = false ->
  exists data, post_analyze net q = Resolved data
               /\ resp_blocked data = true
               /\ after_verdict net q b = block_with b (resp_reasons data).
Proof.
  unfold ChildBrowser.allowed, after_verdict.
  destruct (post_analyze net q) as [data|d]; [|discriminate].
  destruct (resp_blocked data) eqn:E; [|discriminate].
  intros _. exists data. now rewrite E.
Qed.

(** The whole run of [analyzeUrl]. *)
Lemma analyzeUrl_run (net : Net) (s : App) (targetUrl : jsstring) :
  let q := ChildBrowser.url_request s targetUrl in
  ChildBrowser.analyzeUrl targetUrl net s
  = mkRun (Ok (ChildBrowser.allowed net q))
      (with_browser s (after_verdict net q (browser s)))
      (SentAnalyze q
       :: logged_if_rejected net q (lit "Error analyzing URL:")).
Proof.
  intros q.
  unfold ChildBrowser.analyzeUrl, ChildBrowser.allowed, after_verdict,
    logged_if_rejected.
  run_handler. fold q.
  destruct (post_analyze net q) as [data|d]; run_handler.
  - destruct (resp_blocked data); run_handler; cbn [negb app].
    + reflexivity.
    + now rewrite with_browser_same.
  - cbn [app]. now rewrite with_browser_same.
Qed.

Lemma analyze_requests_logged (net : Net) (q : AnalyzeRequest) (l : jsstring) :
  analyze_requests (logged_if_rejected net q l) = [].
Proof.
  unfold logged_if_rejected. now destruct (post_analyze net q).
Qed.

(** X1.  [analyzeUrl] never throws: it sends exactly one request, whose
    content and context are the target, and answers [false] exactly when
    that request resolves with [blocked] true.  It never touches the user,
    the mode, the settings form or the current address. *)
Theorem analyzeUrl_never_throws (net : Net) (s : App) (targetUrl : jsstring) :
  let r := ChildBrowser.analyzeUrl targetUrl net s in
  let q := ChildBrowser.url_request s targetUrl in
  outcome r = Ok (ChildBrowser.allowed net q)
  /\ analyze_requests (emitted r) = [q]
  /\ (req_content q, req_context q, req_content_type q)
     = (targetUrl, targetUrl, lit "url")
  /\ auth (final r) = auth s
  /\ appMode (final r) = appMode s
  /\ settings (final r) = settings s
  /\ currentUrl (browser (final r)) = currentUrl (browser s)
  /\ url (browser (final r)) = url (browser s).
Proof.
  intros r q. subst r. rewrite analyzeUrl_run. fold q.
  cbn [outcome final emitted analyze_requests].
  rewrite analyze_requests_logged.
  unfold with_browser, after_verdict, block_with.
  destruct (post_analyze net q) as [data|d];
    [destruct (resp_blocked data)|]; repeat split.
Qed.

Lemma handleNavigate_blank_run (net : Net) (s : App) :
  trim (url (browser s)) = [] ->
  ChildBrowser.handleNavigate net s = mkRun (Ok tt) s [].
Proof.
  intros Hblank.
  unfold ChildBrowser.handleNavigate.
  run_handler. rewrite Hblank. reflexivity.
Qed.

(** X2.  An address that is empty or only white space is not navigated
    to: [handleNavigate] sends nothing, changes nothing, does not even
    show the loading indicator, and the WebView stays on the page it
    shows. *)
Theorem blank_address_is_not_navigated (net : Net) (s : App)
  (Hblank : trim (url (browser s)) = []) :
  let r := ChildBrowser.handleNavigate net s in
  r = mkRun (Ok tt) s []
  /\ analyze_requests (emitted r) = []
  /\ ChildBrowser.render (browser (final r)) = ChildBrowser.render (browser s).
Proof.
  intros r. subst r. rewrite (handleNavigate_blank_run net s Hblank).
  repeat split.
Qed.

Lemma startsWith_app (p t : jsstring) : startsWith (p ++ t) p = true.
Proof.
  induction p as [|c p IH]; [now destruct t|].
  cbn. now rewrite N.eqb_refl.
Qed.

Lemma with_protocol_has_protocol (t : jsstring) :
  startsWith (ChildBrowser.with_protocol t) (lit "http://")
  || startsWith (ChildBrowser.with_protocol t) (lit "https://") = true.
Proof.
  unfold ChildBrowser.with_protocol.
  destruct (startsWith t (lit "http://")) eqn:E1; cbn [negb andb].
  - now rewrite E1.
  - destruct (startsWith t (lit "https://")) eqn:E2; cbn [negb].
    + now rewrite E1, E2.
    + rewrite startsWith_app. apply orb_true_r.
Qed.

Lemma with_protocol_fixed (t : jsstring) :
  startsWith t (lit "http://") || startsWith t (lit "https://") = true ->
  ChildBrowser.with_protocol t = t.
Proof.
  unfold ChildBrowser.with_protocol. intros H.
  apply orb_true_iff in H as [H|H]; rewrite H; [reflexivity|].
  now rewrite andb_false_r.
Qed.

(** The whole run of [handleNavigate] on an address that is not blank. *)
Lemma handleNavigate_full_run (net : Net) (s : App) :
  let t := ChildBrowser.with_protocol (trim (url (browser s))) in
  let q := ChildBrowser.url_request s t in
  let b := browser s in
  trim (url (browser s)) <> [] ->
  ChildBrowser.handleNavigate net s
  = mkRun (Ok tt)
      (with_browser s
         (if ChildBrowser.allowed net q
          then mkBrowser (url b) t (canGoBack b) (canGoForward b) false false
                 (blockReason b) (exitModalVisible b) (pin b)
          else mkBrowser (url b) (currentUrl b) (canGoBack b) (canGoForward b)
                 false true (blockReason (after_verdict net q b))
                 (exitModalVisible b) (pin b)))
      (SentAnalyze q
       :: logged_if_rejected net q (lit "Error analyzing URL:")
       ++ (if ChildBrowser.allowed net q then [WebViewReload] else [])).
Proof.
  intros t q b Hurl.
  apply truthy_nonempty in Hurl.
  unfold ChildBrowser.handleNavigate. eff_setters.
  eff_step. rewrite Hurl. cbn [negb]. fold t.
  eff_step.
  rewrite (@bind_run _ _ _ _ _ _ _ _ _ (analyzeUrl_run net _ t)).
  rewrite url_request_browser. fold q.
  unfold with_browser. cbn [auth appMode browser settings].
  eff_step.
  unfold after_verdict, logged_if_rejected, ChildBrowser.allowed.
  destruct (post_analyze net q) as [data|d];
    [destruct (resp_blocked data)|]; cbn [negb];
    repeat eff_step; eff_done; reflexivity.
Qed.

(** X3.  Every address [handleNavigate] submits for analysis starts with
    "http://" or "https://"; adding the protocol to an address that has one
    changes nothing, so the normalisation is idempotent. *)
Theorem navigation_requests_carry_a_protocol (net : Net) (s : App) :
  Forall (fun q => startsWith (req_content q) (lit "http://")
                   || startsWith (req_content q) (lit "https://") = true)
    (analyze_requests (emitted (ChildBrowser.handleNavigate net s)))
  /\ forall t, ChildBrowser.with_protocol (ChildBrowser.with_protocol t)
               = ChildBrowser.with_protocol t.
Proof.
  split.
  - destruct (trim (url (browser s))) as [|c t] eqn:E.
    + rewrite handleNavigate_blank_run by exact E. constructor.
    + assert (Hurl : trim (url (browser s)) <> []) by (rewrite E; discriminate).
      destruct (handleNavigate_run net s Hurl) as (Hq & _).
      rewrite Hq. constructor; [|constructor].
      apply with_protocol_has_protocol.
  - intros t. apply with_protocol_fixed, with_protocol_has_protocol.
Qed.

(** X4.  [handleNavigate] never throws and sends at most one request.  It
    leaves the user, the mode, the settings form, the typed address, the
    PIN input, the exit dialog and the history flags as they were, and when
    it did navigate the loading indicator is off at the end. *)
Theorem handleNavigate_frame (net : Net) (s : App) :
  let r := ChildBrowser.handleNavigate net s in
  outcome r = Ok tt
  /\ List.length (analyze_requests (emitted r)) <= 1
  /\ auth (final r) = auth s
  /\ appMode (final r) = appMode s
  /\ settings (final r) = settings s
  /\ url (browser (final r)) = url (browser s)
  /\ pin (browser (final r)) = pin (browser s)
  /\ exitModalVisible (browser (final r)) = exitModalVisible (browser s)
  /\ (canGoBack (browser (final r)), canGoForward (browser (final r)))
     = (canGoBack (browser s), canGoForward (browser s))
  /\ loading (browser (final r))
     = if truthy (trim (url (browser s))) then false else loading (browser s).
Proof.
  intros r. subst r.
  destruct (trim (url (browser s))) as [|c t] eqn:E.
  - rewrite handleNavigate_blank_run by exact E. cbn. repeat split. lia.
  - assert (Hurl : trim (url (browser s)) <> []) by (rewrite E; discriminate).
    rewrite (handleNavigate_full_run net s Hurl).
    cbn [outcome final emitted analyze_requests truthy].
    rewrite analyze_requests_app, analyze_requests_logged.
    unfold with_browser.
    destruct (ChildBrowser.allowed net _); cbn; repeat split; lia.
Qed.

(** X5.  A navigation inside the WebView to the current address is not
    analysed; one to any other address is analysed exactly once, and only a
    verdict that blocks stops the load and answers [false].  In every case
    the history flags are taken over and the current address stays as it
    was. *)
Theorem navigation_change_is_analysed_once
  (net : Net) (s : App) (navState : ChildBrowser.NavState) :
  let r := ChildBrowser.handleWebViewNavigationStateChange navState net s in
  let q := ChildBrowser.url_request s (ChildBrowser.nav_url navState) in
  let b := with_history (browser s) (ChildBrowser.nav_canGoBack navState)
             (ChildBrowser.nav_canGoForward navState) in
  if eqb (ChildBrowser.nav_url navState) (currentUrl (browser s)) then
    r = mkRun (Ok None) (with_browser s b) []
  else
    r = mkRun
          (Ok (if ChildBrowser.allowed net q then None else Some false))
          (with_browser s (after_verdict net q b))
          (SentAnalyze q
           :: logged_if_rejected net q (lit "Error analyzing URL:")
           ++ (if ChildBrowser.allowed net q then []
               else [WebViewStopLoading])).
Proof.
  intros r q b. subst r.
  unfold ChildBrowser.handleWebViewNavigationStateChange. eff_setters.
  repeat eff_step.
  destruct (eqb (ChildBrowser.nav_url navState) (currentUrl (browser s)));
    cbn [negb]; [reflexivity|].
  rewrite (@bind_run _ _ _ _ _ _ _ _ _
             (analyzeUrl_run net _ (ChildBrowser.nav_url navState))).
  rewrite url_request_browser. fold q.
  unfold with_browser. cbn [auth appMode browser settings].
  destruct (ChildBrowser.allowed net q); cbn [negb].
  - eff_done. reflexivity.
  - eff_step. eff_done. reflexivity.
Qed.

(** The whole run of [handleWebViewMessage]. *)
Lemma handleWebViewMessage_run
  (net : Net) (s : App) (event : ChildBrowser.EventData) :
  ChildBrowser.handleWebViewMessage event net s
  = match event with
    | ChildBrowser.Unparsable =>
        mkRun (Ok tt) s
          [ConsoleError (lit "Error handling webview message:")]
    | ChildBrowser.Parsed data =>
        if eqb (ChildBrowser.msg_type data) (lit "text") then
          let q := mkAnalyzeRequest (selectedProfile (appMode s)) (lit "text")
                     (ChildBrowser.msg_content data) (currentUrl (browser s))
                     (token (auth s)) in
          mkRun (Ok tt) (with_browser s (after_verdict net q (browser s)))
            (SentAnalyze q
             :: logged_if_rejected net q
                  (lit "Error handling webview message:"))
        else mkRun (Ok tt) s []
    end.
Proof.
  unfold ChildBrowser.handleWebViewMessage, ChildBrowser.JSON_parse.
  destruct event as [|data]; run_handler; [reflexivity|].
  destruct (eqb (ChildBrowser.msg_type data) (lit "text")); [|reflexivity].
  run_handler.
  unfold after_verdict, logged_if_rejected, with_browser.
  match goal with |- context [post_analyze net ?q] =>
    destruct (post_analyze net q) as [resp|d] end; run_handler.
  - destruct (resp_blocked resp); run_handler; cbn [app].
    + reflexivity.
    + now destruct s.
  - cbn [app]. now destruct s.
Qed.

(** X6.  [handleWebViewMessage] never throws, whatever the WebView posts.
    A message that does not parse, or whose type is not "text", causes no
    request and no change of state; a text message causes exactly one
    request, with content type "text", the content of the message as it
    came and the current address as context. *)
Theorem handleWebViewMessage_never_throws
  (net : Net) (s : App) (event : ChildBrowser.EventData) :
  let r := ChildBrowser.handleWebViewMessage event net s in
  outcome r = Ok tt
  /\ match event with
     | ChildBrowser.Unparsable => analyze_requests (emitted r) = [] /\ final r = s
     | ChildBrowser.Parsed data =>
         if eqb (ChildBrowser.msg_type data) (lit "text") then
           analyze_requests (emitted r)
           = [mkAnalyzeRequest (selectedProfile (appMode s)) (lit "text")
                (ChildBrowser.msg_content data) (currentUrl (browser s))
                (token (auth s))]
         else analyze_requests (emitted r) = [] /\ final r = s
     end.
Proof.
  intros r. subst r. rewrite handleWebViewMessage_run.
  destruct event as [|data]; [now repeat split|].
  destruct (eqb (ChildBrowser.msg_type data) (lit "text")); [|now repeat split].
  cbn [outcome final emitted analyze_requests].
  now rewrite analyze_requests_logged.
Qed.

(** X7.  The verdict on a text message decides the block screen alone: a
    response with [blocked] true switches to the block screen with the
    joined reasons, and a response with [blocked] false or a failed call
    leaves the state untouched (the text channel fails open too).  The
    current address, the user and the mode never change. *)
Theorem text_verdict_drives_block_screen
  (net : Net) (s : App) (content : jsstring) :
  let r := ChildBrowser.handleWebViewMessage
             (ChildBrowser.Parsed (ChildBrowser.mkMessage (lit "text") content))
             net s in
  let q := mkAnalyzeRequest (selectedProfile (appMode s)) (lit "text") content
             (currentUrl (browser s)) (token (auth s)) in
  match post_analyze net q with
  | Resolved data =>
      if resp_blocked data then
        final r = with_browser s (block_with (browser s) (resp_reasons data))
        /\ ChildBrowser.render (browser (final r))
           = ChildBrowser.BlockedScreen (join (lit ", ") (resp_reasons data))
      else final r = s
  | Rejected _ => final r = s
  end.
Proof.
  intros r q. subst r. rewrite handleWebViewMessage_run.
  cbn [ChildBrowser.msg_type ChildBrowser.msg_content].
  rewrite eqb_refl. cbv zeta. fold q.
  cbn [final]. unfold after_verdict.
  destruct (post_analyze net q) as [data|d].
  - destruct (resp_blocked data).
    + split; reflexivity.
    + apply with_browser_same.
  - apply with_browser_same.
Qed.

Lemma after_verdict_keeps_currentUrl
  (net : Net) (q : AnalyzeRequest) (b : BrowserState) :
  currentUrl (after_verdict net q b) = currentUrl b.
Proof.
  unfold after_verdict, block_with.
  destruct (post_analyze net q) as [data|d]; [|reflexivity].
  now destruct (resp_blocked data).
Qed.

(** A navigation inside the WebView leaves the current address alone. *)
Lemma navigation_change_keeps_currentUrl
  (net : Net) (s : App) (navState : ChildBrowser.NavState) :
  currentUrl
    (browser
       (final (ChildBrowser.handleWebViewNavigationStateChange navState net s)))
  = currentUrl (browser s).
Proof.
  unfold ChildBrowser.handleWebViewNavigationStateChange. eff_setters.
  repeat eff_step.
  destruct (eqb (ChildBrowser.nav_url navState) (currentUrl (browser s)));
    cbn [negb]; [reflexivity|].
  rewrite (@bind_run _ _ _ _ _ _ _ _ _
             (analyzeUrl_run net _ (ChildBrowser.nav_url navState))).
  rewrite url_request_browser.
  unfold with_browser. cbn [auth appMode browser settings].
  destruct (ChildBrowser.allowed net _); cbn [negb].
  - eff_done. cbn [browser]. now rewrite after_verdict_keeps_currentUrl.
  - eff_step. eff_done. cbn [browser].
    now rewrite after_verdict_keeps_currentUrl.
Qed.

(** A message of the WebView leaves the current address alone. *)
Lemma message_keeps_currentUrl
  (net : Net) (s : App) (event : ChildBrowser.EventData) :
  currentUrl (browser (final (ChildBrowser.handleWebViewMessage event net s)))
  = currentUrl (browser s).
Proof.
  rewrite handleWebViewMessage_run.
  destruct event as [|data]; [reflexivity|].
  destruct (eqb (ChildBrowser.msg_type data) (lit "text")); [|reflexivity].
  cbn [final with_browser browser].
  apply after_verdict_keeps_currentUrl.
Qed.

(** X8.  "Go Back" on the block screen brings the WebView back on the
    current address with the reason cleared, and the current address is
    the one last set from the address bar: a link followed inside the
    WebView, a text message and a blocked navigation all leave it as it
    was.  So after a block "Go Back" shows the address that was current
    before the block, also when a link has been followed since, in which
    case it is not the page whose text was blocked. *)
Theorem unblock_returns_to_current_address
  (net : Net) (s : App) (navState : ChildBrowser.NavState)
  (event : ChildBrowser.EventData) :
  let followed :=
    final (ChildBrowser.handleWebViewNavigationStateChange navState net s) in
  let after_message := final (ChildBrowser.handleWebViewMessage event net s) in
  let after_link_and_message :=
    final (ChildBrowser.handleWebViewMessage event net followed) in
  let after_navigation := final (ChildBrowser.handleNavigate net s) in
  let unblocked s' := browser (final (ChildBrowser.handleUnblock net s')) in
  currentUrl (browser followed) = currentUrl (browser s)
  /\ ChildBrowser.render (unblocked after_message)
     = ChildBrowser.WebViewOn (currentUrl (browser s))
  /\ ChildBrowser.render (unblocked after_link_and_message)
     = ChildBrowser.WebViewOn (currentUrl (browser s))
  /\ blockReason (unblocked after_message) = []
  /\ (blocked (browser after_navigation) = true ->
      ChildBrowser.render (unblocked after_navigation)
      = ChildBrowser.WebViewOn (currentUrl (browser s))).
Proof.
  intros followed after_message after_link_and_message after_navigation
    unblocked.
  assert (Hun : forall s', ChildBrowser.render (unblocked s')
                           = ChildBrowser.WebViewOn (currentUrl (browser s'))
                           /\ blockReason (unblocked s') = []).
  { intros s'. subst unblocked. unfold ChildBrowser.handleUnblock.
    run_handler. split; reflexivity. }
  assert (Hlink : currentUrl (browser followed) = currentUrl (browser s))
    by apply navigation_change_keeps_currentUrl.
  split; [exact Hlink|]. split; [|split; [|split]].
  - destruct (Hun after_message) as [H _]. rewrite H.
    subst after_message. now rewrite message_keeps_currentUrl.
  - destruct (Hun after_link_and_message) as [H _]. rewrite H.
    subst after_link_and_message. now rewrite message_keeps_currentUrl, Hlink.
  - apply Hun.
  - intros Hblocked. destruct (Hun after_navigation) as [H _]. rewrite H.
    f_equal. subst after_navigation.
    destruct (trim (url (browser s))) as [|c t] eqn:E.
    + now rewrite handleNavigate_blank_run by exact E.
    + assert (Hurl : trim (url (browser s)) <> [])
        by (rewrite E; discriminate).
      rewrite (handleNavigate_full_run net s Hurl) in Hblocked |- *.
      cbn [final with_browser browser] in Hblocked |- *.
      destruct (ChildBrowser.allowed net _); [discriminate Hblocked|].
      reflexivity.
Qed.

(** ** PINs across the screens *)

(** The whole run of [updatePin]. *)
Lemma updatePin_run (net : Net) (s : App) (p : jsstring) :
  AuthContext.updatePin p net s
  = match put_pin net p (token (auth s)) with
    | Resolved _ =>
        mkRun (Ok tt)
          (mkApp
             (mkAuth (Some (AuthContext.with_pin (user (auth s)) p))
                (token (auth s))
                (Some (AuthContext.with_pin (user (auth s)) p))
                (stored_token (auth s)))
             (appMode s) (browser s) (settings s))
          [SentPutPin p (token (auth s))]
    | Rejected d =>
        mkRun
          (Throw (Error (AuthContext.detail_or (AxiosError d)
                           (lit "Failed to update PIN"))))
          s
          [SentPutPin p (token (auth s));
           ConsoleError (lit "Update PIN error:")]
    end.
Proof.
  unfold AuthContext.updatePin.
  run_handler.
  destruct (put_pin net p (token (auth s))) as [[]|d]; run_handler;
    reflexivity.
Qed.

(** X9.  [updatePin] either succeeds, and then the user in memory and the
    stored copy are the same user as before with the new PIN while the
    token is kept, or it throws an [Error] whose message is the detail the
    server gave (the fixed text when it gave none or an empty one) and
    leaves the state as it was.  One request is sent in both cases. *)
Theorem updatePin_all_or_nothing (net : Net) (s : App) (p : jsstring) :
  let r := AuthContext.updatePin p net s in
  pin_requests (emitted r) = [p]
  /\ match put_pin net p (token (auth s)) with
     | Resolved _ =>
         outcome r = Ok tt
         /\ user (auth (final r)) = Some (AuthContext.with_pin (user (auth s)) p)
         /\ stored_user (auth (final r)) = user (auth (final r))
         /\ token (auth (final r)) = token (auth s)
         /\ pin_of (user (auth (final r))) = Some p
         /\ appMode (final r) = appMode s
     | Rejected d =>
         outcome r
         = Throw (Error (match d with
                         | Some (c :: m) => c :: m
                         | _ => lit "Failed to update PIN"
                         end))
         /\ final r = s
     end.
Proof.
  unfold AuthContext.updatePin.
  run_handler.
  destruct (put_pin net p (token (auth s))) as [[]|d]; run_handler.
  - repeat split. now destruct (user (auth s)).
  - repeat split. now destruct d as [[|c m]|].
Qed.

(** The whole run of [handlePinUpdate] on a valid form. *)
Lemma handlePinUpdate_valid_run (net : Net) (s : App) :
  valid_pin_form (settings s) ->
  Settings.handlePinUpdate net s
  = match put_pin net (newPin (settings s)) (token (auth s)) with
    | Resolved _ =>
        mkRun (Ok tt)
          (mkApp
             (mkAuth
                (Some (AuthContext.with_pin (user (auth s))
                         (newPin (settings s))))
                (token (auth s))
                (Some (AuthContext.with_pin (user (auth s))
                         (newPin (settings s))))
                (stored_token (auth s)))
             (appMode s) (browser s) (mkSettings false [] []))
          [SentPutPin (newPin (settings s)) (token (auth s));
           Alerted (lit "Success") (lit "PIN updated successfully")]
    | Rejected d =>
        mkRun (Ok tt) s
          [SentPutPin (newPin (settings s)) (token (auth s));
           ConsoleError (lit "Update PIN error:");
           Alerted (lit "Error")
             (AuthContext.detail_or (AxiosError d)
                (lit "Failed to update PIN"))]
    end.
Proof.
  intros Hvalid.
  apply valid_pin_form_checks in Hvalid as [E1 E2].
  unfold Settings.handlePinUpdate. eff_setters.
  eff_step. rewrite E1, E2.
  assert (Hup := updatePin_run net s (newPin (settings s))).
  unfold try_catch.
  destruct (put_pin net (newPin (settings s)) (token (auth s))) as [[]|d].
  - rewrite (@bind_run _ _ _ _ _ _ _ _ _ Hup).
    repeat eff_step. eff_done. reflexivity.
  - rewrite (@bind_thrown _ _ _ _ _ _ _ _ _ Hup).
    cbn [outcome final emitted]. eff_done. reflexivity.
Qed.

(** The whole runs of the three handlers that gate the mode. *)
Lemma enterChildMode_eq (net : Net) (s : App) (profile : Profile) :
  Dashboard.enterChildMode profile net s
  = if truthy_opt (pin_of (user (auth s))) then
      mkRun (Ok tt)
        (mkApp (auth s) (mkAppMode child (Some (profile_ident profile)))
           (browser s) (settings s))
        [RouterPush (lit "/child/browser")]
    else
      mkRun (Ok tt) s
        [Alerted (lit "PIN Required")
           (lit "Please set up a PIN in Settings before entering Child Mode")].
Proof.
  unfold Dashboard.enterChildMode. eff_setters. eff_step.
  destruct (truthy_opt (pin_of (user (auth s)))); cbn [negb].
  - repeat eff_step. eff_done. reflexivity.
  - reflexivity.
Qed.

Lemma handleExitChildMode_eq (net : Net) (s : App) :
  ChildBrowser.handleExitChildMode net s
  = if truthy_opt (pin_of (user (auth s))) then
      mkRun (Ok tt)
        (with_browser s
           (mkBrowser (url (browser s)) (currentUrl (browser s))
              (canGoBack (browser s)) (canGoForward (browser s))
              (loading (browser s)) (blocked (browser s))
              (blockReason (browser s)) true (pin (browser s))))
        []
    else
      mkRun (Ok tt) s
        [Alerted (lit "Error") (lit "PIN not set. Please contact parent.")].
Proof.
  unfold ChildBrowser.handleExitChildMode. eff_setters. eff_step.
  destruct (truthy_opt (pin_of (user (auth s)))); reflexivity.
Qed.

Lemma verifyPinAndExit_eq (net : Net) (s : App) :
  ChildBrowser.verifyPinAndExit net s
  = let cleared exit :=
      mkBrowser (url (browser s)) (currentUrl (browser s))
        (canGoBack (browser s)) (canGoForward (browser s))
        (loading (browser s)) (blocked (browser s))
        (blockReason (browser s)) exit [] in
    if eqb_opt (pin (browser s)) (pin_of (user (auth s))) then
      mkRun (Ok tt)
        (mkApp (auth s) (mkAppMode parent (selectedProfile (appMode s)))
           (cleared false) (settings s))
        [RouterReplace (lit "/parent/dashboard")]
    else
      mkRun (Ok tt)
        (with_browser s (cleared (exitModalVisible (browser s))))
        [Alerted (lit "Error") (lit "Incorrect PIN")].
Proof.
  unfold ChildBrowser.verifyPinAndExit. eff_setters. eff_step.
  destruct (eqb_opt (pin (browser s)) (pin_of (user (auth s)))).
  - repeat eff_step. eff_done. reflexivity.
  - repeat eff_step. eff_done. reflexivity.
Qed.

(** X10.  With a valid form, [handlePinUpdate] reports the result of the
    server: on success it announces it, closes the dialog and empties both
    fields; on failure it shows the error and keeps the dialog, the fields
    and the user as they were. *)
Theorem handlePinUpdate_reports_server_result (net : Net) (s : App)
  (Hvalid : valid_pin_form (settings s)) :
  let r := Settings.handlePinUpdate net s in
  outcome r = Ok tt
  /\ match put_pin net (newPin (settings s)) (token (auth s)) with
     | Resolved _ =>
         settings (final r) = mkSettings false [] []
         /\ In (Alerted (lit "Success") (lit "PIN updated successfully"))
              (emitted r)
         /\ pin_of (user (auth (final r))) = Some (newPin (settings s))
     | Rejected d =>
         final r = s
         /\ In (Alerted (lit "Error")
                  (AuthContext.detail_or (AxiosError d)
                     (lit "Failed to update PIN")))
              (emitted r)
     end.
Proof.
  intros r. subst r. rewrite (handlePinUpdate_valid_run net s Hvalid).
  destruct (put_pin net (newPin (settings s)) (token (auth s))) as [[]|d].
  - repeat split.
    + cbn. tauto.
    + now destruct (user (auth s)).
  - repeat split. cbn. tauto.
Qed.

(** X11.  Invalid input in the PIN dialog is answered by exactly one alert
    and nothing else: "PIN must be 4 digits" when the new PIN is not four
    digits, "PINs do not match" when it is but differs from the
    confirmation. *)
Theorem handlePinUpdate_rejects_with_one_alert (net : Net) (s : App)
  (Hinvalid : ~ valid_pin_form (settings s)) :
  Settings.handlePinUpdate net s
  = mkRun (Ok tt) s
      [Alerted (lit "Error")
         (if Nat.eqb (List.length (newPin (settings s))) 4
             && test_digits4 (newPin (settings s))
          then lit "PINs do not match"
          else lit "PIN must be 4 digits")].
Proof.
  unfold Settings.handlePinUpdate.
  run_handler.
  destruct (Nat.eqb (List.length (newPin (settings s))) 4) eqn:E1;
    [destruct (test_digits4 (newPin (settings s))) eqn:E2|];
    cbn [negb orb andb]; try reflexivity.
  destruct (eqb (newPin (settings s)) (confirmPin (settings s))) eqn:E3;
    cbn [negb]; [|reflexivity].
  elim Hinvalid. apply valid_pin_form_checks.
  now rewrite E1, E2, E3.
Qed.

(** X12.  The PIN saved in the settings is the PIN that leaves child mode:
    after a successful update with a valid form, entering child mode works
    and typing the new PIN returns to parent mode, while typing anything
    else stays in child mode with the input cleared. *)
Theorem saved_pin_unlocks_child_mode
  (net : Net) (s : App) (profile : Profile) (typed : jsstring)
  (Hvalid : valid_pin_form (settings s))
  (Hsaved : put_pin net (newPin (settings s)) (token (auth s)) = Resolved tt) :
  let s' := Session.run net
              [Session.HandlePinUpdate; Session.EnterChildMode profile;
               Session.HandleExitChildMode; Session.TypePin typed] s in
  mode (appMode s') = child
  /\ exitModalVisible (browser s') = true
  /\ mode (appMode (Session.step net s' Session.VerifyPinAndExit))
     = (if eqb typed (newPin (settings s)) then parent else child)
  /\ pin (browser (Session.step net s' Session.VerifyPinAndExit)) = [].
Proof.
  assert (Hne : truthy (newPin (settings s)) = true).
  { destruct Hvalid as [Hlen _]. now destruct (newPin (settings s)). }
  assert (Hpin : pin_of (Some (AuthContext.with_pin (user (auth s))
                                 (newPin (settings s))))
                 = Some (newPin (settings s)))
    by now destruct (user (auth s)).
  cbv zeta.
  unfold Session.run, Session.step. cbn [fold_left Session.handler].
  rewrite (handlePinUpdate_valid_run net s Hvalid), Hsaved. cbn [final].
  rewrite enterChildMode_eq. cbn [auth user]. rewrite Hpin.
  cbn [truthy_opt]. rewrite Hne. cbn [final].
  rewrite handleExitChildMode_eq. cbn [auth user]. rewrite Hpin.
  cbn [truthy_opt]. rewrite Hne. unfold with_browser.
  cbn [final auth appMode browser settings].
  unfold setPin, on_browser, modify.
  cbn [final auth appMode browser settings url currentUrl canGoBack
       canGoForward loading blocked blockReason exitModalVisible pin].
  rewrite verifyPinAndExit_eq.
  cbn [auth appMode browser settings user pin]. rewrite Hpin.
  cbn [eqb_opt].
  destruct (eqb typed (newPin (settings s))); repeat split.
Qed.

(** X13.  Along every run that starts in parent mode, whenever the app is
    in child mode the back arrow opens the PIN dialog: the alert "PIN not
    set" cannot come up there, and the mode is not changed by the arrow. *)
Theorem exit_dialog_opens_in_child_mode
  (net : Net) (s : App) (actions : list Session.Action)
  (Hparent : mode (appMode s) = parent)
  (Hchild : mode (appMode (Session.run net actions s)) = child) :
  let s' := Session.run net actions s in
  let r := ChildBrowser.handleExitChildMode net s' in
  emitted r = []
  /\ exitModalVisible (browser (final r)) = true
  /\ appMode (final r) = appMode s'.
Proof.
  intros s' r.
  assert (Hpin : has_pin s').
  { apply (run_child_has_pin net actions); [|exact Hchild].
    intros H. congruence. }
  apply truthy_opt_some in Hpin.
  subst r. rewrite handleExitChildMode_eq, Hpin.
  repeat split.
Qed.

(** ** Sessions: login, storage and restart *)

Ltac run_screen :=
  cbv [Screen.bind Screen.ret Screen.throw Screen.try_catch
       Screen.try_finally Screen.get Screen.modify Screen.ask Screen.emit
       Screen.call Screen.outcome Screen.final Screen.emitted
       AuthProvider.on_auth AuthProvider.setToken AuthProvider.setUser
       AuthProvider.setLoading AuthProvider.storeToken AuthProvider.storeUser
       Profiles.setProfiles Profiles.setLoading Profiles.setModalVisible
       Profiles.setEditingProfile Profiles.setFormData
       DashboardData.setProfiles DashboardData.setRecentLogs
       DashboardData.setRefreshing DashboardData.setLoading
       LogsData.setLogs LogsData.setSearchQuery LogsData.setRefreshing
       LogsData.setLoading];
  cbn [app AuthProvider.auth_of AuthProvider.loading
       user token stored_user stored_token
       Profiles.token Profiles.profiles Profiles.loading Profiles.modalVisible
       Profiles.editingProfile Profiles.formData
       Profiles.name Profiles.age Profiles.maturity_level
       DashboardData.token DashboardData.profiles DashboardData.recentLogs
       DashboardData.refreshing DashboardData.loading
       LogsData.token LogsData.logs LogsData.searchQuery LogsData.refreshing
       LogsData.loading].

(** The whole run of [login]. *)
Lemma login_run
  (api : Api) (s : AuthProvider.State) (email password : jsstring) :
  AuthProvider.login email password api s
  = match post_login api email password with
    | Resolved data =>
        Screen.mkRun (Ok tt)
          (AuthProvider.mkState (signed_in data) (AuthProvider.loading s))
          [Sent (PostLogin email password)]
    | Rejected d =>
        Screen.mkRun
          (Throw (Error (AuthContext.detail_or (AxiosError d)
                           (lit "Login failed"))))
          s
          [Sent (PostLogin email password); Console (lit "Login error:")]
    end.
Proof.
  unfold AuthProvider.login, signed_in. run_screen.
  destruct (post_login api email password) as [data|d]; run_screen;
    [reflexivity|now destruct s].
Qed.



(** The whole run of [loadStoredAuth]. *)
Lemma loadStoredAuth_run (api : Api) (s : AuthProvider.State) :
  let a := AuthProvider.auth_of s in
  AuthProvider.loadStoredAuth api s
  = Screen.mkRun (Ok tt)
      (AuthProvider.mkState
         (match stored_user a with
          | Some u =>
              if truthy_opt (stored_token a)
              then mkAuth (Some u) (stored_token a) (stored_user a)
                     (stored_token a)
              else a
          | None => a
          end) false)
      [].
Proof.
  unfold AuthProvider.loadStoredAuth.
  run_screen.
  destruct s as [[u t su st] l]. cbn.
  destruct su as [u'|]; [destruct (truthy_opt st)|]; reflexivity.
Qed.

(** X15.  [loadStoredAuth] never throws and always ends the loading
    phase.  It restores the session only when both a non-empty token and a
    user are stored, and then index.tsx goes to the dashboard; with either
    one missing nothing is restored and index.tsx goes to the login
    screen.  Storage itself is never changed. *)
Theorem stored_session_is_restored_whole_or_not_at_all
  (api : Api) (tok : option jsstring) (usr : option User) :
  let r := AuthProvider.loadStoredAuth api
             (AuthProvider.mounted tok usr) in
  let a := AuthProvider.auth_of (Screen.final r) in
  Screen.outcome r = Ok tt
  /\ AuthProvider.loading (Screen.final r) = false
  /\ (stored_token a, stored_user a) = (tok, usr)
  /\ match usr with
     | Some u =>
         if truthy_opt tok then
           user a = Some u /\ token a = tok
           /\ AuthProvider.Index (Screen.final r)
              = [Replace (lit "/parent/dashboard")]
         else
           user a = None /\ token a = None
           /\ AuthProvider.Index (Screen.final r) = [Replace (lit "/auth/login")]
     | None =>
         user a = None /\ token a = None
         /\ AuthProvider.Index (Screen.final r) = [Replace (lit "/auth/login")]
     end.
Proof.
  intros r a. subst a r. rewrite loadStoredAuth_run.
  unfold AuthProvider.mounted, AuthProvider.Index.
  cbn [AuthProvider.auth_of stored_user stored_token Screen.final
       Screen.outcome AuthProvider.loading].
  destruct usr as [u|]; [destruct (truthy_opt tok)|]; repeat split.
Qed.

(** X16.  A session survives closing the app: after a login that resolves
    with a non-empty token, opening the app again restores exactly the user
    and the token of the response and index.tsx goes to the dashboard. *)
Theorem login_survives_restart
  (api : Api) (s : AuthProvider.State) (email password : jsstring)
  (data : LoginData)
  (Hlogin : post_login api email password = Resolved data)
  (Htoken : access_token data <> []) :
  let after_login := Screen.final (AuthProvider.login email password api s) in
  let again := Screen.final
                 (AuthProvider.loadStoredAuth api
                    (AuthProvider.reopened (AuthProvider.auth_of after_login))) in
  user (AuthProvider.auth_of again) = Some (login_user data)
  /\ token (AuthProvider.auth_of again) = Some (access_token data)
  /\ AuthProvider.Index again = [Replace (lit "/parent/dashboard")].
Proof.
  intros after_login again.
  subst again after_login. rewrite login_run, Hlogin, loadStoredAuth_run.
  unfold AuthProvider.reopened, AuthProvider.mounted, signed_in,
    AuthProvider.Index.
  cbn [AuthProvider.auth_of stored_user stored_token Screen.final
       AuthProvider.loading truthy_opt].
  apply truthy_nonempty in Htoken. rewrite Htoken.
  repeat split.
Qed.

(** X17.  [logout] empties memory and storage alike, whatever was there:
    no user, no token, nothing stored.  Opening the app again therefore
    restores nothing and index.tsx goes to the login screen, and the logout
    button itself goes there at once. *)
Theorem logout_ends_the_session (api : Api) (s : AuthProvider.State) :
  let r := AuthProvider.confirmLogout api s in
  let again := Screen.final
                 (AuthProvider.loadStoredAuth api
                    (AuthProvider.reopened
                       (AuthProvider.auth_of (Screen.final r)))) in
  Screen.outcome r = Ok tt
  /\ AuthProvider.auth_of (Screen.final r) = mkAuth None None None None
  /\ Screen.emitted r = [Replace (lit "/auth/login")]
  /\ pin_of (user (AuthProvider.auth_of (Screen.final r))) = None
  /\ user (AuthProvider.auth_of again) = None
  /\ AuthProvider.Index again = [Replace (lit "/auth/login")].
Proof.
  intros r again. subst again. rewrite loadStoredAuth_run. subst r.
  unfold AuthProvider.confirmLogout, AuthProvider.logout.
  run_screen. repeat split.
Qed.

(** X18.  A PIN set with [updatePin] survives closing the app: when the
    update succeeds and a non-empty token is stored, the user restored on
    the next start carries the new PIN. *)
Theorem pin_survives_restart
  (net : Net) (api : Api) (s : App) (p : jsstring)
  (Hsaved : put_pin net p (token (auth s)) = Resolved tt)
  (Htoken : truthy_opt (stored_token (auth s)) = true) :
  let after_update := final (AuthContext.updatePin p net s) in
  let again := Screen.final
                 (AuthProvider.loadStoredAuth api
                    (AuthProvider.reopened (auth after_update))) in
  pin_of (user (AuthProvider.auth_of again)) = Some p
  /\ user (AuthProvider.auth_of again) = user (auth after_update).
Proof.
  intros after_update again.
  subst again. rewrite loadStoredAuth_run.
  subst after_update.
  unfold AuthContext.updatePin. run_handler. rewrite Hsaved. run_handler.
  unfold AuthProvider.reopened, AuthProvider.mounted.
  cbn [AuthProvider.auth_of stored_user stored_token Screen.final].
  rewrite Htoken. cbn [user].
  split; [|reflexivity]. now destruct (user (auth s)).
Qed.

(** ** The profiles screen *)

(** The whole run of [loadProfiles]. *)
Lemma loadProfiles_run (api : Api) (s : Profiles.State) :
  Profiles.loadProfiles api s
  = Screen.mkRun (Ok tt) (reloaded api s)
      (Sent (GetProfiles (Profiles.token s))
       :: match get_profiles api (Profiles.token s) with
          | Resolved _ => []
          | Rejected _ => [Alert (lit "Error") (lit "Failed to load profiles")]
          end).
Proof.
  unfold Profiles.loadProfiles, reloaded.
  run_screen.
  destruct (get_profiles api (Profiles.token s)) as [data|d]; run_screen;
    reflexivity.
Qed.

(** The whole run of [handleSave]. *)
Lemma handleSave_run (api : Api) (s : Profiles.State) :
  Profiles.handleSave api s
  = if negb (truthy (Profiles.name (Profiles.formData s)))
       || negb (truthy (Profiles.age (Profiles.formData s)))
    then Screen.mkRun (Ok tt) s
           [Alert (lit "Error") (lit "Please fill in all fields")]
    else if JSNumber.out_of_range
              (JSNumber.parseInt (Profiles.age (Profiles.formData s)))
    then Screen.mkRun (Ok tt) s
           [Alert (lit "Error") (lit "Age must be between 1 and 18")]
    else
      match save_answer api s with
      | Resolved _ =>
          let rl := Profiles.loadProfiles api (dialog_closed s) in
          Screen.mkRun (Ok tt) (Screen.final rl)
            (Sent (save_request s)
             :: Alert (lit "Success")
                  (match Profiles.editingProfile s with
                   | Some _ => lit "Profile updated successfully"
                   | None => lit "Profile created successfully"
                   end)
             :: Screen.emitted rl)
      | Rejected d =>
          Screen.mkRun (Ok tt) s
            [Sent (save_request s);
             Alert (lit "Error")
               (AuthContext.detail_or (AxiosError d)
                  (lit "Failed to save profile"))]
      end.
Proof.
  unfold Profiles.handleSave, save_answer, save_request, dialog_closed.
  run_screen.
  destruct (negb (truthy (Profiles.name (Profiles.formData s)))
            || negb (truthy (Profiles.age (Profiles.formData s))));
    [reflexivity|].
  destruct (JSNumber.out_of_range
              (JSNumber.parseInt (Profiles.age (Profiles.formData s))));
    [reflexivity|].
  rewrite !loadProfiles_run.
  destruct (Profiles.editingProfile s) as [editing|] eqn:E.
  - destruct (put_profile api (pd_id editing) (Profiles.payload_of s)
                (Profiles.token s)) as [[]|d]; run_screen; rewrite ?E;
      reflexivity.
  - destruct (post_profile api (Profiles.payload_of s) (Profiles.token s))
      as [[]|d]; run_screen; rewrite ?E; reflexivity.
Qed.

Lemma digit_is_not_whitespace (c : N) :
  (48 <= c <= 57)%N -> is_whitespace c = false.
Proof.
  intros H. unfold is_whitespace. cbn [existsb].
  repeat match goal with
         | |- context [N.eqb c ?k] =>
             replace (N.eqb c k) with false
               by (symmetry; apply N.eqb_neq; lia)
         end.
  replace (N.leb 8192 c) with false by (symmetry; apply N.leb_gt; lia).
  reflexivity.
Qed.

Lemma digit_value_decimal (c : N) :
  (48 <= c <= 57)%N -> JSNumber.digit_value 10 c = Some (c - 48)%N.
Proof.
  intros H. unfold JSNumber.digit_value.
  replace (N.leb 48 c) with true by (symmetry; apply N.leb_le; lia).
  replace (N.leb c 57) with true by (symmetry; apply N.leb_le; lia).
  cbn [andb].
  replace (N.ltb (c - 48) 10) with true by (symmetry; apply N.ltb_lt; lia).
  reflexivity.
Qed.

Lemma digits_prefix_decimal (l : jsstring) :
  Forall (fun c => 48 <= c <= 57)%N l ->
  JSNumber.digits_prefix 10 l = List.map (fun c => c - 48)%N l.
Proof.
  induction 1 as [|c l Hc _ IH]; [reflexivity|].
  cbn [JSNumber.digits_prefix List.map].
  now rewrite (digit_value_decimal Hc), IH.
Qed.

(** [parseInt] of a non-empty string of decimal digits is its value. *)
Lemma parseInt_digits (l : jsstring) :
  l <> [] -> Forall (fun c => 48 <= c <= 57)%N l ->
  JSNumber.parseInt l
  = Some (Z.of_N (JSNumber.digits_value 10 (List.map (fun c => c - 48)%N l))).
Proof.
  intros Hne Hall.
  destruct l as [|c l]; [now elim Hne|].
  assert (Hc : (48 <= c <= 57)%N) by now inversion Hall.
  unfold JSNumber.parseInt.
  cbn [trimStart]. rewrite (digit_is_not_whitespace Hc).
  replace (N.eqb c 45) with false by (symmetry; apply N.eqb_neq; lia).
  replace (N.eqb c 43) with false by (symmetry; apply N.eqb_neq; lia).
  cbv beta iota zeta.
  assert (Hdigits := digits_prefix_decimal Hall).
  destruct l as [|x l].
  - rewrite Hdigits. cbn [List.map]. now rewrite Z.mul_1_l.
  - assert (Hx : (48 <= x <= 57)%N)
      by (inversion Hall as [|? ? _ Hl]; now inversion Hl).
    replace (N.eqb x 120) with false by (symmetry; apply N.eqb_neq; lia).
    replace (N.eqb x 88) with false by (symmetry; apply N.eqb_neq; lia).
    rewrite andb_false_r. rewrite Hdigits.
    cbn [List.map]. now rewrite Z.mul_1_l.
Qed.

Lemma digits_value_snoc (ds : list N) (d : N) :
  JSNumber.digits_value 10 (ds ++ [d])
  = (JSNumber.digits_value 10 ds * 10 + d)%N.
Proof.
  unfold JSNumber.digits_value. now rewrite fold_left_app.
Qed.

Lemma decimal_digits_spec (fuel : nat) :
  forall n acc, n < fuel ->
    exists l, JSNumber.decimal_digits fuel n acc = l ++ acc
              /\ l <> []
              /\ Forall (fun c => 48 <= c <= 57)%N l
              /\ JSNumber.digits_value 10 (List.map (fun c => c - 48)%N l)
                 = N.of_nat n.
Proof.
  induction fuel as [|fuel IH]; intros n acc Hn; [lia|].
  cbn [JSNumber.decimal_digits].
  assert (Hmod : n mod 10 < 10) by (apply Nat.mod_upper_bound; lia).
  assert (Hdiv : n = 10 * (n / 10) + n mod 10) by (apply Nat.div_mod_eq).
  destruct (Nat.eqb (n / 10) 0) eqn:E.
  - apply Nat.eqb_eq in E.
    exists [(48 + N.of_nat (n mod 10))%N].
    split; [reflexivity|]. split; [discriminate|]. split.
    + constructor; [lia|constructor].
    + unfold JSNumber.digits_value. cbn [List.map fold_left]. lia.
  - apply Nat.eqb_neq in E.
    destruct (IH (n / 10) ((48 + N.of_nat (n mod 10))%N :: acc))
      as (l & Hl & Hne & Hall & Hval); [lia|].
    exists (l ++ [(48 + N.of_nat (n mod 10))%N]).
    split; [now rewrite Hl, <- app_assoc|].
    split; [now destruct l|].
    split.
    + apply Forall_app. split; [exact Hall|].
      constructor; [lia|constructor].
    + rewrite map_app. cbn [List.map]. rewrite digits_value_snoc, Hval. lia.
Qed.

(** Reading back the decimal form of a number gives the number. *)
Lemma parseInt_toString (n : nat) :
  JSNumber.parseInt (JSNumber.toString n) = Some (Z.of_nat n).
Proof.
  unfold JSNumber.toString.
  destruct (@decimal_digits_spec (S n) n [] (Nat.lt_succ_diag_r n))
    as (l & Hl & Hne & Hall & Hval).
  rewrite Hl, app_nil_r, (parseInt_digits Hne Hall), Hval.
  now rewrite nat_N_Z.
Qed.

Lemma toString_truthy (n : nat) : truthy (JSNumber.toString n) = true.
Proof.
  unfold JSNumber.toString.
  destruct (@decimal_digits_spec (S n) n [] (Nat.lt_succ_diag_r n))
    as (l & Hl & Hne & _).
  rewrite Hl, app_nil_r. now destruct l.
Qed.

(** The requests of [handleSave]: none for a form that is not accepted,
    the save alone when the server rejects it, the save and a reload of
    the list when it succeeds. *)
Lemma handleSave_sent (api : Api) (s : Profiles.State) :
  sent (Screen.emitted (Profiles.handleSave api s))
  = if form_accepted s then
      match save_answer api s with
      | Resolved _ => [save_request s; GetProfiles (Profiles.token s)]
      | Rejected _ => [save_request s]
      end
    else [].
Proof.
  rewrite handleSave_run. unfold form_accepted.
  destruct (truthy (Profiles.name (Profiles.formData s)));
    [|reflexivity].
  destruct (truthy (Profiles.age (Profiles.formData s))); [|reflexivity].
  cbn [negb orb andb].
  destruct (JSNumber.out_of_range _); [reflexivity|].
  cbn [negb].
  destruct (save_answer api s) as [[]|d]; [|reflexivity].
  cbv zeta. rewrite loadProfiles_run.
  cbn [Screen.emitted sent flat_map app dialog_closed Profiles.token].
  now destruct (get_profiles api (Profiles.token s)).
Qed.

Lemma saves_of_save_request (s : Profiles.State) :
  Profiles.saves [save_request s]
  = [(option_map pd_id (Profiles.editingProfile s), Profiles.payload_of s)].
Proof.
  unfold save_request. now destruct (Profiles.editingProfile s).
Qed.

Lemma handleSave_saves (api : Api) (s : Profiles.State) :
  Profiles.saves (sent (Screen.emitted (Profiles.handleSave api s)))
  = if form_accepted s
    then [(option_map pd_id (Profiles.editingProfile s), Profiles.payload_of s)]
    else [].
Proof.
  rewrite handleSave_sent.
  destruct (form_accepted s); [|reflexivity].
  rewrite <- saves_of_save_request.
  destruct (save_answer api s); [|reflexivity].
  unfold save_request. now destruct (Profiles.editingProfile s).
Qed.

Lemma form_accepted_spec (s : Profiles.State) :
  form_accepted s = true ->
  Profiles.name (Profiles.formData s) <> []
  /\ Profiles.age (Profiles.formData s) <> []
  /\ match JSNumber.parseInt (Profiles.age (Profiles.formData s)) with
     | Some a => (1 <= a <= 18)%Z
     | None => True
     end.
Proof.
  unfold form_accepted. intros H.
  apply andb_true_iff in H as [H Hrange].
  apply andb_true_iff in H as [Hname Hage].
  split; [now apply truthy_nonempty|]. split; [now apply truthy_nonempty|].
  destruct (JSNumber.parseInt (Profiles.age (Profiles.formData s))) as [a|];
    [|exact I].
  cbn in Hrange. apply negb_true_iff, orb_false_iff in Hrange as [H1 H2].
  apply Z.ltb_ge in H1, H2. lia.
Qed.

(** X19.  [handleSave] never throws and sends at most one save.  A save
    always carries a non-empty name and, as age, what [parseInt] reads in
    the age field, which is an integer from 1 to 18 or NaN: text without a
    leading number passes the range check because both comparisons with NaN
    are false.  When the name or the age field is empty, or the age is a
    number outside 1 to 18, nothing is sent and nothing changes. *)
Theorem saved_age_is_in_range_or_NaN (api : Api) (s : Profiles.State) :
  let r := Profiles.handleSave api s in
  Screen.outcome r = Ok tt
  /\ (if form_accepted s
      then Profiles.saves (sent (Screen.emitted r))
           = [(option_map pd_id (Profiles.editingProfile s),
               Profiles.payload_of s)]
      else sent (Screen.emitted r) = [] /\ Screen.final r = s)
  /\ Forall (fun save =>
               pl_name (snd save) <> []
               /\ pl_age (snd save)
                  = JSNumber.parseInt (Profiles.age (Profiles.formData s))
               /\ match pl_age (snd save) with
                  | Some a => (1 <= a <= 18)%Z
                  | None => True
                  end)
       (Profiles.saves (sent (Screen.emitted r))).
Proof.
  intros r. subst r.
  split; [|split].
  - rewrite handleSave_run.
    destruct (negb _ || negb _); [reflexivity|].
    destruct (JSNumber.out_of_range _); [reflexivity|].
    now destruct (save_answer api s).
  - destruct (form_accepted s) eqn:E.
    + rewrite handleSave_saves. now rewrite E.
    + split; [rewrite handleSave_sent; now rewrite E|].
      rewrite handleSave_run. unfold form_accepted in E.
      destruct (truthy (Profiles.name (Profiles.formData s)));
        [|reflexivity].
      destruct (truthy (Profiles.age (Profiles.formData s))); [|reflexivity].
      cbn [negb orb andb] in E |- *.
      destruct (JSNumber.out_of_range _); [reflexivity|discriminate E].
  - rewrite handleSave_saves.
    destruct (form_accepted s) eqn:E; [|constructor].
    constructor; [|constructor].
    apply form_accepted_spec in E as (Hname & _ & Hage).
    cbn [snd Profiles.payload_of pl_name pl_age]. auto.
Qed.

(** X20.  Opening a profile for editing and saving it untouched sends the
    profile back as it is: a PUT to its id with its name, its age (written
    to the age field by [toString] and read back by [parseInt]), its level
    and its two site lists.  This needs a non-empty name and an age from 1
    to 18, which the form insists on. *)
Theorem edit_then_save_sends_the_profile_back
  (api : Api) (s : Profiles.State) (profile : ProfileData)
  (Hname : pd_name profile <> [])
  (Hage : 1 <= pd_age profile <= 18) :
  let editing := Screen.final (Profiles.openEditModal profile api s) in
  Profiles.modalVisible editing = true
  /\ Profiles.saves (sent (Screen.emitted (Profiles.handleSave api editing)))
     = [(Some (pd_id profile),
         mkPayload (pd_name profile) (Some (Z.of_nat (pd_age profile)))
           (pd_maturity_level profile) (pd_blocked_sites profile)
           (pd_whitelisted_sites profile))].
Proof.
  intros editing.
  split; [reflexivity|].
  rewrite handleSave_saves.
  subst editing. unfold Profiles.openEditModal. run_screen.
  unfold form_accepted, Profiles.payload_of.
  cbn [Profiles.formData Profiles.name Profiles.age Profiles.maturity_level
       Profiles.editingProfile Profiles.sites_or_empty option_map].
  rewrite parseInt_toString, toString_truthy.
  apply truthy_nonempty in Hname. rewrite Hname.
  cbn [andb JSNumber.out_of_range].
  replace (Z.ltb (Z.of_nat (pd_age profile)) 1) with false
    by (symmetry; apply Z.ltb_ge; lia).
  replace (Z.ltb 18 (Z.of_nat (pd_age profile))) with false
    by (symmetry; apply Z.ltb_ge; lia).
  reflexivity.
Qed.

Lemma apply_edits_keeps_target (api : Api) (edits : list FormEdit) :
  forall s,
    Profiles.editingProfile (apply_edits api edits s)
    = Profiles.editingProfile s.
Proof.
  induction edits as [|e edits IH]; intros s; [reflexivity|].
  change (apply_edits api (e :: edits) s)
    with (apply_edits api edits (apply_edit api s e)).
  rewrite IH. now destruct e.
Qed.

(** X21.  Which call a save makes is fixed when the dialog is opened and
    typing cannot change it: after "add", every save is a POST with empty
    site lists, also when a profile was being edited before; after "edit"
    of a profile, every save is a PUT to the id of that profile and
    carries its two site lists. *)
Theorem dialog_decides_create_or_update
  (api : Api) (s : Profiles.State) (profile : ProfileData)
  (edits : list FormEdit) :
  let creating :=
    apply_edits api edits (Screen.final (Profiles.openCreateModal api s)) in
  let editing :=
    apply_edits api edits
      (Screen.final (Profiles.openEditModal profile api s)) in
  Forall (fun save =>
            fst save = None
            /\ pl_blocked_sites (snd save) = []
            /\ pl_whitelisted_sites (snd save) = [])
    (Profiles.saves (sent (Screen.emitted (Profiles.handleSave api creating))))
  /\ Forall (fun save =>
               fst save = Some (pd_id profile)
               /\ pl_blocked_sites (snd save) = pd_blocked_sites profile
               /\ pl_whitelisted_sites (snd save)
                  = pd_whitelisted_sites profile)
       (Profiles.saves
          (sent (Screen.emitted (Profiles.handleSave api editing)))).
Proof.
  intros creating editing.
  assert (Hc : Profiles.editingProfile creating = None)
    by (subst creating; now rewrite apply_edits_keeps_target).
  assert (He : Profiles.editingProfile editing = Some profile)
    by (subst editing; now rewrite apply_edits_keeps_target).
  rewrite !handleSave_saves. unfold Profiles.payload_of.
  rewrite Hc, He.
  split.
  - destruct (form_accepted creating); repeat constructor.
  - destruct (form_accepted editing); repeat constructor.
Qed.

(** X22.  A save the server rejects changes nothing: the dialog stays
    open with what was typed, the list is not reloaded, and the alert shows
    the detail of the server or "Failed to save profile".  A save that
    succeeds closes the dialog and reloads the list, which is replaced only
    if that reload succeeds. *)
Theorem rejected_save_keeps_the_dialog (api : Api) (s : Profiles.State)
  (Haccepted : form_accepted s = true) :
  let r := Profiles.handleSave api s in
  match save_answer api s with
  | Rejected d =>
      Screen.final r = s
      /\ Screen.emitted r
         = [Sent (save_request s);
            Alert (lit "Error")
              (AuthContext.detail_or (AxiosError d)
                 (lit "Failed to save profile"))]
  | Resolved _ =>
      Screen.final r = reloaded api (dialog_closed s)
      /\ Profiles.modalVisible (Screen.final r) = false
      /\ sent (Screen.emitted r)
         = [save_request s; GetProfiles (Profiles.token s)]
      /\ Profiles.profiles (Screen.final r)
         = match get_profiles api (Profiles.token s) with
           | Resolved data => data
           | Rejected _ => Profiles.profiles s
           end
  end.
Proof.
  intros r.
  assert (Hsent := handleSave_sent api s). rewrite Haccepted in Hsent.
  subst r. rewrite handleSave_run in *.
  unfold form_accepted in Haccepted.
  apply andb_true_iff in Haccepted as [H Hrange].
  apply andb_true_iff in H as [Hname Hage].
  apply negb_true_iff in Hrange.
  rewrite Hname, Hage, Hrange in *. cbn [negb orb] in *.
  destruct (save_answer api s) as [[]|d]; [|now split].
  cbv zeta in *. rewrite loadProfiles_run in *.
  cbn [Screen.final Screen.emitted] in *.
  repeat split. exact Hsent.
Qed.

(** X23.  Deleting takes two steps: the trash button only asks, sending
    nothing and changing nothing; the confirmation sends one DELETE for the
    id of that profile.  The list is reloaded only after a delete that
    succeeded, and a failed delete leaves the screen as it was. *)
Theorem delete_needs_confirmation
  (api : Api) (s : Profiles.State) (profile : ProfileData) :
  let asked := Profiles.handleDelete profile api s in
  let r := Profiles.confirmDelete profile api s in
  (sent (Screen.emitted asked) = [] /\ Screen.final asked = s)
  /\ Screen.outcome r = Ok tt
  /\ match delete_profile api (pd_id profile) (Profiles.token s) with
     | Resolved _ =>
         sent (Screen.emitted r)
         = [DeleteProfile (pd_id profile) (Profiles.token s);
            GetProfiles (Profiles.token s)]
         /\ Screen.final r = reloaded api s
     | Rejected _ =>
         sent (Screen.emitted r)
         = [DeleteProfile (pd_id profile) (Profiles.token s)]
         /\ Screen.final r = s
     end.
Proof.
  intros asked r.
  split; [split; reflexivity|].
  subst r. unfold Profiles.confirmDelete.
  run_screen. rewrite !loadProfiles_run.
  destruct (delete_profile api (pd_id profile) (Profiles.token s)) as [[]|d];
    run_screen; [|repeat split].
  split; [reflexivity|]. split; [|reflexivity].
  cbn [sent flat_map app].
  now destruct (get_profiles api (Profiles.token s)).
Qed.

(** ** Loading the dashboard and the activity log *)

(** X24.  [loadData] never throws and always sends both requests.  The
    two lists are replaced together, when both calls resolve, or not at
    all: if either call is rejected both lists stay as they were and one
    alert is shown.  Both spinners are off afterwards in every case. *)
Theorem dashboard_load_is_all_or_nothing
  (api : Api) (s : DashboardData.State) :
  let r := DashboardData.loadData api s in
  let tok := DashboardData.token s in
  Screen.outcome r = Ok tt
  /\ sent (Screen.emitted r) = [GetProfiles tok; GetLogs 5 tok]
  /\ (DashboardData.loading (Screen.final r),
      DashboardData.refreshing (Screen.final r)) = (false, false)
  /\ match get_profiles api tok, get_logs api 5 tok with
     | Resolved ps, Resolved ls =>
         DashboardData.profiles (Screen.final r) = ps
         /\ DashboardData.recentLogs (Screen.final r) = ls
         /\ Screen.emitted r = [Sent (GetProfiles tok); Sent (GetLogs 5 tok)]
     | _, _ =>
         DashboardData.profiles (Screen.final r) = DashboardData.profiles s
         /\ DashboardData.recentLogs (Screen.final r)
            = DashboardData.recentLogs s
         /\ Screen.emitted r
            = [Sent (GetProfiles tok); Sent (GetLogs 5 tok);
               Console (lit "Error loading data:");
               Alert (lit "Error") (lit "Failed to load data")]
     end.
Proof.
  intros r tok. subst r tok.
  unfold DashboardData.loadData, DashboardData.both.
  run_screen.
  destruct (get_profiles api (DashboardData.token s)) as [ps|d];
    destruct (get_logs api 5 (DashboardData.token s)) as [ls|d'];
    run_screen; repeat split.
Qed.

(** X25.  The dashboard offers at most three profiles for child mode, the
    first three of the loaded list in its order, while its counter shows
    the number of all of them.  With a PIN set, pressing a card selects the
    id of that loaded profile for the child browser. *)
Theorem dashboard_offers_the_first_three
  (net : Net) (app : App) (s : DashboardData.State) :
  List.length (DashboardData.profile_cards s)
  = Nat.min 3 (List.length (DashboardData.profiles s))
  /\ DashboardData.profile_cards s
     = List.map DashboardData.as_profile (firstn 3 (DashboardData.profiles s))
  /\ fst (DashboardData.stats s) = List.length (DashboardData.profiles s)
  /\ forall card,
       In card (DashboardData.profile_cards s) ->
       truthy_opt (pin_of (user (auth app))) = true ->
       exists p,
         In p (firstn 3 (DashboardData.profiles s))
         /\ selectedProfile
              (appMode (final (Dashboard.enterChildMode card net app)))
            = Some (pd_id p).
Proof.
  unfold DashboardData.profile_cards, JSNumber.slice0, DashboardData.stats.
  split; [now rewrite length_map, length_firstn|].
  split; [reflexivity|]. split; [reflexivity|].
  intros card Hin Hpin.
  apply in_map_iff in Hin as (p & <- & Hin).
  exists p. split; [exact Hin|].
  destruct (enterChildMode_run net app (DashboardData.as_profile p))
    as (_ & _ & Hm).
  cbv zeta in Hm. now rewrite Hm, Hpin.
Qed.

(** The whole run of [loadLogs]. *)
Lemma loadLogs_run (api : Api) (s : LogsData.State) :
  LogsData.loadLogs api s
  = Screen.mkRun (Ok tt)
      (logs_loaded (get_logs api 50 (LogsData.token s)) s)
      (Sent (GetLogs 50 (LogsData.token s))
       :: match get_logs api 50 (LogsData.token s) with
          | Resolved _ => []
          | Rejected _ => [Console (lit "Error loading logs:")]
          end).
Proof.
  unfold LogsData.loadLogs, logs_loaded.
  run_screen.
  destruct (get_logs api 50 (LogsData.token s)) as [data|d]; run_screen;
    reflexivity.
Qed.

(** The whole run of [handleSearch]. *)
Lemma handleSearch_run (api : Api) (s : LogsData.State) :
  LogsData.handleSearch api s
  = if truthy (trim (LogsData.searchQuery s)) then
      match JSNumber.encodeURIComponent (LogsData.searchQuery s) with
      | Some keyword =>
          Screen.mkRun (Ok tt)
            (LogsData.mkState (LogsData.token s)
               (match search_logs api keyword (LogsData.token s) with
                | Resolved data => data
                | Rejected _ => LogsData.logs s
                end)
               (LogsData.searchQuery s) (LogsData.refreshing s)
               (LogsData.loading s))
            (Sent (SearchLogs keyword (LogsData.token s))
             :: match search_logs api keyword (LogsData.token s) with
                | Resolved _ => []
                | Rejected _ => [Console (lit "Error searching logs:")]
                end)
      | None =>
          Screen.mkRun (Ok tt) s [Console (lit "Error searching logs:")]
      end
    else LogsData.loadLogs api s.
Proof.
  unfold LogsData.handleSearch, LogsData.encoded_keyword.
  destruct (truthy (trim (LogsData.searchQuery s))) eqn:Eq.
  - run_screen. rewrite Eq. cbn [negb].
    destruct (JSNumber.encodeURIComponent (LogsData.searchQuery s))
      as [keyword|]; run_screen.
    + destruct (search_logs api keyword (LogsData.token s)) as [data|d];
        run_screen; [reflexivity|now destruct s].
    + now destruct s.
  - unfold Screen.bind, Screen.get.
    cbn [Screen.outcome Screen.final Screen.emitted app].
    rewrite Eq. cbn [negb].
    now destruct (LogsData.loadLogs api s).
Qed.

(** X26.  Neither loading nor searching the activity log throws, and a
    call that fails never empties the list: the logs are replaced by the
    answer of a call that resolves and are otherwise what they were.  A
    query that is blank after trimming reloads the latest 50 entries
    instead of searching, and a search sends the query as typed, untrimmed;
    it leaves both spinners alone. *)
Theorem log_list_survives_failed_calls (api : Api) (s : LogsData.State) :
  let r := LogsData.handleSearch api s in
  let tok := LogsData.token s in
  Screen.outcome r = Ok tt
  /\ LogsData.searchQuery (Screen.final r) = LogsData.searchQuery s
  /\ if truthy (trim (LogsData.searchQuery s)) then
       (LogsData.loading (Screen.final r), LogsData.refreshing (Screen.final r))
       = (LogsData.loading s, LogsData.refreshing s)
       /\ match JSNumber.encodeURIComponent (LogsData.searchQuery s) with
          | Some keyword =>
              sent (Screen.emitted r) = [SearchLogs keyword tok]
              /\ LogsData.logs (Screen.final r)
                 = match search_logs api keyword tok with
                   | Resolved data => data
                   | Rejected _ => LogsData.logs s
                   end
          | None =>
              sent (Screen.emitted r) = []
              /\ LogsData.logs (Screen.final r) = LogsData.logs s
          end
     else
       sent (Screen.emitted r) = [GetLogs 50 tok]
       /\ LogsData.logs (Screen.final r)
          = match get_logs api 50 tok with
            | Resolved data => data
            | Rejected _ => LogsData.logs s
            end.
Proof.
  intros r tok. subst r tok. rewrite handleSearch_run.
  destruct (truthy (trim (LogsData.searchQuery s))).
  - destruct (JSNumber.encodeURIComponent (LogsData.searchQuery s))
      as [keyword|]; [|repeat split].
    cbn [Screen.outcome Screen.final Screen.emitted LogsData.searchQuery
         LogsData.loading LogsData.refreshing LogsData.logs sent flat_map app].
    repeat split.
    now destruct (search_logs api keyword (LogsData.token s)).
  - rewrite loadLogs_run. unfold logs_loaded.
    cbn [Screen.outcome Screen.final Screen.emitted LogsData.searchQuery
         LogsData.logs sent flat_map app].
    repeat split.
    now destruct (get_logs api 50 (LogsData.token s)).
Qed.

Lemma hex_digit_safe (v : N) : (v < 16)%N -> query_safe (JSNumber.hex_digit v) = true.
Proof.
  intros H. unfold query_safe, JSNumber.hex_digit, JSNumber.unreserved.
  destruct (N.ltb v 10) eqn:E.
  - apply N.ltb_lt in E.
    replace (N.leb 48 (48 + v)) with true by (symmetry; apply N.leb_le; lia).
    replace (N.leb (48 + v) 57) with true by (symmetry; apply N.leb_le; lia).
    cbn [andb]. now rewrite !orb_true_r.
  - apply N.ltb_ge in E.
    replace (N.leb 65 (55 + v)) with true by (symmetry; apply N.leb_le; lia).
    replace (N.leb (55 + v) 90) with true by (symmetry; apply N.leb_le; lia).
    reflexivity.
Qed.

Lemma percent_safe (byte : N) :
  (byte < 256)%N -> Forall (fun c => query_safe c = true) (JSNumber.percent byte).
Proof.
  intros H. unfold JSNumber.percent.
  repeat constructor.
  - apply hex_digit_safe. apply N.Div0.div_lt_upper_bound. lia.
  - apply hex_digit_safe. apply N.mod_lt. discriminate.
Qed.

Lemma utf8_octets (cp : N) :
  (cp < 1114112)%N -> Forall (fun b => b < 256)%N (JSNumber.utf8 cp).
Proof.
  intros H. unfold JSNumber.utf8.
  assert (H64 : forall x, (x mod 64 < 64)%N)
    by (intros x; apply N.mod_lt; discriminate).
  destruct (N.ltb cp 128) eqn:E1; [apply N.ltb_lt in E1|apply N.ltb_ge in E1].
  { repeat constructor. lia. }
  destruct (N.ltb cp 2048) eqn:E2; [apply N.ltb_lt in E2|apply N.ltb_ge in E2].
  { assert (cp / 64 < 32)%N by (apply N.Div0.div_lt_upper_bound; lia).
    specialize (H64 cp). repeat constructor; lia. }
  destruct (N.ltb cp 65536) eqn:E3; [apply N.ltb_lt in E3|apply N.ltb_ge in E3].
  { assert (cp / 4096 < 16)%N by (apply N.Div0.div_lt_upper_bound; lia).
    assert (Ha := H64 cp). assert (Hb := H64 (cp / 64)%N).
    repeat constructor; lia. }
  assert (cp / 262144 < 5)%N by (apply N.Div0.div_lt_upper_bound; lia).
  assert (Ha := H64 cp). assert (Hb := H64 (cp / 64)%N).
  assert (Hc := H64 (cp / 4096)%N).
  repeat constructor; lia.
Qed.

Lemma escape_safe (cp : N) :
  (cp < 1114112)%N -> Forall (fun c => query_safe c = true) (JSNumber.escape cp).
Proof.
  intros H. unfold JSNumber.escape.
  assert (Hoct := utf8_octets H).
  induction Hoct as [|b bs Hb _ IH]; [constructor|].
  cbn [flat_map]. apply Forall_app. split; [now apply percent_safe|exact IH].
Qed.

Lemma encodeURIComponent_safe (n : nat) :
  forall s k, List.length s <= n -> utf16 s ->
    JSNumber.encodeURIComponent s = Some k ->
    Forall (fun c => query_safe c = true) k.
Proof.
  induction n as [|n IH]; intros s k Hlen Hs Henc.
  - destruct s; [|cbn in Hlen; lia]. injection Henc as <-. constructor.
  - destruct s as [|c s]; [injection Henc as <-; constructor|].
    cbn [List.length] in Hlen.
    assert (Hc : (c < 65536)%N) by now inversion Hs.
    assert (Hs' : utf16 s) by now inversion Hs.
    cbn [JSNumber.encodeURIComponent] in Henc.
    destruct (JSNumber.unreserved c) eqn:Eu.
    { destruct (JSNumber.encodeURIComponent s) as [k'|] eqn:E';
        [|discriminate]. injection Henc as <-.
      constructor.
      - unfold query_safe. now rewrite Eu.
      - apply (IH s k'); [lia|exact Hs'|exact E']. }
    destruct (N.leb 56320 c && N.leb c 57343); [discriminate|].
    destruct (N.leb 55296 c && N.leb c 56319) eqn:Ehigh.
    + destruct s as [|d s]; [discriminate|].
      destruct (N.leb 56320 d && N.leb d 57343) eqn:Elow; [|discriminate].
      destruct (JSNumber.encodeURIComponent s) as [k'|] eqn:E';
        [|discriminate]. injection Henc as <-.
      apply andb_true_iff in Ehigh as [H1 H2], Elow as [H3 H4].
      apply N.leb_le in H1, H2, H3, H4.
      apply Forall_app. split.
      * apply escape_safe. lia.
      * apply (IH s k'); [cbn [List.length] in Hlen; lia| |exact E'].
        now inversion Hs'.
    + destruct (JSNumber.encodeURIComponent s) as [k'|] eqn:E';
        [|discriminate]. injection Henc as <-.
      apply Forall_app. split.
      * apply escape_safe. lia.
      * apply (IH s k'); [lia|exact Hs'|exact E'].
Qed.

(** X27.  The keyword of a search request is escaped: whatever is typed
    in the search field, the keyword that goes into the URL consists only of
    characters [encodeURIComponent] leaves alone and of percent escapes, so
    it holds no "&", "=", "#", "?", "/", "+" or space and cannot add a
    parameter to the query; a query [encodeURIComponent] refuses is not
    searched for. *)
Theorem search_keyword_is_escaped (api : Api) (s : LogsData.State)
  (Hquery : utf16 (LogsData.searchQuery s)) :
  let keywords :=
    searches (sent (Screen.emitted (LogsData.handleSearch api s))) in
  Forall (fun k =>
            JSNumber.encodeURIComponent (LogsData.searchQuery s) = Some k
            /\ Forall (fun c => query_safe c = true) k
            /\ Forall (fun c => ~ In c [38; 61; 35; 63; 47; 43; 32]%N) k)
    keywords.
Proof.
  intros keywords. subst keywords. rewrite handleSearch_run.
  destruct (truthy (trim (LogsData.searchQuery s))).
  - destruct (JSNumber.encodeURIComponent (LogsData.searchQuery s))
      as [keyword|] eqn:E.
    + assert (Hsafe := @encodeURIComponent_safe _ _ keyword (Nat.le_refl _)
                         Hquery E).
      assert (Hsent : searches
                (sent (Sent (SearchLogs keyword (LogsData.token s))
                       :: match search_logs api keyword (LogsData.token s) with
                          | Resolved _ => []
                          | Rejected _ => [Console (lit "Error searching logs:")]
                          end)) = [keyword])
        by now destruct (search_logs api keyword (LogsData.token s)).
      cbn [Screen.emitted]. rewrite Hsent.
      constructor; [|constructor].
      split; [reflexivity|]. split; [exact Hsafe|].
      apply Forall_forall. intros c Hc.
      apply (proj1 (Forall_forall _ _) Hsafe) in Hc.
      intros Hbad. cbn [In] in Hbad.
      repeat (destruct Hbad as [<-|Hbad]; [discriminate Hc|]).
      exact Hbad.
    + constructor.
  - rewrite loadLogs_run.
    cbn [Screen.emitted sent flat_map app].
    destruct (get_logs api 50 (LogsData.token s)); constructor.
Qed.

(** ** Instances of the further properties *)

Lemma blank_address_is_not_navigated_witness :
  let s := Sample.browsing (lit "   ") in
  trim (url (browser s)) = []
  /\ ChildBrowser.handleNavigate Sample.net_block s = mkRun (Ok tt) s [].
Proof.
  intros s.
  assert (Hblank : trim (url (browser s)) = []) by reflexivity.
  split; [exact Hblank|].
  exact (proj1 (blank_address_is_not_navigated Sample.net_block s Hblank)).
Defined.

Lemma unblock_returns_to_current_address_witness :
  let s := Sample.browsing (lit "knownadultdomain.example") in
  let link := ChildBrowser.mkNavState (lit "https://other.example/page")
                true false in
  let text := ChildBrowser.Parsed
                (ChildBrowser.mkMessage (lit "text") (lit "some text")) in
  let blocked_nav := final (ChildBrowser.handleNavigate Sample.net_block s) in
  let followed :=
    final (ChildBrowser.handleWebViewNavigationStateChange link
             Sample.net_block s) in
  let blocked_text :=
    final (ChildBrowser.handleWebViewMessage text Sample.net_block followed) in
  blocked (browser blocked_nav) = true
  /\ ChildBrowser.render
       (browser (final (ChildBrowser.handleUnblock Sample.net_block
                          blocked_nav)))
     = ChildBrowser.WebViewOn (lit "https://www.google.com")
  /\ ChildBrowser.render
       (browser (final (ChildBrowser.handleUnblock Sample.net_block
                          blocked_text)))
     = ChildBrowser.WebViewOn (lit "https://www.google.com").
Proof.
  intros s link text blocked_nav followed blocked_text.
  assert (Hblocked : blocked (browser blocked_nav) = true) by reflexivity.
  split; [exact Hblocked|].
  destruct (unblock_returns_to_current_address Sample.net_block s link text)
    as (_ & _ & Hlink & _ & Hnav).
  split; [exact (Hnav Hblocked)|exact Hlink].
Defined.

Lemma handlePinUpdate_reports_server_result_witness :
  let s := Sample.at_home None (lit "1234") (lit "1234") in
  valid_pin_form (settings s)
  /\ outcome (Settings.handlePinUpdate Sample.net_down s) = Ok tt.
Proof.
  intros s.
  assert (Hvalid : valid_pin_form (settings s)).
  { split; [reflexivity|]. split; [|reflexivity]. repeat constructor. }
  split; [exact Hvalid|].
  exact (proj1 (handlePinUpdate_reports_server_result Sample.net_down s Hvalid)).
Defined.

Lemma handlePinUpdate_rejects_with_one_alert_witness :
  let s := Sample.at_home None (lit "1234") (lit "1235") in
  ~ valid_pin_form (settings s)
  /\ Settings.handlePinUpdate Sample.net_allow s
     = mkRun (Ok tt) s [Alerted (lit "Error") (lit "PINs do not match")].
Proof.
  intros s.
  assert (Hinvalid : ~ valid_pin_form (settings s)).
  { intros (_ & _ & H). discriminate H. }
  split; [exact Hinvalid|].
  exact (handlePinUpdate_rejects_with_one_alert Sample.net_allow s Hinvalid).
Defined.

Lemma saved_pin_unlocks_child_mode_witness :
  let s := Sample.at_home None (lit "1234") (lit "1234") in
  let s' := Session.run Sample.net_allow
              [Session.HandlePinUpdate; Session.EnterChildMode Sample.kid;
               Session.HandleExitChildMode; Session.TypePin (lit "1234")] s in
  valid_pin_form (settings s)
  /\ put_pin Sample.net_allow (newPin (settings s)) (token (auth s))
     = Resolved tt
  /\ mode (appMode s') = child
  /\ mode (appMode (Session.step Sample.net_allow s' Session.VerifyPinAndExit))
     = parent.
Proof.
  intros s s'.
  assert (Hvalid : valid_pin_form (settings s)).
  { split; [reflexivity|]. split; [|reflexivity]. repeat constructor. }
  split; [exact Hvalid|]. split; [reflexivity|].
  destruct (saved_pin_unlocks_child_mode Sample.net_allow s Sample.kid
              (lit "1234") Hvalid eq_refl) as (Hchild & _ & Hexit & _).
  split; [exact Hchild|exact Hexit].
Defined.

Lemma exit_dialog_opens_in_child_mode_witness :
  let s := Sample.at_home (Some (lit "1234")) [] [] in
  let actions := [Session.EnterChildMode Sample.kid] in
  mode (appMode s) = parent
  /\ mode (appMode (Session.run Sample.net_allow actions s)) = child
  /\ exitModalVisible
       (browser (final (ChildBrowser.handleExitChildMode Sample.net_allow
                          (Session.run Sample.net_allow actions s))))
     = true.
Proof.
  intros s actions.
  split; [reflexivity|]. split; [reflexivity|].
  destruct (exit_dialog_opens_in_child_mode Sample.net_allow s actions
              eq_refl eq_refl) as (_ & Hopen & _).
  exact Hopen.
Defined.

Lemma login_survives_restart_witness :
  let s := AuthProvider.mounted None None in
  let after_login :=
    Screen.final (AuthProvider.login (lit "parent@example.com") (lit "secret")
                    SampleApi.api_up s) in
  post_login SampleApi.api_up (lit "parent@example.com") (lit "secret")
  = Resolved SampleApi.login_data
  /\ access_token SampleApi.login_data <> []
  /\ AuthProvider.Index
       (Screen.final
          (AuthProvider.loadStoredAuth SampleApi.api_up
             (AuthProvider.reopened (AuthProvider.auth_of after_login))))
     = [Replace (lit "/parent/dashboard")].
Proof.
  intros s after_login.
  assert (Htoken : access_token SampleApi.login_data <> []) by discriminate.
  split; [reflexivity|]. split; [exact Htoken|].
  destruct (login_survives_restart SampleApi.api_up s
              (lit "parent@example.com") (lit "secret")
              (data := SampleApi.login_data) eq_refl Htoken)
    as (_ & _ & Hroute).
  exact Hroute.
Defined.

Lemma pin_survives_restart_witness :
  let s := Sample.at_home (Some (lit "0000")) [] [] in
  put_pin Sample.net_allow (lit "4321") (token (auth s)) = Resolved tt
  /\ truthy_opt (stored_token (auth s)) = true
  /\ pin_of
       (user
          (AuthProvider.auth_of
             (Screen.final
                (AuthProvider.loadStoredAuth SampleApi.api_up
                   (AuthProvider.reopened
                      (auth (final (AuthContext.updatePin (lit "4321")
                                      Sample.net_allow s))))))))
     = Some (lit "4321").
Proof.
  intros s.
  split; [reflexivity|]. split; [reflexivity|].
  exact (proj1 (pin_survives_restart Sample.net_allow SampleApi.api_up s
                  (lit "4321") eq_refl eq_refl)).
Defined.

Lemma edit_then_save_sends_the_profile_back_witness :
  let profile := SampleApi.kid_data "kid1" 7 in
  let editing :=
    Screen.final (Profiles.openEditModal profile SampleApi.api_up
                    SampleApi.profiles_screen) in
  pd_name profile <> []
  /\ 1 <= pd_age profile <= 18
  /\ Profiles.saves
       (sent (Screen.emitted (Profiles.handleSave SampleApi.api_up editing)))
     = [(Some (lit "kid1"),
         mkPayload (lit "Kid") (Some 7%Z) (lit "strict")
           [lit "games.example"] [lit "school.example"])].
Proof.
  intros profile editing.
  assert (Hname : pd_name profile <> []) by discriminate.
  assert (Hage : 1 <= pd_age profile <= 18) by (cbn; lia).
  split; [exact Hname|]. split; [exact Hage|].
  exact (proj2 (edit_then_save_sends_the_profile_back SampleApi.api_up
                  SampleApi.profiles_screen profile Hname Hage)).
Defined.

Lemma rejected_save_keeps_the_dialog_witness :
  let s :=
    Screen.final (Profiles.openEditModal (SampleApi.kid_data "kid1" 7)
                    SampleApi.api_down SampleApi.profiles_screen) in
  form_accepted s = true
  /\ Screen.final (Profiles.handleSave SampleApi.api_down s) = s
  /\ Screen.emitted (Profiles.handleSave SampleApi.api_down s)
     = [Sent (save_request s);
        Alert (lit "Error") (lit "Profile not found")].
Proof.
  intros s.
  assert (Haccepted : form_accepted s = true) by reflexivity.
  split; [exact Haccepted|].
  exact (rejected_save_keeps_the_dialog SampleApi.api_down s Haccepted).
Defined.

Lemma dashboard_offers_the_first_three_witness :
  let app := Sample.at_home (Some (lit "1234")) [] [] in
  let card := DashboardData.as_profile (SampleApi.kid_data "kid2" 9) in
  In card (DashboardData.profile_cards SampleApi.dashboard)
  /\ truthy_opt (pin_of (user (auth app))) = true
  /\ exists p,
       In p (firstn 3 (DashboardData.profiles SampleApi.dashboard))
       /\ selectedProfile
            (appMode (final (Dashboard.enterChildMode card Sample.net_allow
                               app)))
          = Some (pd_id p).
Proof.
  intros app card.
  assert (Hin : In card (DashboardData.profile_cards SampleApi.dashboard))
    by (right; left; reflexivity).
  split; [exact Hin|]. split; [reflexivity|].
  destruct (dashboard_offers_the_first_three Sample.net_allow app
              SampleApi.dashboard) as (_ & _ & _ & Hcard).
  exact (Hcard card Hin eq_refl).
Defined.

Lemma search_keyword_is_escaped_witness :
  let s := SampleApi.log_screen (lit "a&b=c d") in
  utf16 (LogsData.searchQuery s)
  /\ searches (sent (Screen.emitted (LogsData.handleSearch SampleApi.api_up s)))
     = [lit "a%26b%3Dc%20d"]
  /\ Forall (fun k => Forall (fun c => query_safe c = true) k)
       (searches
          (sent (Screen.emitted (LogsData.handleSearch SampleApi.api_up s)))).
Proof.
  intros s.
  assert (Hquery : utf16 (LogsData.searchQuery s))
    by (repeat constructor).
  split; [exact Hquery|]. split; [reflexivity|].
  assert (H := search_keyword_is_escaped SampleApi.api_up s Hquery).
  cbv zeta in H.
  apply Forall_forall. intros k Hk.
  apply (proj1 (Forall_forall _ _) H) in Hk. apply Hk.
Defined.
